(** * Logical restore job of the Database Lab engine

    A shallow embedding of [pkg/retrieval/engine/postgres/logical/restore.go]
    and the properties of its specification.

    Go strings are byte sequences: they are modelled by [string] (a list of
    8-bit [ascii]).  Go's [int] is modelled by [Z]; the job never does
    arithmetic on it, so no wrap-around appears.  Log output ([log.Msg],
    [log.Dbg], [log.Err]) has no influence on any result and is left out. *)

From Stdlib Require Import String Ascii List ZArith NArith Lia Bool DecimalString
  Permutation.
Import ListNotations.
Open Scope string_scope.

(* ================================================================== *)
(** * Part I: definitions *)
(* ================================================================== *)

(** ** Go standard library functions used by the job *)

Definition code (c : ascii) : Z := Z.of_N (N_of_ascii c).

Definition string_eqb (a b : string) : bool := String.eqb a b.

(** [strings.HasPrefix] / [bytes.HasPrefix]. *)
Definition HasPrefix (s p : string) : bool := String.prefix p s.

Fixpoint drop (n : nat) (s : string) : string :=
  match n, s with
  | O, _ => s
  | S k, String _ rest => drop k rest
  | S _, EmptyString => EmptyString
  end.

Fixpoint take (n : nat) (s : string) : string :=
  match n, s with
  | S k, String c rest => String c (take k rest)
  | _, _ => EmptyString
  end.

(** [strings.TrimPrefix] / [bytes.TrimPrefix]. *)
Definition TrimPrefix (s p : string) : string :=
  if HasPrefix s p then drop (String.length p) s else s.

(** [strings.HasSuffix]. *)
Definition HasSuffix (s suffix : string) : bool :=
  (String.length suffix <=? String.length s)%nat &&
  string_eqb (drop (String.length s - String.length suffix) s) suffix.

(** [strings.TrimSuffix]. *)
Definition TrimSuffix (s suffix : string) : string :=
  if HasSuffix s suffix
  then take (String.length s - String.length suffix) s
  else s.

(** [strconv.Itoa]: decimal text, with a leading minus sign for negatives. *)
Definition strconv_Itoa (i : Z) : string :=
  NilZero.string_of_int (Z.to_int i).

(** [strings.Join]. *)
Definition strings_Join (elems : list string) (sep : string) : string :=
  String.concat sep elems.

(** *** unicode/utf8 *)

Local Open Scope Z_scope.

Module utf8.

Definition RuneError : Z := 0xFFFD.
Definition RuneSelf : Z := 0x80.

(** The table [first] with [acceptRanges] folded in: for a leading byte of
    a multi-byte sequence, the sequence length and the range the second
    byte must lie in.  [None] for ASCII and for invalid leading bytes. *)
Definition first (s0 : Z) : option (nat * Z * Z) :=
  if (0xC2 <=? s0) && (s0 <=? 0xDF) then Some (2%nat, 0x80, 0xBF)
  else if s0 =? 0xE0 then Some (3%nat, 0xA0, 0xBF)
  else if (0xE1 <=? s0) && (s0 <=? 0xEC) then Some (3%nat, 0x80, 0xBF)
  else if s0 =? 0xED then Some (3%nat, 0x80, 0x9F)
  else if (0xEE <=? s0) && (s0 <=? 0xEF) then Some (3%nat, 0x80, 0xBF)
  else if s0 =? 0xF0 then Some (4%nat, 0x90, 0xBF)
  else if (0xF1 <=? s0) && (s0 <=? 0xF3) then Some (4%nat, 0x80, 0xBF)
  else if s0 =? 0xF4 then Some (4%nat, 0x80, 0x8F)
  else None.

Definition continuation (b : Z) : bool := (0x80 <=? b) && (b <=? 0xBF).

(** [utf8.DecodeRuneInString]: the first rune of [s] and its width in
    bytes; an invalid or truncated encoding yields [(RuneError, 1)]. *)
Definition DecodeRuneInString (s : string) : Z * nat :=
  match s with
  | EmptyString => (RuneError, 0%nat)
  | String c0 rest =>
    let s0 := code c0 in
    if s0 <? RuneSelf then (s0, 1%nat)
    else match first s0 with
    | None => (RuneError, 1%nat)
    | Some (sz, lo, hi) =>
      if (String.length s <? sz)%nat then (RuneError, 1%nat)
      else match rest with
      | EmptyString => (RuneError, 1%nat)
      | String c1 r1 =>
        let s1 := code c1 in
        if (s1 <? lo) || (hi <? s1) then (RuneError, 1%nat)
        else if (sz <=? 2)%nat
        then (Z.lor (Z.shiftl (Z.land s0 0x1F) 6) (Z.land s1 0x3F), 2%nat)
        else match r1 with
        | EmptyString => (RuneError, 1%nat)
        | String c2 r2 =>
          let s2 := code c2 in
          if negb (continuation s2) then (RuneError, 1%nat)
          else if (sz <=? 3)%nat
          then (Z.lor (Z.lor (Z.shiftl (Z.land s0 0x0F) 12)
                             (Z.shiftl (Z.land s1 0x3F) 6))
                      (Z.land s2 0x3F), 3%nat)
          else match r2 with
          | EmptyString => (RuneError, 1%nat)
          | String c3 _ =>
            let s3 := code c3 in
            if negb (continuation s3) then (RuneError, 1%nat)
            else (Z.lor (Z.lor (Z.lor (Z.shiftl (Z.land s0 0x07) 18)
                                      (Z.shiftl (Z.land s1 0x3F) 12))
                               (Z.shiftl (Z.land s2 0x3F) 6))
                        (Z.land s3 0x3F), 4%nat)
          end
        end
      end
    end
  end.

End utf8.

(** *** regexp: the pattern [\W] *)

(** The Perl class [\w] of Go's regexp syntax is ASCII only:
    [[0-9A-Za-z_]]; [\W] is every other rune, the replacement rune of an
    invalid encoding included. *)
Definition isWordRune (r : Z) : bool :=
  ((0x30 <=? r) && (r <=? 0x39)) ||
  ((0x41 <=? r) && (r <=? 0x5A)) ||
  (r =? 0x5F) ||
  ((0x61 <=? r) && (r <=? 0x7A)).

Local Close Scope Z_scope.

(** [filenameFormatter.ReplaceAllString(src, "_")] for
    [filenameFormatter = regexp.MustCompile(`\W`)].  The matcher advances
    rune by rune; each non-word rune, whatever its width, becomes one
    underscore.  [skip] counts the bytes of the current rune that are still
    to be passed over. *)
Fixpoint replaceNonWord (skip : nat) (src : string) : string :=
  match src with
  | EmptyString => EmptyString
  | String c rest =>
    match skip with
    | S k => replaceNonWord k rest
    | O =>
      let '(r, width) := utf8.DecodeRuneInString src in
      if isWordRune r
      then String c (replaceNonWord 0 rest)
      else String "_" (replaceNonWord (width - 1) rest)
    end
  end.

Definition filenameFormatter_ReplaceAllString (src : string) : string :=
  replaceNonWord 0 src.

(** *** path and path/filepath (Unix) *)

(** The loop of [filepath.Ext], which walks from the last byte towards the
    first: [rev_path] is the part not yet visited, last byte first, and
    [seen] the bytes already passed. *)
Fixpoint Ext_scan (rev_path : list ascii) (seen : list ascii) : list ascii :=
  match rev_path with
  | [] => []
  | c :: before =>
    if Ascii.eqb c "/" then []
    else if Ascii.eqb c "." then c :: seen
    else Ext_scan before (c :: seen)
  end.

(** [filepath.Ext]: the suffix beginning at the final dot in the final
    slash-separated element of the path; empty if there is no dot. *)
Definition filepath_Ext (path : string) : string :=
  string_of_list_ascii (Ext_scan (rev (list_ascii_of_string path)) []).

(** Splitting at every slash (as [strings.Split(p, "/")]). *)
Fixpoint splitSlash (p : string) : list string :=
  match p with
  | EmptyString => [EmptyString]
  | String c rest =>
    if Ascii.eqb c "/" then EmptyString :: splitSlash rest
    else match splitSlash rest with
         | [] => [String c EmptyString]
         | e :: more => String c e :: more
         end
  end.

(** One element of the path seen by [path.Clean]; [out] holds the elements
    kept so far, the last one first. *)
Definition cleanStep (rooted : bool) (out : list string) (elem : string)
  : list string :=
  if string_eqb elem "" || string_eqb elem "." then out
  else if string_eqb elem ".." then
    match out with
    | top :: below => if string_eqb top ".." then elem :: out else below
    | [] => if rooted then [] else [elem]
    end
  else elem :: out.

(** [path.Clean], element by element: empty and [.] elements vanish, [..]
    removes the element before it, [..] at the root vanishes, a leading
    [..] of a relative path stays; the empty result is [.]. *)
Definition path_Clean (p : string) : string :=
  if string_eqb p "" then "."
  else
    let rooted := HasPrefix p "/" in
    let body := strings_Join (rev (fold_left (cleanStep rooted) (splitSlash p) [])) "/" in
    if rooted then "/" ++ body
    else if string_eqb body "" then "." else body.

(** The buffer loop of [path.Join]: empty leading elements are skipped, every
    later element is appended after a slash. *)
Definition joinStep (buf : string) (e : string) : string :=
  if (0 <? String.length buf)%nat || negb (string_eqb e "")
  then (if (0 <? String.length buf)%nat then buf ++ "/" else buf) ++ e
  else buf.

(** [path.Join]. *)
Definition path_Join (elem : list string) : string :=
  if (fold_left (fun size e => size + String.length e)%nat elem 0%nat =? 0)%nat
  then ""
  else path_Clean (fold_left joinStep elem "").

(** *** bufio.Scanner with the [ScanLines] split function *)

Definition MaxScanTokenSize : N := 65536.

(** [dropCR] of bufio, on the bytes of a line held last byte first. *)
Definition dropCR (rev_line : list ascii) : list ascii :=
  match rev_line with
  | c :: before => if Ascii.eqb c "013" then before else rev_line
  | [] => []
  end.

Definition lineToken (rev_line : list ascii) : string :=
  string_of_list_ascii (rev (dropCR rev_line)).

(** The tokens the successive calls of [sc.Scan()] yield for a file with the
    given content.  [cur] is the line being buffered (last byte first) and
    [n] its length.  A line is cut at its newline and loses one trailing
    carriage return; a last line without newline is a token when it is not
    empty.  A scanner built by [bufio.NewScanner] buffers at most
    [MaxScanTokenSize] bytes: when the buffer is full and holds no newline,
    [Scan] returns false for good (the error [bufio.ErrTooLong], which
    [parsePlainFile] does not look at). *)
Fixpoint scanTokens (content : string) (cur : list ascii) (n : N) : list string :=
  match content with
  | EmptyString =>
    match cur with
    | [] => []
    | _ => [lineToken cur]
    end
  | String c rest =>
    if Ascii.eqb c "010" then lineToken cur :: scanTokens rest [] 0%N
    else if (MaxScanTokenSize <=? n + 1)%N then []
    else scanTokens rest (c :: cur) (n + 1)%N
  end.

Definition scanLines (content : string) : list string :=
  scanTokens content [] 0%N.

(** [strings.NewReplacer(pairs...).Replace(s)] for non-empty old strings:
    at every position the first pair whose old string starts there is
    applied; replaced text is not scanned again. *)
Fixpoint firstMatch (pairs : list (string * string)) (s : string)
  : option (string * string) :=
  match pairs with
  | [] => None
  | (old, new) :: more =>
    if HasPrefix s old then Some (old, new) else firstMatch more s
  end.

Fixpoint Replacer_Replace (pairs : list (string * string)) (skip : nat)
  (s : string) : string :=
  match s with
  | EmptyString => EmptyString
  | String c rest =>
    match skip with
    | S k => Replacer_Replace pairs k rest
    | O =>
      match firstMatch pairs s with
      | Some (old, new) => new ++ Replacer_Replace pairs (String.length old - 1) rest
      | None => String c (Replacer_Replace pairs 0 rest)
      end
    end
  end.

(** ** Constants of the package *)

Definition restoreContainerPrefix : string := "dblab_lr_".
Definition defaultParallelJobs : Z := 1.
Definition dumpMetafile : string := "toc.dat".
Definition prefixDBName : string := "dbname:".
Definition prefixConnectDB : string := "\connect ".
Definition prefixCreateTable : string := "CREATE TABLE ".
Definition templateCreateDB : string := "
create database @database with template = template0 encoding = 'utf8';
alter database @database owner to @username; 
".

(** Modelled from the spec: the dump format names are declared in a file of
    the package that is not part of the sources at hand; the spec gives the
    formats as custom, directory and plain. *)
Definition customFormat : string := "custom".
Definition directoryFormat : string := "directory".
Definition plainFormat : string := "plain".

(** Modelled from the spec: the label names and the label value of package
    [cont] ("Labels: dblab_control = restore, dblab_instance_id =
    <instanceID>"). *)
Module cont.
Definition DBLabControlLabel : string := "dblab_control".
Definition DBLabInstanceIDLabel : string := "dblab_instance_id".
Definition DBLabRestoreLabel : string := "restore".
End cont.

(** ** Data model *)

(** Modelled from the spec: [DBDefinition] is declared outside the sources at
    hand ("dump format, optional declared table list, optional embedded db
    name"); the field names are the ones restore.go uses. *)
Record DBDefinition : Type := mkDBDefinition {
  Tables : list string;
  Format : string;
  dbName : string
}.

(** A value of type [interface{}] decoded from YAML. *)
#[local] Unset Elimination Schemes.
Inductive YamlValue : Type :=
| YNull
| YBool (b : bool)
| YInt (i : Z)
| YString (s : string)
| YSeq (items : list YamlValue)
| YMap (entries : list (string * YamlValue)).
#[local] Set Elimination Schemes.

(** [RestoreOptions].  A Go map is kept as the list of its entries, keys
    distinct. *)
Record RestoreOptions : Type := mkRestoreOptions {
  DumpLocation : string;
  DockerImage : string;
  ContainerConfig : list (string * YamlValue);
  Databases : list (string * DBDefinition);
  ForceInit : bool;
  ParallelJobs : Z;
  Configs : list (string * string)
}.

(** [global.Config], as far as the job reads it: [User] and [Name] are the
    values of the accessors [Database.User()] and [Database.Name()]. *)
Record global_Database : Type := mkDatabase { User : string; Name : string }.
Record global_Config : Type := mkGlobal {
  InstanceID : string;
  Database : global_Database
}.

(** [resources.Pool] without its timestamp, which is mutable and lives in the
    job state below. *)
Record Pool : Type := mkPool { DataDir : string; MountDir : string }.

Module dbmarker.
(** Modelled from the spec: the persisted mark, "{dataType: logical,
    dataStateAt: <canonical timestamp>}". *)
Record Config : Type := mkConfig { DataStateAt : string; DataType : string }.
Definition LogicalDataType : string := "logical".
End dbmarker.

(** [RestoreJob]: the fields that do not change during a run.  The Docker
    client and the marker handle are the outside world; [dbMark] points to a
    record that the job mutates, it is part of the job state. *)
Record RestoreJob : Type := mkRestoreJob {
  name : string;
  fsPool : Pool;
  globalCfg : global_Config;
  Options : RestoreOptions
}.

(** [health.GetConfig(user, db)], kept by its two arguments. *)
Record health_Config : Type := mkHealth { hcUser : string; hcDBName : string }.

(** [container.Config]. *)
Record container_Config : Type := mkContainerConfig {
  Labels : list (string * string);
  Env : list string;
  Image : string;
  Healthcheck : health_Config
}.

Record mount_Mount : Type := mkMount { Source : string; Target : string }.

(** [container.HostConfig]: the bind mounts, and [Settings] for everything
    else [cont.BuildHostConfig] decides. *)
Record container_HostConfig : Type := mkHostConfig {
  Settings : list (string * YamlValue);
  Mounts : list mount_Mount
}.

Record FileInfo : Type := mkFileInfo { fiName : string; fiIsDir : bool }.

(** ** Errors *)

(** Go error values.  [errDBNameNotFound] is the package's sentinel
    ("Database name not found"); [errors_Wrap] and [errors_Wrapf] keep their
    cause, which [errors.Is] and [errors.As] follow; a formatted message is
    kept as its format and arguments; [ErrHealthCheck] is
    [*tools.ErrHealthCheck]; [External] is any error raised outside the
    package. *)
Inductive error : Type :=
| errDBNameNotFound
| errors_New (msg : string)
| errors_Errorf (format : string) (args : list string)
| errors_Wrap (cause : error) (msg : string)
| errors_Wrapf (cause : error) (format : string) (args : list string)
| ErrHealthCheck (msg : string)
| External (msg : string).

Inductive result (A : Type) : Type :=
| Ok (a : A)
| Fail (e : error).
Arguments Ok {A} a.
Arguments Fail {A} e.

(** [errors.Is(err, errDBNameNotFound)]. *)
Fixpoint is_errDBNameNotFound (e : error) : bool :=
  match e with
  | errDBNameNotFound => true
  | errors_Wrap cause _ | errors_Wrapf cause _ _ => is_errDBNameNotFound cause
  | _ => false
  end.

(** [errors.As(err, &errHealthCheck)] for [*tools.ErrHealthCheck]. *)
Fixpoint as_ErrHealthCheck (e : error) : bool :=
  match e with
  | ErrHealthCheck _ => true
  | errors_Wrap cause _ | errors_Wrapf cause _ _ => as_ErrHealthCheck cause
  | _ => false
  end.

(** ** The outside world *)

(** Calls that return only an error. *)
Inductive Action : Type :=
| PullImage (image : string)
| ContainerStart (containerID : string)
| CheckContainerReadiness (containerID : string)
| SetupPGData (dataDir containerID : string)
| UpdateConfigs (dataDir containerID : string) (configs : list (string * string))
| ExecCommand (containerID : string) (cmd : list string)
| WriteFile (fileName content : string)
| CloseFile (fileName : string)
| RemoveFile (fileName : string)
| ContainerExecAttach (execID : string)
| CloseAttach (execID : string)
| CreateConfig
| SaveConfig (mark : dbmarker.Config)
| StopPostgres (containerID dataDir : string)
| PrintContainerLogs (containerName : string)
| RemoveContainer (containerID : string).

(** Calls that return a string and an error. *)
Inductive Query : Type :=
| GeneratePassword
| ContainerCreate (config : container_Config) (hostConfig : container_HostConfig)
    (containerName : string)
| ExecCommandWithOutput (containerID : string) (tty : bool) (cmd : list string)
| TempFile (dir pattern : string)
| ContainerExecCreate (containerID : string) (cmd : list string)
| DiscoverDataStateAt (execID : string).

(** What the job did to the world and what it was answered. *)
Inductive Event : Type :=
| Did (a : Action) (err : option error)
| Got (q : Query) (out : string) (err : option error).

(** The events of a run, the latest first. *)
Definition Trace : Type := list Event.

(** Everything the job takes from outside the file: library functions whose
    definition plays no role here, constants declared elsewhere, and the
    answers of the operating system, of the Docker daemon and of the marker.
    An answer may depend on all that has happened before: each of these
    functions receives the trace so far. *)
Class Host : Type := mkHost {
  (** [time.Time] and [time.Parse(layout, value)], [None] for a parse error. *)
  time_Time : Type;
  time_Parse : string -> string -> option time_Time;
  (** [util.DataStateAtFormat], the canonical timestamp layout. *)
  DataStateAtFormat : string;
  (** [defaults.DBName]. *)
  defaults_DBName : string;
  (** [bytes.TrimSpace] and [strings.TrimSpace]. *)
  TrimSpace : string -> string;
  (** [pq.QuoteLiteral]. *)
  pq_QuoteLiteral : string -> string;
  (** [buildAnalyzeCommand], defined in another file of the package. *)
  buildAnalyzeCommand : string -> string -> Z -> list string;
  (** [options.Unmarshal(cfg, &r.RestoreOptions)]: the options decoded over the
      present ones. *)
  options_Unmarshal : list (string * YamlValue) -> RestoreOptions -> result RestoreOptions;
  (** [os.Environ()]. *)
  os_Environ : list string;
  (** [tools.IsEmptyDirectory]. *)
  tools_IsEmptyDirectory : Trace -> string -> result bool;
  (** [cont.BuildHostConfig]. *)
  cont_BuildHostConfig : Trace -> string -> list (string * YamlValue) -> result container_HostConfig;
  (** [os.Stat], as its error, and [os.IsNotExist]. *)
  os_Stat : Trace -> string -> option error;
  os_IsNotExist : error -> bool;
  (** [ioutil.ReadDir]. *)
  ioutil_ReadDir : Trace -> string -> result (list FileInfo);
  (** [os.Open] followed by reading the file: its content. *)
  os_Open : Trace -> string -> result string;
  (** The order in which [range] visits the entries of a map.  No law is
      assumed of it here: a property that needs every entry to be visited
      exactly once states so. *)
  rangeOrder : Trace -> list (string * DBDefinition) -> list (string * DBDefinition);
  (** The answers to the calls that are recorded in the trace. *)
  perform : Trace -> Action -> option error;
  request : Trace -> Query -> string * option error
}.

Section Job.

Context {host : Host}.

(** ** Job state and the monad of the job *)

(** What a run mutates: the record behind [r.dbMark], the timestamp of the
    pool ([fsPool.SetDSA]), and the trace of the calls made so far. *)
Record JobState : Type := mkJobState {
  dbMark : dbmarker.Config;
  dsa : time_Time;
  trace : Trace
}.

Definition Job (A : Type) : Type := JobState -> result A * JobState.

Definition ret {A} (a : A) : Job A := fun s => (Ok a, s).
Definition fail {A} (e : error) : Job A := fun s => (Fail e, s).
Definition bind {A B} (m : Job A) (k : A -> Job B) : Job B :=
  fun s => match m s with
           | (Ok a, s') => k a s'
           | (Fail e, s') => (Fail e, s')
           end.

Notation "x <- m ;; k" := (bind m (fun x => k))
  (at level 61, m at next level, right associativity).
Notation "m ;;; k" := (bind m (fun _ => k))
  (at level 61, right associativity).

(** An error-only call: ask the world, record call and answer. *)
Definition do (a : Action) : Job (option error) := fun s =>
  let err := perform (trace s) a in
  (Ok err, mkJobState (dbMark s) (dsa s) (Did a err :: trace s)).

(** A call with a string result. *)
Definition ask (q : Query) : Job (string * option error) := fun s =>
  let '(out, err) := request (trace s) q in
  (Ok (out, err), mkJobState (dbMark s) (dsa s) (Got q out err :: trace s)).

(** Reading the world without changing it. *)
Definition look {A} (f : Trace -> A) : Job A := fun s => (Ok (f (trace s)), s).

(** [if err := call; err != nil { return wrap(err) }]. *)
Definition check (err : option error) (wrap : error -> error) : Job unit :=
  match err with
  | Some e => fail (wrap e)
  | None => ret tt
  end.

(** [defer]: [cleanup] runs when [body] is left, whatever its outcome, which
    it does not change; it sees the error [body] returns. *)
Definition defer {A} (cleanup : option error -> Job unit) (body : Job A) : Job A :=
  fun s => match body s with
           | (r, s') =>
             let err := match r with Ok _ => None | Fail e => Some e end in
             (r, snd (cleanup err s'))
           end.

Definition get_dbMark : Job dbmarker.Config := fun s => (Ok (dbMark s), s).
Definition set_DataStateAt (v : string) : Job unit := fun s =>
  (Ok tt, mkJobState (dbmarker.mkConfig v (dbmarker.DataType (dbMark s))) (dsa s) (trace s)).
(** [r.fsPool.SetDSA]. *)
Definition SetDSA (t : time_Time) : Job unit := fun s =>
  (Ok tt, mkJobState (dbMark s) t (trace s)).

(** ** The job *)

Definition withOptions (r : RestoreJob) (o : RestoreOptions) : RestoreJob :=
  mkRestoreJob (name r) (fsPool r) (globalCfg r) o.

Definition withParallelJobs (o : RestoreOptions) (n : Z) : RestoreOptions :=
  mkRestoreOptions (DumpLocation o) (DockerImage o) (ContainerConfig o)
    (Databases o) (ForceInit o) n (Configs o).

Definition setDefaults (r : RestoreJob) : RestoreJob :=
  if (ParallelJobs (Options r) =? 0)%Z
  then withOptions r (withParallelJobs (Options r) defaultParallelJobs)
  else r.

Definition restoreContainerName (r : RestoreJob) : string :=
  restoreContainerPrefix ++ InstanceID (globalCfg r).

(** [Reload]. *)
Definition Reload (r : RestoreJob) (cfg : list (string * YamlValue)) : result RestoreJob :=
  match options_Unmarshal cfg (Options r) with
  | Fail err => Fail (errors_Wrap err "failed to unmarshal configuration options")
  | Ok o => Ok (setDefaults (withOptions r o))
  end.

(** The mark a new job starts with:
    [&dbmarker.Config{DataType: dbmarker.LogicalDataType}]. *)
Definition newMark : dbmarker.Config :=
  dbmarker.mkConfig "" dbmarker.LogicalDataType.

(** [NewJob]: [jobName] is [cfg.Spec.Name], [pool] is [cfg.FSPool], [spec] is
    [cfg.Spec.Options]; the options start as the zero value. *)
Definition NewJob (jobName : string) (pool : Pool) (spec : list (string * YamlValue))
  (global : global_Config) : result RestoreJob :=
  let restoreJob := mkRestoreJob jobName pool global
                      (mkRestoreOptions "" "" [] [] false 0 []) in
  match Reload restoreJob spec with
  | Fail err => Fail (errors_Wrap err "failed to unmarshal configuration options")
  | Ok restoreJob' => Ok (setDefaults restoreJob')
  end.

Definition getDumpLocation (r : RestoreJob) (dumpFormat dbName : string) : string :=
  if string_eqb dumpFormat customFormat
  then DumpLocation (Options r)
  else path_Join [DumpLocation (Options r); dbName].

(** [formatDBName] extracts a database name from a file name and adjusts it. *)
Definition formatDBName (fileName : string) : string :=
  filenameFormatter_ReplaceAllString (TrimSuffix fileName (filepath_Ext fileName)).

Definition buildPlainTextCommand (r : RestoreJob) (dumpName : string)
  (definition : DBDefinition) : list string :=
  let dbName0 := defaults_DBName in
  let dbName1 := if string_eqb (dbName definition) "" then formatDBName dumpName
                 else dbName0 in
  ["psql"; "--username"; User (Database (globalCfg r)); "--dbname"; dbName1;
   "--file"; getDumpLocation r (Format definition) dumpName].

Definition buildPGRestoreCommand (r : RestoreJob) (dumpName : string)
  (definition : DBDefinition) : list string :=
  let restoreCmd := ["pg_restore"; "--username"; User (Database (globalCfg r));
                     "--dbname"; defaults_DBName; "--no-privileges"; "--no-owner"] in
  let restoreCmd := if negb (string_eqb dumpName defaults_DBName)
                    then (restoreCmd ++ ["--create"])%list else restoreCmd in
  let restoreCmd := if ForceInit (Options r)
                    then (restoreCmd ++ ["--clean"; "--if-exists"])%list else restoreCmd in
  let restoreCmd := (restoreCmd ++ ["--jobs"; strconv_Itoa (ParallelJobs (Options r))])%list in
  let restoreCmd :=
    if (0 <? List.length (Tables definition))%nat
    then fold_left (fun cmd table => (cmd ++ ["--table"; table])%list) (Tables definition) restoreCmd
    else restoreCmd in
  (restoreCmd ++ [getDumpLocation r (Format definition) dumpName])%list.

Definition buildLogicalRestoreCommand (r : RestoreJob) (dumpName : string)
  (definition : DBDefinition) : list string :=
  if string_eqb (Format definition) plainFormat
  then buildPlainTextCommand r dumpName definition
  else buildPGRestoreCommand r dumpName definition.

Definition buildContainerConfig (r : RestoreJob) (password : string) : container_Config :=
  mkContainerConfig
    [(cont.DBLabControlLabel, cont.DBLabRestoreLabel);
     (cont.DBLabInstanceIDLabel, InstanceID (globalCfg r))]
    (os_Environ ++ [("PGDATA=" ++ DataDir (fsPool r))%string;
                    ("POSTGRES_PASSWORD=" ++ password)%string])%list
    (DockerImage (Options r))
    (mkHealth (User (Database (globalCfg r))) (Name (Database (globalCfg r)))).

Notation "' pat <- m ;; k" :=
  (bind m (fun x => match x with pat => k end))
  (at level 61, pat pattern, m at next level, right associativity).

(** A call that yields a value or an error, answered from the trace so far. *)
Definition lookResult {A} (f : Trace -> result A) (wrap : error -> error) : Job A :=
  fun s => match f (trace s) with
           | Ok a => (Ok a, s)
           | Fail e => (Fail (wrap e), s)
           end.

(** [if err := m; err != nil { return wrap(err) }] for a function of the
    package. *)
Definition wrapErr {A} (m : Job A) (wrap : error -> error) : Job A :=
  fun s => match m s with
           | (Ok a, s') => (Ok a, s')
           | (Fail e, s') => (Fail (wrap e), s')
           end.

(** The loop of [parsePlainFile] over the lines the scanner yields. *)
Fixpoint scanLoop (lines : list string) : result string :=
  match lines with
  | [] => Fail errDBNameNotFound
  | line :: more =>
    if HasPrefix line prefixConnectDB then
      let nameCandidate := TrimSpace (TrimPrefix line prefixConnectDB) in
      if (0 <? String.length nameCandidate)%nat
      then Ok nameCandidate
      else Fail errDBNameNotFound
    else if HasPrefix line prefixCreateTable then
      Fail errDBNameNotFound
    else scanLoop more
  end.

Definition parsePlainFile (dumpPath : string) : Job string :=
  content <- lookResult (fun t => os_Open t dumpPath)
               (fun err => errors_Wrap err "failed to open dump file") ;;
  match scanLoop (scanLines content) with
  | Ok dbName => ret dbName
  | Fail err => fail err
  end.

(** Assignment [m[k] = v] to a map. *)
Fixpoint mapSet {V} (m : list (string * V)) (k : string) (v : V) : list (string * V) :=
  match m with
  | [] => [(k, v)]
  | (k', v') :: rest =>
    if string_eqb k k' then (k, v) :: rest else (k', v') :: mapSet rest k v
  end.

(** The loop of [discoverDumpLocation]. *)
Fixpoint discoverEntries (dumpLocation : string) (fileInfos : list FileInfo)
  (dbList : list (string * DBDefinition)) : Job (list (string * DBDefinition)) :=
  match fileInfos with
  | [] => ret dbList
  | info :: more =>
    if fiIsDir info then
      discoverEntries dumpLocation more
        (mapSet dbList (fiName info) (mkDBDefinition [] directoryFormat ""))
    else
      let dumpPath := path_Join [dumpLocation; fiName info] in
      fun s =>
        match parsePlainFile dumpPath s with
        | (Fail err, s') =>
          if is_errDBNameNotFound err then
            discoverEntries dumpLocation more
              (mapSet dbList (fiName info) (mkDBDefinition [] plainFormat "")) s'
          else (Fail err, s')
        | (Ok dbName, s') =>
          discoverEntries dumpLocation more
            (mapSet dbList (fiName info) (mkDBDefinition [] plainFormat dbName)) s'
        end
  end.

(** [discoverDumpLocation] discovers a dump location when a metafile of a
    custom dump format does not exist. *)
Definition discoverDumpLocation (dumpLocation : string)
  : Job (list (string * DBDefinition)) :=
  fileInfos <- lookResult (fun t => ioutil_ReadDir t dumpLocation)
                 (fun err => errors_Wrap err "failed to discover dump location") ;;
  discoverEntries dumpLocation fileInfos [].

(** [discoverCustomDump] discovers a dump location when a metafile exists in
    order to extract a database name. *)
Definition discoverCustomDump (contID dumpMetaPath : string)
  : Job (list (string * DBDefinition)) :=
  let extractDBNameCmd :=
    "pg_restore --list " ++ dumpMetaPath ++ " | grep " ++ prefixDBName ++ " | tr -d '[;]'" in
  ' (outputLine, err) <- ask (ExecCommandWithOutput contID false
                               ["bash"; "-c"; extractDBNameCmd]) ;;
  check err (fun e => errors_Wrap e "failed to find a database name to restore") ;;;
  if string_eqb outputLine "" then
    fail (errors_New "a database name to restore not found")
  else
    let dbName := TrimSpace (TrimPrefix outputLine prefixDBName) in
    ret [(dbName, mkDBDefinition [] customFormat "")].

Definition getDBList (r : RestoreJob) (dumpLocation dumpFileMeta contID : string)
  : Job (list (string * DBDefinition)) :=
  if (0 <? List.length (Databases (Options r)))%nat then ret (Databases (Options r))
  else
    let dumpMetafilePath := path_Join [dumpLocation; dumpFileMeta] in
    statErr <- look (fun t => os_Stat t dumpMetafilePath) ;;
    match statErr with
    | None => discoverCustomDump contID dumpMetafilePath
    | Some err =>
      if os_IsNotExist err then discoverDumpLocation dumpLocation
      else fail err
    end.

(** [prepareDB] creates a new database if it does not exist in the dump file. *)
Definition prepareDB (r : RestoreJob) (contID dbName : string) : Job unit :=
  let creationSQL :=
    Replacer_Replace
      [("@database", pq_QuoteLiteral (formatDBName dbName));
       ("@username", pq_QuoteLiteral (User (Database (globalCfg r))))]
      0 templateCreateDB in
  ' (tempFile, err) <- ask (TempFile (DumpLocation (Options r))
                             ("createdb_" ++ dbName ++ "_*.sql")) ;;
  check err (fun e => e) ;;;
  defer (fun _ => do (RemoveFile tempFile) ;;; ret tt)
    (defer (fun _ => do (CloseFile tempFile) ;;; ret tt)
       (err <- do (WriteFile tempFile creationSQL) ;;
        check err (fun e => e) ;;;
        let cmd := ["psql"; "--username"; User (Database (globalCfg r));
                    "--dbname"; defaults_DBName; "--file"; tempFile] in
        err <- do (ExecCommand contID cmd) ;;
        check err (fun e => errors_Wrap e "failed to exec restore command"))).

(** [retrieveDataStateAt]: the pair Go returns, the string being empty
    whenever the error is not nil. *)
Definition retrieveDataStateAt (contID dumpLocation : string)
  : Job (string * option error) :=
  let restoreMetaCmd :=
    ["sh"; "-c"; "pg_restore --list " ++ dumpLocation ++ " | head -n 10"] in
  ' (execID, err) <- ask (ContainerExecCreate contID restoreMetaCmd) ;;
  match err with
  | Some e => ret ("", Some (errors_Wrap e "failed to create a restore metadata command"))
  | None =>
    err <- do (ContainerExecAttach execID) ;;
    match err with
    | Some e => ret ("", Some (errors_Wrap e "failed to exec a restore metadata command"))
    | None =>
      defer (fun _ => do (CloseAttach execID) ;;; ret tt)
        (' (dataStateAt, err) <- ask (DiscoverDataStateAt execID) ;;
         match err with
         | Some e => ret ("", Some e)
         | None => ret (dataStateAt, None)
         end)
    end
  end.

(** [updateDataStateAt] updates dataStateAt for in-memory representation of a
    storage pool. *)
Definition updateDataStateAt : Job unit :=
  mark <- get_dbMark ;;
  match time_Parse DataStateAtFormat (dbmarker.DataStateAt mark) with
  | None => ret tt
  | Some dsaTime => SetDSA dsaTime
  end.

Definition markDatabase (contID dumpLocation : string) : Job unit :=
  ' (dataStateAt, _) <- retrieveDataStateAt contID dumpLocation ;;
  (if negb (string_eqb dataStateAt "") then set_DataStateAt dataStateAt else ret tt) ;;;
  err <- do CreateConfig ;;
  check err (fun e => errors_Wrap e "failed to create a DBMarker config of the database") ;;;
  mark <- get_dbMark ;;
  err <- do (SaveConfig mark) ;;
  check err (fun e => errors_Wrap e "failed to mark the database") ;;;
  updateDataStateAt.

(** [restoreDB]; its parameter [dbName], the restore unit name, is called
    [unitName] here, [dbName] being the field of [DBDefinition]. *)
Definition restoreDB (r : RestoreJob) (contID unitName : string)
  (dbDefinition : DBDefinition) : Job unit :=
  (if string_eqb (Format dbDefinition) plainFormat
      && string_eqb (dbName dbDefinition) ""
   then wrapErr (prepareDB r contID unitName)
          (fun err => errors_Wrapf err "failed to prepare database for dump: %s" [unitName])
   else ret tt) ;;;
  let restoreCommand := buildLogicalRestoreCommand r unitName dbDefinition in
  ' (_, err) <- ask (ExecCommandWithOutput contID true restoreCommand) ;;
  check err (fun e => errors_Wrap e "failed to exec restore command") ;;;
  let dumpLocation := getDumpLocation r (Format dbDefinition) unitName in
  if string_eqb (Format dbDefinition) plainFormat then ret tt
  else wrapErr (markDatabase contID dumpLocation)
         (fun err => errors_Wrap err "failed to mark the database").

Definition getHostConfig (r : RestoreJob) : Job container_HostConfig :=
  hostConfig <- lookResult
    (fun t => cont_BuildHostConfig t (DataDir (fsPool r)) (ContainerConfig (Options r)))
    (fun err => err) ;;
  if HasPrefix (DumpLocation (Options r)) (MountDir (fsPool r)) then
    ret (mkHostConfig (Settings hostConfig)
           (Mounts hostConfig ++
            [mkMount (DumpLocation (Options r)) (DumpLocation (Options r))])%list)
  else ret hostConfig.

(** The loop of [Run] over the databases, in the order [range] visits them. *)
Fixpoint restoreAll (r : RestoreJob) (contID : string)
  (dbList : list (string * DBDefinition)) : Job unit :=
  match dbList with
  | [] => ret tt
  | (dbName, dbDefinition) :: more =>
    wrapErr (restoreDB r contID dbName dbDefinition)
      (fun err => errors_Wrap err "failed to restore a database") ;;;
    restoreAll r contID more
  end.

(** What [Run] does once the container exists. *)
Definition runInContainer (r : RestoreJob) (contID : string) : Job unit :=
  err <- do (ContainerStart contID) ;;
  check err (fun e => errors_Wrapf e "failed to start container %q" [restoreContainerName r]) ;;;
  let dataDir := DataDir (fsPool r) in
  err <- do (CheckContainerReadiness contID) ;;
  match err with
  | Some e =>
    if negb (as_ErrHealthCheck e) then fail (errors_Wrap e "failed to readiness check")
    else
      err <- do (SetupPGData dataDir contID) ;;
      check err (fun e => errors_Wrap e "failed to set up Postgres data")
  | None => ret tt
  end ;;;
  (if (0 <? List.length (Configs (Options r)))%nat then
     err <- do (UpdateConfigs dataDir contID (Configs (Options r))) ;;
     check err (fun e => errors_Wrap e "failed to update configs")
   else ret tt) ;;;
  dbList <- getDBList r (DumpLocation (Options r)) dumpMetafile contID ;;
  visited <- look (fun t => rangeOrder t dbList) ;;
  restoreAll r contID visited ;;;
  let analyzeCmd := buildAnalyzeCommand (User (Database (globalCfg r)))
                      (Name (Database (globalCfg r))) (ParallelJobs (Options r)) in
  err <- do (ExecCommand contID analyzeCmd) ;;
  check err (fun e => errors_Wrap e "failed to recalculate statistics after restore") ;;;
  err <- do (StopPostgres contID dataDir) ;;
  check err (fun e => errors_Wrap e "failed to stop Postgres instance").

(** [Run] starts the job. *)
Definition Run (r : RestoreJob) : Job unit :=
  isEmpty <- lookResult (fun t => tools_IsEmptyDirectory t (DataDir (fsPool r)))
               (fun err => errors_Wrapf err "failed to explore the data directory %q"
                             [DataDir (fsPool r)]) ;;
  (if negb isEmpty then
     if negb (ForceInit (Options r)) then
       fail (errors_Errorf
               "the data directory %q is not empty. Use 'forceInit' or empty the data directory"
               [DataDir (fsPool r)])
     else ret tt
   else ret tt) ;;;
  err <- do (PullImage (DockerImage (Options r))) ;;
  check err (fun e => errors_Wrap e "failed to scan image pulling response") ;;;
  hostConfig <- wrapErr (getHostConfig r)
                  (fun err => errors_Wrap err "failed to build container host config") ;;
  ' (pwd, err) <- ask GeneratePassword ;;
  check err (fun e => errors_Wrap e "failed to generate PostgreSQL password") ;;;
  ' (restoreContID, err) <- ask (ContainerCreate (buildContainerConfig r pwd) hostConfig
                                   (restoreContainerName r)) ;;
  check err (fun e => errors_Wrapf e "failed to create container %q"
                        [restoreContainerName r]) ;;;
  defer (fun _ => do (RemoveContainer restoreContID) ;;; ret tt)
    (defer (fun err => match err with
                       | Some _ => do (PrintContainerLogs (restoreContainerName r)) ;;; ret tt
                       | None => ret tt
                       end)
       (runInContainer r restoreContID)).

End Job.

(** ** Reading traces *)

(** The events added to the trace [before] to reach [now], the latest first. *)
Definition since (before now : Trace) : Trace :=
  firstn (List.length now - List.length before) now.

(** The timestamps of the marks saved successfully, in the order of saving. *)
Fixpoint savedStamps (t : Trace) : list string :=
  match t with
  | [] => []
  | Did (SaveConfig mark) None :: earlier =>
    (savedStamps earlier ++ [dbmarker.DataStateAt mark])%list
  | _ :: earlier => savedStamps earlier
  end.

(** The answers of [tools.DiscoverDataStateAt], in the order of asking. *)
Fixpoint extractions (t : Trace) : list (string * option error) :=
  match t with
  | [] => []
  | Got (DiscoverDataStateAt _) out err :: earlier =>
    (extractions earlier ++ [(out, err)])%list
  | _ :: earlier => extractions earlier
  end.

(** ** The restore command in the words of the specification *)

Section CommandSpec.

Context {host : Host}.

(** [pg_restore --username <user> --dbname <default> --no-privileges
    --no-owner [--create if unit name <> default] [--clean --if-exists if
    force-init]]. *)
Definition pgRestoreHead (r : RestoreJob) (unitName : string) : list string :=
  (["pg_restore"; "--username"; User (Database (globalCfg r));
    "--dbname"; defaults_DBName; "--no-privileges"; "--no-owner"]
   ++ (if string_eqb unitName defaults_DBName then [] else ["--create"])
   ++ (if ForceInit (Options r) then ["--clean"; "--if-exists"] else []))%list.

(** [[--table T]*], one pair per declared table, in order. *)
Definition tableArgs (tables : list string) : list string :=
  flat_map (fun T => ["--table"; T]) tables.

End CommandSpec.

(** ** A scripted world

    A concrete [Host], used to run the job on examples.  Timestamps are
    numbers; [time.Parse] is stood in for by a reader of fourteen decimal
    digits and [TrimSpace] by a trimmer of ASCII white space, which is what
    [bytes.TrimSpace] does on ASCII text.  Both agree with Go on the inputs
    of the examples only: Go also trims the Unicode white space, and rejects
    fourteen digits that are no date.  The theorems about the job hold for
    every [Host]; they do not rest on these two. *)

Definition isAsciiSpace (c : ascii) : bool :=
  let n := nat_of_ascii c in
  ((9 <=? n) && (n <=? 13))%nat || (n =? 32)%nat.

Fixpoint trimLeft (s : string) : string :=
  match s with
  | String c rest => if isAsciiSpace c then trimLeft rest else s
  | EmptyString => EmptyString
  end.

Definition reverse (s : string) : string :=
  string_of_list_ascii (rev (list_ascii_of_string s)).

Definition asciiTrimSpace (s : string) : string :=
  reverse (trimLeft (reverse (trimLeft s))).

Definition parseDigits (layout value : string) : option Z :=
  if (String.length value =? 14)%nat then
    match NilEmpty.uint_of_string value with
    | Some u => Some (Z.of_uint u)
    | None => None
    end
  else None.

Record Scenario : Type := mkScenario {
  scEnviron : list string;
  scDataDirEmpty : bool;
  (** files with their content, and the entries of the dump location *)
  scFiles : list (string * string);
  scEntries : list FileInfo;
  (** the successive answers of [tools.DiscoverDataStateAt] *)
  scStamps : list (string * option error);
  (** the commands that fail when run by [tools.ExecCommandWithOutput] *)
  scFailing : list (list string)
}.

Fixpoint lookupFile (files : list (string * string)) (path : string) : option string :=
  match files with
  | [] => None
  | (p, content) :: more => if string_eqb p path then Some content else lookupFile more path
  end.

Definition errNotExist : error := External "no such file or directory".

Fixpoint discoveries (t : Trace) : nat :=
  match t with
  | [] => 0
  | Got (DiscoverDataStateAt _) _ _ :: earlier => S (discoveries earlier)
  | _ :: earlier => discoveries earlier
  end.

Fixpoint listed (cmd : list string) (cmds : list (list string)) : bool :=
  match cmds with
  | [] => false
  | c :: more => if list_eq_dec string_dec cmd c then true else listed cmd more
  end.

Definition scriptedRequest (sc : Scenario) (t : Trace) (q : Query) : string * option error :=
  match q with
  | GeneratePassword => ("s3cr3t", None)
  | ContainerCreate _ _ _ => ("c0ffee", None)
  | ExecCommandWithOutput _ _ cmd =>
    if listed cmd (scFailing sc) then ("", Some (External "exit code 1")) else ("", None)
  | TempFile dir pattern => (path_Join [dir; pattern], None)
  | ContainerExecCreate _ _ => ("exec", None)
  | DiscoverDataStateAt _ =>
    nth (discoveries t) (scStamps sc) ("", Some (External "no more output"))
  end.

Definition scripted (sc : Scenario) : Host :=
  mkHost Z parseDigits "20060102150405" "postgres" asciiTrimSpace
    (fun s => "'" ++ s ++ "'")
    (fun user _ jobs => ["vacuumdb"; "--analyze"; "--jobs"; strconv_Itoa jobs;
                         "--username"; user; "--all"])
    (fun _ o => Ok o)
    (scEnviron sc)
    (fun _ _ => Ok (scDataDirEmpty sc))
    (fun _ _ settings => Ok (mkHostConfig settings []))
    (fun _ path => match lookupFile (scFiles sc) path with
                   | Some _ => None
                   | None => Some errNotExist
                   end)
    (fun e => match e with
              | External msg => string_eqb msg "no such file or directory"
              | _ => false
              end)
    (fun _ _ => Ok (scEntries sc))
    (fun _ path => match lookupFile (scFiles sc) path with
                   | Some content => Ok content
                   | None => Fail errNotExist
                   end)
    (fun _ dbList => dbList)
    (fun _ _ => None)
    (scriptedRequest sc).

(** ** Predicates of the properties *)

Definition wordByte (c : ascii) : bool := isWordRune (code c).

Fixpoint allWord (s : string) : bool :=
  match s with
  | EmptyString => true
  | String c rest => wordByte c && allWord rest
  end.


Section TracePredicates.

Context {host : Host}.

(** [emits P m]: whatever the state, running [m] only adds events to the
    trace, and every event it adds satisfies [P]. *)
Definition emits {A} (P : Event -> Prop) (m : Job A) : Prop :=
  forall s, exists new,
    trace (snd (m s)) = (new ++ trace s)%list /\ Forall P new.

(** The events that do not run a command in the container through
    [tools.ExecCommandWithOutput], create an exec, create a container or
    save a mark: those of the preparation steps. *)
Definition quiet (e : Event) : Prop :=
  match e with
  | Got (ExecCommandWithOutput _ _ _) _ _ => False
  | Got (ContainerExecCreate _ _) _ _ => False
  | Got (ContainerCreate _ _ _) _ _ => False
  | Did (SaveConfig _) _ => False
  | _ => True
  end.

(** The events that do not create a container. *)
Definition notCreate (e : Event) : Prop :=
  match e with
  | Got (ContainerCreate _ _ _) _ _ => False
  | _ => True
  end.

(** In what a run adds to the trace, a container is created only under the
    job's container name and with the configuration built for a password
    that [tools.GeneratePassword] has just returned. *)
Definition createdAsBuilt (r : RestoreJob) (new : Trace) : Prop :=
  forall cfg hc nm id err,
    In (Got (ContainerCreate cfg hc nm) id err) new ->
    nm = restoreContainerName r
    /\ exists pwd, In (Got GeneratePassword pwd None) new
                   /\ cfg = buildContainerConfig r pwd.

(** [startsWith q m]: the first thing [m] does is the call [q]. *)
Definition startsWith {A} (q : Query) (m : Job A) : Prop :=
  forall s, exists later out err,
    trace (snd (m s)) = (later ++ Got q out err :: trace s)%list.

End TracePredicates.

(** ** Sample inputs *)

Definition newline : string := String "010" "".

(** A dump location with a plain dump that names its database, a plain dump
    that does not, and two directory dumps; the second timestamp extraction
    fails. *)
Definition sampleScenario : Scenario :=
  mkScenario ["PATH=/usr/bin"] true
    [("/dump/backup.sql",
      "SET statement_timeout = 0;" ++ newline ++ "\connect payments" ++ newline
      ++ "CREATE TABLE t();" ++ newline);
     ("/dump/legacy-db.sql", "CREATE TABLE t();" ++ newline)]
    [mkFileInfo "backup.sql" false; mkFileInfo "legacy-db.sql" false;
     mkFileInfo "orders" true; mkFileInfo "users" true]
    [("20200101120000", None); ("", Some (External "timestamp not found"))]
    [].

(** The same with a data directory that is not empty. *)
Definition usedDataDirScenario : Scenario :=
  mkScenario ["PATH=/usr/bin"] false [] [] [] [].

(** Every timestamp extraction fails. *)
Definition noStampScenario : Scenario :=
  mkScenario [] true [] [] [("", Some (External "timestamp not found"))] [].

Definition sampleOptions (jobs : Z) : RestoreOptions :=
  mkRestoreOptions "/dump" "postgres:12" [] [] false jobs [].

Definition sampleJob (jobs : Z) : RestoreJob :=
  mkRestoreJob "logicalRestore" (mkPool "/data" "/var/lib/dblab")
    (mkGlobal "abc" (mkDatabase "postgres" "postgres")) (sampleOptions jobs).

(** The state of a job that has not run yet, with the given timestamp in
    its mark. *)
Definition freshState (sc : Scenario) (stamp : string) : @JobState (scripted sc) :=
  @mkJobState (scripted sc) (dbmarker.mkConfig stamp dbmarker.LogicalDataType) 0%Z [].

(** ** Further predicates and sample inputs *)

(** Reading [m[k]] from a map. *)
Fixpoint mapGet {V} (m : list (string * V)) (k : string) : option V :=
  match m with
  | [] => None
  | (k', v) :: rest => if string_eqb k k' then Some v else mapGet rest k
  end.

(** The events a run may produce inside the container [id]: every call that
    names a container names [id]; no image is pulled, no password generated,
    no container created or removed and no container log printed. *)
Definition inContainer (id : string) (e : Event) : Prop :=
  match e with
  | Did (ContainerStart c) _ => c = id
  | Did (CheckContainerReadiness c) _ => c = id
  | Did (SetupPGData _ c) _ => c = id
  | Did (UpdateConfigs _ c _) _ => c = id
  | Did (ExecCommand c _) _ => c = id
  | Did (StopPostgres c _) _ => c = id
  | Got (ExecCommandWithOutput c _ _) _ _ => c = id
  | Got (ContainerExecCreate c _) _ _ => c = id
  | Did (PullImage _) _ => False
  | Did (RemoveContainer _) _ => False
  | Did (PrintContainerLogs _) _ => False
  | Got GeneratePassword _ _ => False
  | Got (ContainerCreate _ _ _) _ _ => False
  | _ => True
  end.

(** The SQL [prepareDB] writes, for the quoted database name and user name. *)
Definition creationSQL (quotedDatabase quotedUser : string) : string :=
  "
create database " ++ quotedDatabase ++ " with template = template0 encoding = 'utf8';
alter database " ++ quotedDatabase ++ " owner to " ++ quotedUser ++ "; 
".

(** The calls [Run] makes before a container exists: pulling the image,
    generating the password, and a [ContainerCreate] that failed. *)
Definition beforeContainer (e : Event) : Prop :=
  match e with
  | Did (PullImage _) _ => True
  | Got GeneratePassword _ _ => True
  | Got (ContainerCreate _ _ _) _ (Some _) => True
  | _ => False
  end.

(** The container an event addresses by its ID, if it addresses one. *)
Definition containerOf (e : Event) : option string :=
  match e with
  | Did (ContainerStart c) _ => Some c
  | Did (CheckContainerReadiness c) _ => Some c
  | Did (SetupPGData _ c) _ => Some c
  | Did (UpdateConfigs _ c _) _ => Some c
  | Did (ExecCommand c _) _ => Some c
  | Did (StopPostgres c _) _ => Some c
  | Did (RemoveContainer c) _ => Some c
  | Got (ExecCommandWithOutput c _ _) _ _ => Some c
  | Got (ContainerExecCreate c _) _ _ => Some c
  | _ => None
  end.

(** The commands that [tools.ExecCommandWithOutput] ran with success on a
    terminal ([Tty: true]), in the order they ran: the restore commands. *)
Fixpoint restoredCommands (t : Trace) : list (list string) :=
  match t with
  | [] => []
  | Got (ExecCommandWithOutput _ true cmd) _ None :: earlier =>
    (restoredCommands earlier ++ [cmd])%list
  | _ :: earlier => restoredCommands earlier
  end.

(** The events that are not a successful restore command. *)
Definition calm (e : Event) : Prop :=
  match e with
  | Got (ExecCommandWithOutput _ true _) _ None => False
  | _ => True
  end.

(** The events of a run once the container is ready: it is not started,
    checked or set up again. *)
Definition restoring (e : Event) : Prop :=
  match e with
  | Did (ContainerStart _) _ => False
  | Did (CheckContainerReadiness _) _ => False
  | Did (SetupPGData _ _) _ => False
  | _ => True
  end.

(** The calls of a run that come before it asks for the databases: pulling
    the image, generating the password, creating, starting, checking and
    setting up the container, and updating the configuration. *)
Definition preparing (e : Event) : Prop :=
  match e with
  | Did (PullImage _) _ => True
  | Got GeneratePassword _ _ => True
  | Got (ContainerCreate _ _ _) _ _ => True
  | Did (ContainerStart _) _ => True
  | Did (CheckContainerReadiness _) _ => True
  | Did (SetupPGData _ _) _ => True
  | Did (UpdateConfigs _ _ _) _ => True
  | _ => False
  end.

(** All the other calls. *)
Definition afterPreparing (e : Event) : Prop :=
  match e with
  | Did (PullImage _) _ => False
  | Got GeneratePassword _ _ => False
  | Got (ContainerCreate _ _ _) _ _ => False
  | Did (ContainerStart _) _ => False
  | Did (CheckContainerReadiness _) _ => False
  | Did (SetupPGData _ _) _ => False
  | Did (UpdateConfigs _ _ _) _ => False
  | _ => True
  end.

Section StatePredicates.

Context {host : Host}.

(** [steady m]: [m] leaves the job's mark and the pool's timestamp alone. *)
Definition steady {A} (m : Job A) : Prop :=
  forall s, dbMark (snd (m s)) = dbMark s /\ dsa (snd (m s)) = dsa s.

(** The timestamp [stamp] was extracted in the events [new]: it is not
    empty and [tools.DiscoverDataStateAt] returned it without error. *)
Definition extractedIn (stamp : string) (new : Trace) : Prop :=
  stamp <> "" /\ exists execID, In (Got (DiscoverDataStateAt execID) stamp None) new.

(** The mark [mark] descends from the mark [init] through the events [new]:
    it has the data type of [init], and its timestamp is the one of [init]
    or was extracted in [new]. *)
Definition descends (init : dbmarker.Config) (new : Trace) (mark : dbmarker.Config) : Prop :=
  dbmarker.DataType mark = dbmarker.DataType init
  /\ (dbmarker.DataStateAt mark = dbmarker.DataStateAt init
      \/ extractedIn (dbmarker.DataStateAt mark) new).

(** [reached s0 s]: the state [s] comes after [s0], and the job's mark in [s]
    as well as every mark handed to [SaveConfig] since [s0] descend from the
    job's mark in [s0]. *)
Definition reached (s0 s : JobState) : Prop :=
  exists new,
    trace s = (new ++ trace s0)%list
    /\ descends (dbMark s0) new (dbMark s)
    /\ forall mark err, In (Did (SaveConfig mark) err) new -> descends (dbMark s0) new mark.

(** [maintains s0 m]: [m] leads from states reached from [s0] to such states. *)
Definition maintains {A} (s0 : JobState) (m : Job A) : Prop :=
  forall s, reached s0 s -> reached s0 (snd (m s)).

(** [keeps R m]: [m] leads from states that satisfy [R] to such states. *)
Definition keeps {A} (R : JobState -> Prop) (m : Job A) : Prop :=
  forall s, R s -> R (snd (m s)).

(** [timed s0 s]: the state [s] comes after [s0], and the timestamp of the
    pool in [s] is the one in [s0] or the parsed timestamp of a mark saved
    with success since [s0]. *)
Definition timed (s0 s : JobState) : Prop :=
  exists new,
    trace s = (new ++ trace s0)%list
    /\ (dsa s = dsa s0
        \/ exists mark,
             In (Did (SaveConfig mark) None) new
             /\ time_Parse DataStateAtFormat (dbmarker.DataStateAt mark) = Some (dsa s)).

(** The name of the database a plain dump at [dumpPath] is recorded with:
    the one [parsePlainFile] finds in it, or none. *)
Definition embeddedName (t : Trace) (dumpPath : string) : string :=
  match os_Open t dumpPath with
  | Ok content =>
    match scanLoop (scanLines content) with
    | Ok name => name
    | Fail _ => ""
    end
  | Fail _ => ""
  end.

(** The definition [d] is the one a discovery of [dumpLocation] gives to the
    entry called [name]: a directory is a dump in directory format, a file a
    plain dump with the name embedded in it; no tables are selected. *)
Definition classified (t : Trace) (dumpLocation : string) (fileInfos : list FileInfo)
  (name : string) (d : DBDefinition) : Prop :=
  Tables d = []
  /\ exists info,
       In info fileInfos /\ fiName info = name
       /\ if fiIsDir info
          then Format d = directoryFormat /\ dbName d = ""
          else Format d = plainFormat
               /\ dbName d = embeddedName t (path_Join [dumpLocation; name]).

End StatePredicates.

(** The restore command fails for the unit [orders]. *)
Definition failingRestoreScenario : Scenario :=
  mkScenario [] true []
    [mkFileInfo "orders" true; mkFileInfo "users" true]
    [("20200101120000", None)]
    [["pg_restore"; "--username"; "postgres"; "--dbname"; "postgres";
      "--no-privileges"; "--no-owner"; "--create"; "--jobs"; "1"; "/dump/orders"]].

(** A job whose dump location lies under the mount directory of the pool. *)
Definition mountedJob : RestoreJob :=
  mkRestoreJob "logicalRestore" (mkPool "/var/lib/dblab/data" "/var/lib/dblab")
    (mkGlobal "abc" (mkDatabase "postgres" "postgres"))
    (mkRestoreOptions "/var/lib/dblab/dump" "postgres:12" [] [] false 1 []).

(** A job with its databases listed in the configuration. *)
Definition listedJob : RestoreJob :=
  mkRestoreJob "logicalRestore" (mkPool "/data" "/var/lib/dblab")
    (mkGlobal "abc" (mkDatabase "postgres" "postgres"))
    (mkRestoreOptions "/dump" "postgres:12" []
       [("shop", mkDBDefinition ["public.items"] directoryFormat "")] false 1 []).

(** A scripted world in which the readiness check of the container fails
    with the error [e]. *)
Definition unready (sc : Scenario) (e : error) : Host :=
  mkHost Z parseDigits "20060102150405" "postgres" asciiTrimSpace
    (@pq_QuoteLiteral (scripted sc))
    (@buildAnalyzeCommand (scripted sc))
    (@options_Unmarshal (scripted sc))
    (@os_Environ (scripted sc))
    (@tools_IsEmptyDirectory (scripted sc))
    (@cont_BuildHostConfig (scripted sc))
    (@os_Stat (scripted sc))
    (@os_IsNotExist (scripted sc))
    (@ioutil_ReadDir (scripted sc))
    (@os_Open (scripted sc))
    (fun _ dbList => dbList)
    (fun _ a => match a with
                | CheckContainerReadiness _ => Some e
                | _ => None
                end)
    (scriptedRequest sc).

(** ** The lines of a file in the words of the specification *)









(* ================================================================== *)
(** * Part II: properties *)
(* ================================================================== *)

(** ** Strings *)

Lemma string_eqb_true (a b : string) : string_eqb a b = true <-> a = b.
Proof. apply String.eqb_eq. Qed.

Lemma string_eqb_false (a b : string) : string_eqb a b = false <-> a <> b.
Proof. apply String.eqb_neq. Qed.

Lemma drop_all (s : string) : drop (String.length s) s = "".
Proof. induction s; simpl; auto. Qed.

Lemma take_all (s : string) : take (String.length s) s = s.
Proof. induction s; simpl; congruence. Qed.

Lemma TrimSuffix_empty (s : string) : TrimSuffix s "" = s.
Proof.
  unfold TrimSuffix, HasSuffix. simpl.
  rewrite Nat.sub_0_r, drop_all, take_all. reflexivity.
Qed.

(** ** Word characters and [formatDBName] *)

Lemma code_range (c : ascii) : (0 <= code c < 256)%Z.
Proof.
  unfold code. pose proof (N_ascii_bounded c). lia.
Qed.

Lemma isWordRune_ascii (r : Z) : isWordRune r = true -> (0 <= r < 0x80)%Z.
Proof.
  unfold isWordRune. intros H.
  repeat (apply orb_true_iff in H; destruct H as [H | H]);
    try (apply andb_true_iff in H; destruct H); lia.
Qed.

Lemma lor_below (a b n : Z) :
  (0 <= a)%Z -> (0 <= b)%Z -> (0 < n)%Z ->
  (Z.lor a b < 2 ^ n)%Z -> (a < 2 ^ n)%Z /\ (b < 2 ^ n)%Z.
Proof.
  intros Ha Hb Hn Hlt.
  assert (forall x, 0 <= x -> Z.log2 x <= Z.log2 (Z.lor a b) -> x < 2 ^ n)%Z as Hx.
  { intros x Hx Hlog.
    destruct (Z.eq_dec x 0) as [-> | Hne].
    - apply Z.pow_pos_nonneg; lia.
    - apply Z.log2_lt_pow2; [lia |].
      pose proof (proj2 (Z.lor_nonneg a b) (conj Ha Hb)) as Hnn.
      destruct (Z.eq_dec (Z.lor a b) 0) as [Hz | Hz].
      + rewrite Hz in Hlog. simpl in Hlog. pose proof (Z.log2_nonneg x). lia.
      + apply Z.log2_lt_pow2 in Hlt; lia. }
  rewrite Z.log2_lor in Hx by assumption.
  split; apply Hx; lia.
Qed.

Lemma lor_big_l (a b : Z) :
  (0 <= a)%Z -> (0 <= b)%Z -> (128 <= a)%Z -> (128 <= Z.lor a b)%Z.
Proof.
  intros Ha Hb Hbig.
  destruct (Z_lt_le_dec (Z.lor a b) 128) as [Hlt | ]; [| assumption].
  destruct (lor_below a b 7 Ha Hb ltac:(lia) Hlt) as [Hsmall _].
  change (2 ^ 7)%Z with 128%Z in Hsmall. lia.
Qed.

Lemma lor_big_r (a b : Z) :
  (0 <= a)%Z -> (0 <= b)%Z -> (128 <= b)%Z -> (128 <= Z.lor a b)%Z.
Proof.
  intros Ha Hb Hbig. rewrite Z.lor_comm. apply lor_big_l; assumption.
Qed.

(** The payload bits of a leading or second byte, shifted into place, reach
    beyond the ASCII range. *)
Lemma payload_big (s mask_bits shift lo hi : Z) :
  (0 <= mask_bits)%Z -> (0 <= shift)%Z ->
  (lo <= s <= hi)%Z ->
  (forall x, lo <= x <= hi -> 128 <= (x mod 2 ^ mask_bits) * 2 ^ shift)%Z ->
  (128 <= Z.shiftl (Z.land s (Z.ones mask_bits)) shift)%Z.
Proof.
  intros Hm Hs Hrange Hall.
  rewrite Z.land_ones, Z.shiftl_mul_pow2 by assumption. apply Hall, Hrange.
Qed.

Ltac payload mask_bits lo hi :=
  apply (payload_big _ mask_bits _ lo hi); [lia | lia | lia |];
  let x := fresh "x" in intros x ?;
  repeat match goal with
         | |- context [(2 ^ ?k)%Z] =>
           let v := eval compute in (2 ^ k)%Z in change (2 ^ k)%Z with v
         end;
  Z.div_mod_to_equations; lia.

Ltac rune_nonneg :=
  repeat first
    [ apply Z.lor_nonneg; split
    | apply Z.shiftl_nonneg
    | apply Z.land_nonneg; left; apply (proj1 (code_range _)) ].

(** A rune of two or more bytes is not an ASCII rune. *)
Lemma decode_word (c : ascii) (rest : string) (r : Z) (w : nat) :
  utf8.DecodeRuneInString (String c rest) = (r, w) ->
  isWordRune r = true -> r = code c /\ (code c < 0x80)%Z.
Proof.
  intros Hdec Hword. apply isWordRune_ascii in Hword.
  pose proof (code_range c) as Hc.
  unfold utf8.DecodeRuneInString in Hdec.
  destruct (code c <? utf8.RuneSelf)%Z eqn:Hself.
  { apply (f_equal fst) in Hdec; cbn [fst] in Hdec; subst r.
    apply Z.ltb_lt in Hself. unfold utf8.RuneSelf in Hself. lia. }
  exfalso. apply Z.ltb_ge in Hself. unfold utf8.RuneSelf in Hself.
  unfold utf8.first, utf8.continuation in Hdec.
  repeat match type of Hdec with
  | context [if ?b then _ else _] => destruct b eqn:?
  | context [match ?s with EmptyString => _ | String _ _ => _ end] => destruct s
  end;
  apply (f_equal fst) in Hdec; cbn [fst] in Hdec; subst r;
  try (unfold utf8.RuneError in Hword; lia);
  try match goal with
      | H : (_ <=? _)%nat = _ |- _ => vm_compute in H; discriminate H
      end;
  repeat match goal with
  | H : (_ && _)%bool = true |- _ => apply andb_true_iff in H; destruct H
  | H : (_ || _)%bool = false |- _ => apply orb_false_iff in H; destruct H
  | H : (_ <=? _)%Z = true |- _ => apply Z.leb_le in H
  | H : (_ <=? _)%Z = false |- _ => apply Z.leb_gt in H
  | H : (_ <? _)%Z = false |- _ => apply Z.ltb_ge in H
  | H : (_ =? _)%Z = true |- _ => apply Z.eqb_eq in H
  | H : (_ =? _)%Z = false |- _ => apply Z.eqb_neq in H
  end;
  match type of Hword with
  | (_ <= ?e < _)%Z => assert (128 <= e)%Z; [| lia]
  end;
  change 0x1F%Z with (Z.ones 5); change 0x0F%Z with (Z.ones 4);
  change 0x07%Z with (Z.ones 3); change 0x3F%Z with (Z.ones 6);
  first
    [ (* the leading byte carries payload *)
      repeat (apply lor_big_l; [rune_nonneg | rune_nonneg |]);
      first [ payload 5%Z 194%Z 223%Z | payload 4%Z 225%Z 239%Z | payload 3%Z 241%Z 244%Z ]
    | (* leading byte 0xE0 or 0xF0: the second byte does *)
      repeat (apply lor_big_l; [rune_nonneg | rune_nonneg |]);
      apply lor_big_r; [rune_nonneg | rune_nonneg |];
      first [ payload 6%Z 160%Z 191%Z | payload 6%Z 144%Z 191%Z ]
    | apply lor_big_l; [rune_nonneg | rune_nonneg |];
      apply lor_big_r; [rune_nonneg | rune_nonneg |];
      first [ payload 6%Z 160%Z 191%Z | payload 6%Z 144%Z 191%Z ]
    | apply lor_big_l; [rune_nonneg | rune_nonneg |];
      apply lor_big_l; [rune_nonneg | rune_nonneg |];
      apply lor_big_r; [rune_nonneg | rune_nonneg |];
      first [ payload 6%Z 160%Z 191%Z | payload 6%Z 144%Z 191%Z ] ].
Qed.

Lemma decode_ascii (c : ascii) (rest : string) :
  (code c < 0x80)%Z -> utf8.DecodeRuneInString (String c rest) = (code c, 1).
Proof.
  intros H. unfold utf8.DecodeRuneInString, utf8.RuneSelf.
  apply Z.ltb_lt in H. rewrite H. reflexivity.
Qed.

Lemma replaceNonWord_cons (c : ascii) (rest : string) :
  replaceNonWord 0 (String c rest) =
  let '(r, width) := utf8.DecodeRuneInString (String c rest) in
  if isWordRune r then String c (replaceNonWord 0 rest)
  else String "_" (replaceNonWord (width - 1) rest).
Proof. reflexivity. Qed.

(** Whatever the input, only word characters come out of the formatter. *)
Lemma replaceNonWord_allWord (s : string) :
  forall skip, allWord (replaceNonWord skip s) = true.
Proof.
  induction s as [| c rest IH]; intros skip; [reflexivity |].
  destruct skip as [| k]; [| simpl; apply IH].
  rewrite replaceNonWord_cons.
  destruct (utf8.DecodeRuneInString (String c rest)) as [r width] eqn:Hdec.
  destruct (isWordRune r) eqn:Hword.
  - destruct (decode_word _ _ _ _ Hdec Hword) as [-> _].
    cbn [allWord]. unfold wordByte. rewrite Hword, IH. reflexivity.
  - cbn [allWord]. rewrite IH. reflexivity.
Qed.

(** Word characters are left alone. *)
Lemma replaceNonWord_fixed (s : string) :
  allWord s = true -> replaceNonWord 0 s = s.
Proof.
  induction s as [| c rest IH]; intros H; [reflexivity |].
  cbn [allWord] in H. apply andb_true_iff in H. destruct H as [Hc Hrest].
  rewrite replaceNonWord_cons.
  rewrite decode_ascii by (apply isWordRune_ascii in Hc; lia).
  unfold wordByte in Hc. rewrite Hc, IH by assumption. reflexivity.
Qed.

Lemma Ext_scan_no_dot (l seen : list ascii) :
  (forall c, In c l -> Ascii.eqb c "." = false) -> Ext_scan l seen = [].
Proof.
  revert seen. induction l as [| c l IH]; intros seen H; [reflexivity |].
  simpl. destruct (Ascii.eqb c "/"); [reflexivity |].
  rewrite (H c) by (left; reflexivity).
  apply IH. intros c' Hin. apply H. right. assumption.
Qed.

Lemma allWord_In (s : string) :
  allWord s = true -> forall c, In c (list_ascii_of_string s) -> wordByte c = true.
Proof.
  induction s as [| a rest IH]; intros H c Hin; [destruct Hin |].
  cbn [allWord] in H. apply andb_true_iff in H. destruct H as [Ha Hrest].
  destruct Hin as [<- | Hin]; auto.
Qed.

Lemma wordByte_not_dot (c : ascii) : wordByte c = true -> Ascii.eqb c "." = false.
Proof.
  intros H. destruct (Ascii.eqb_spec c "."); [subst; discriminate H | reflexivity].
Qed.

(** A name made of word characters has no extension. *)
Lemma filepath_Ext_allWord (s : string) : allWord s = true -> filepath_Ext s = "".
Proof.
  intros H. unfold filepath_Ext. rewrite Ext_scan_no_dot; [reflexivity |].
  intros c Hin. apply in_rev in Hin.
  apply wordByte_not_dot, (allWord_In s H c Hin).
Qed.

Lemma formatDBName_allWord (fileName : string) : allWord (formatDBName fileName) = true.
Proof. apply replaceNonWord_allWord. Qed.

(** C9.  [formatDBName] is idempotent: for every string [s],
    [formatDBName (formatDBName s) = formatDBName s], where [formatDBName]
    strips the file extension and replaces every non-word character with an
    underscore. *)
Theorem formatDBName_idempotent (s : string) :
  formatDBName (formatDBName s) = formatDBName s.
Proof.
  pose proof (formatDBName_allWord s) as Hword.
  unfold formatDBName at 1.
  rewrite (filepath_Ext_allWord _ Hword), TrimSuffix_empty.
  apply replaceNonWord_fixed, Hword.
Qed.

Example formatDBName_legacy : formatDBName "legacy-db.sql" = "legacy_db".
Proof. reflexivity. Qed.

(** ** Paths *)

Lemma append_assoc (a b c : string) : (a ++ b) ++ c = a ++ (b ++ c).
Proof. induction a; simpl; congruence. Qed.

Lemma path_Join_two (loc elem : string) :
  loc <> "" -> path_Join [loc; elem] = path_Clean (loc ++ "/" ++ elem).
Proof.
  intros Hloc. unfold path_Join. cbn [fold_left].
  destruct loc as [| c loc]; [congruence |].
  cbn [String.length Nat.add Nat.eqb].
  unfold joinStep. cbn [String.length Nat.ltb Nat.leb orb negb string_eqb String.eqb].
  simpl. rewrite append_assoc. reflexivity.
Qed.

(** When [<loc>/<elem>] is a clean path already, it is what [path.Join]
    returns. *)
Lemma path_Join_clean (loc elem : string) :
  loc <> "" -> path_Clean (loc ++ "/" ++ elem) = loc ++ "/" ++ elem ->
  path_Join [loc; elem] = loc ++ "/" ++ elem.
Proof. intros Hloc Hclean. rewrite path_Join_two; assumption. Qed.

Example path_Join_orders : path_Join ["/dump"; "orders"] = "/dump/orders".
Proof. reflexivity. Qed.

(** [path.Join] cleans what it joins. *)
Example path_Join_trailing_slash : path_Join ["/dump/"; "orders"] = "/dump/orders".
Proof. reflexivity. Qed.

(** ** The restore commands *)

Section Commands.

Context {host : Host}.

Lemma table_loop (tables : list string) :
  forall cmd,
    fold_left (fun cmd table => (cmd ++ ["--table"; table])%list) tables cmd =
    (cmd ++ tableArgs tables)%list.
Proof.
  induction tables as [| T tables IH]; intros cmd; simpl.
  - rewrite app_nil_r. reflexivity.
  - rewrite IH, <- app_assoc. reflexivity.
Qed.

Lemma buildPGRestoreCommand_eq (r : RestoreJob) (unitName : string) (d : DBDefinition) :
  buildPGRestoreCommand r unitName d =
  (pgRestoreHead r unitName
   ++ ["--jobs"; strconv_Itoa (ParallelJobs (Options r))]
   ++ tableArgs (Tables d)
   ++ [getDumpLocation r (Format d) unitName])%list.
Proof.
  unfold buildPGRestoreCommand, pgRestoreHead.
  assert (forall cmd,
    (if (0 <? List.length (Tables d))%nat
     then fold_left (fun cmd table => (cmd ++ ["--table"; table])%list) (Tables d) cmd
     else cmd) = (cmd ++ tableArgs (Tables d))%list) as Hloop.
  { intros cmd. destruct (Tables d) as [| T tables] eqn:E.
    - simpl. rewrite app_nil_r. reflexivity.
    - cbn [List.length Nat.ltb Nat.leb]. apply table_loop. }
  rewrite Hloop.
  destruct (string_eqb unitName defaults_DBName), (ForceInit (Options r));
    cbn [negb]; rewrite <- ?app_assoc; reflexivity.
Qed.

(** C3.  For every unit name and every DBDefinition of custom or directory
    format, [buildPGRestoreCommand] returns exactly [pg_restore --username
    <user> --dbname <default> --no-privileges --no-owner], then [--create]
    if and only if the unit name differs from the default database name,
    then [--clean --if-exists] if and only if ForceInit is true, then
    [--jobs <ParallelJobs>], then one [--table T] per declared table in
    order, and finally the dump path, which is the dump location itself for
    custom format and [<dumpLocation>/<unit-name>], the two joined by
    [path.Join], for directory format. *)
Theorem buildPGRestoreCommand_spec (r : RestoreJob) (unitName : string)
  (d : DBDefinition) :
  Format d = customFormat \/ Format d = directoryFormat ->
  exists dumpPath,
    buildPGRestoreCommand r unitName d =
    (["pg_restore"; "--username"; User (Database (globalCfg r));
      "--dbname"; defaults_DBName; "--no-privileges"; "--no-owner"]
     ++ (if string_eqb unitName defaults_DBName then [] else ["--create"])
     ++ (if ForceInit (Options r) then ["--clean"; "--if-exists"] else [])
     ++ ["--jobs"; strconv_Itoa (ParallelJobs (Options r))]
     ++ flat_map (fun T => ["--table"; T]) (Tables d)
     ++ [dumpPath])%list
    /\ (Format d = customFormat -> dumpPath = DumpLocation (Options r))
    /\ (Format d = directoryFormat ->
        dumpPath = path_Join [DumpLocation (Options r); unitName]).
Proof.
  intros Hformat.
  exists (getDumpLocation r (Format d) unitName). split; [| split].
  - rewrite buildPGRestoreCommand_eq. unfold pgRestoreHead, tableArgs.
    rewrite <- !app_assoc. reflexivity.
  - intros E. unfold getDumpLocation. rewrite E. reflexivity.
  - intros E. unfold getDumpLocation. rewrite E. reflexivity.
Qed.

(** C2, as the code has it.  [setDefaults] replaces a [parallelJobs] of zero
    by 1 and leaves every other value, the negative ones too, as it is; the
    value it leaves is the [--jobs] argument of the [pg_restore] command.
    The jobs that [Reload] and [NewJob] return are the decoded options passed
    through [setDefaults]. *)
Theorem setDefaults_jobs (r : RestoreJob) (unitName : string) (d : DBDefinition) :
  let jobs := if (ParallelJobs (Options r) =? 0)%Z then 1%Z
              else ParallelJobs (Options r) in
  ParallelJobs (Options (setDefaults r)) = jobs
  /\ buildPGRestoreCommand (setDefaults r) unitName d =
     (pgRestoreHead r unitName ++ ["--jobs"; strconv_Itoa jobs]
      ++ tableArgs (Tables d) ++ [getDumpLocation r (Format d) unitName])%list
  /\ (forall cfg r',
        Reload r cfg = Ok r' ->
        exists o, options_Unmarshal cfg (Options r) = Ok o
                  /\ r' = setDefaults (withOptions r o))
  /\ (forall jobName pool spec global r',
        NewJob jobName pool spec global = Ok r' ->
        exists o, options_Unmarshal spec (mkRestoreOptions "" "" [] [] false 0 []) = Ok o
                  /\ r' = setDefaults (mkRestoreJob jobName pool global o)).
Proof.
  assert (Hidem : forall j, setDefaults (setDefaults j) = setDefaults j).
  { intros j. unfold setDefaults at 2 3.
    destruct (ParallelJobs (Options j) =? 0)%Z eqn:E;
      unfold setDefaults; [reflexivity | rewrite E; reflexivity]. }
  cbv zeta. split; [| split; [| split]].
  - unfold setDefaults. destruct (ParallelJobs (Options r) =? 0)%Z; reflexivity.
  - rewrite buildPGRestoreCommand_eq. unfold setDefaults.
    destruct (ParallelJobs (Options r) =? 0)%Z; reflexivity.
  - intros cfg r' H. unfold Reload in H.
    destruct (options_Unmarshal cfg (Options r)) as [o | e]; inversion H.
    exists o. split; reflexivity.
  - intros jobName pool spec global r' H. unfold NewJob, Reload in H. cbn [Options] in H.
    destruct (options_Unmarshal spec _) as [o | e]; inversion H.
    exists o. split; [reflexivity | apply Hidem].
Qed.

Lemma buildContainerConfig_fields (r : RestoreJob) (password : string) :
  restoreContainerName r = "dblab_lr_" ++ InstanceID (globalCfg r)
  /\ Labels (buildContainerConfig r password) =
     [("dblab_control", "restore"); ("dblab_instance_id", InstanceID (globalCfg r))]
  /\ Env (buildContainerConfig r password) =
     (os_Environ ++ ["PGDATA=" ++ DataDir (fsPool r);
                     "POSTGRES_PASSWORD=" ++ password]%string)%list.
Proof. repeat split. Qed.

End Commands.

(** ** Traces of the job *)

Section Effects.

Context {host : Host}.

Lemma emits_silent {A} (P : Event -> Prop) (m : Job A) :
  (forall s, trace (snd (m s)) = trace s) -> emits P m.
Proof. intros H s. exists []. split; [apply H | constructor]. Qed.

Lemma emits_ret {A} P (a : A) : emits P (ret a).
Proof. apply emits_silent. reflexivity. Qed.

Lemma emits_fail {A} P e : emits P (@fail host A e).
Proof. apply emits_silent. reflexivity. Qed.

Lemma emits_look {A} P (f : Trace -> A) : emits P (look f).
Proof. apply emits_silent. reflexivity. Qed.

Lemma emits_lookResult {A} P (f : Trace -> result A) wrap : emits P (lookResult f wrap).
Proof.
  apply emits_silent. intros s. unfold lookResult. destruct (f (trace s)); reflexivity.
Qed.

Lemma emits_check P err wrap : emits P (check err wrap).
Proof. apply emits_silent. intros s. destruct err; reflexivity. Qed.

Lemma emits_get_dbMark P : emits P get_dbMark.
Proof. apply emits_silent. reflexivity. Qed.

Lemma emits_set_DataStateAt P v : emits P (set_DataStateAt v).
Proof. apply emits_silent. reflexivity. Qed.

Lemma emits_SetDSA P t : emits P (SetDSA t).
Proof. apply emits_silent. reflexivity. Qed.

Lemma emits_do (P : Event -> Prop) a : (forall err, P (Did a err)) -> emits P (do a).
Proof.
  intros H s. exists [Did a (perform (trace s) a)]. split; [reflexivity |].
  constructor; [apply H | constructor].
Qed.

Lemma emits_ask (P : Event -> Prop) q : (forall out err, P (Got q out err)) -> emits P (ask q).
Proof.
  intros H s. unfold ask. destruct (request (trace s) q) as [out err].
  exists [Got q out err]. split; [reflexivity |].
  constructor; [apply H | constructor].
Qed.

Lemma emits_bind {A B} P (m : Job A) (k : A -> Job B) :
  emits P m -> (forall a, emits P (k a)) -> emits P (bind m k).
Proof.
  intros Hm Hk s. unfold bind.
  destruct (Hm s) as [n1 [E1 F1]].
  destruct (m s) as [[a | e] s1]; cbn [snd] in *.
  - destruct (Hk a s1) as [n2 [E2 F2]].
    exists (n2 ++ n1)%list. rewrite E2, E1, app_assoc.
    split; [reflexivity | apply Forall_app; split; assumption].
  - exists n1. split; assumption.
Qed.

Lemma emits_defer {A} P (cleanup : option error -> Job unit) (body : Job A) :
  emits P body -> (forall err, emits P (cleanup err)) -> emits P (defer cleanup body).
Proof.
  intros Hb Hc s. unfold defer.
  destruct (Hb s) as [n1 [E1 F1]].
  destruct (body s) as [res s1]; cbn [snd] in *.
  match goal with |- context [cleanup ?err s1] => destruct (Hc err s1) as [n2 [E2 F2]] end.
  exists (n2 ++ n1)%list. rewrite E2, E1, app_assoc.
  split; [reflexivity | apply Forall_app; split; assumption].
Qed.

Lemma emits_wrapErr {A} P (m : Job A) wrap : emits P m -> emits P (wrapErr m wrap).
Proof.
  intros Hm s. unfold wrapErr. destruct (Hm s) as [n [E F]].
  destruct (m s) as [[a | e] s1]; exists n; split; assumption.
Qed.

Lemma emits_weaken {A} (P Q : Event -> Prop) (m : Job A) :
  (forall e, P e -> Q e) -> emits P m -> emits Q m.
Proof.
  intros H Hm s. destruct (Hm s) as [n [E F]]. exists n.
  split; [assumption | eapply Forall_impl; eassumption].
Qed.

Ltac emits_step :=
  match goal with
  | |- emits _ (bind _ _) => apply emits_bind; [| intros ?]
  | |- emits _ (ret _) => apply emits_ret
  | |- emits _ (fail _) => apply emits_fail
  | |- emits _ (do _) => apply emits_do; intros; exact I
  | |- emits _ (ask _) => apply emits_ask; intros; exact I
  | |- emits _ (look _) => apply emits_look
  | |- emits _ (lookResult _ _) => apply emits_lookResult
  | |- emits _ (check _ _) => apply emits_check
  | |- emits _ (defer _ _) => apply emits_defer; [| intros ?]
  | |- emits _ (wrapErr _ _) => apply emits_wrapErr
  | |- emits _ get_dbMark => apply emits_get_dbMark
  | |- emits _ (set_DataStateAt _) => apply emits_set_DataStateAt
  | |- emits _ (SetDSA _) => apply emits_SetDSA
  | |- emits _ (match ?x with _ => _ end) => destruct x
  | H : _ |- _ => apply H
  end.

Ltac emits_auto := cbv zeta; repeat emits_step.

Lemma prepareDB_quiet r contID unitName : emits quiet (prepareDB r contID unitName).
Proof. unfold prepareDB. emits_auto. Qed.

Lemma retrieveDataStateAt_notCreate contID loc : emits notCreate (retrieveDataStateAt contID loc).
Proof. unfold retrieveDataStateAt. emits_auto. Qed.

Lemma markDatabase_notCreate contID loc : emits notCreate (markDatabase contID loc).
Proof.
  unfold markDatabase, updateDataStateAt.
  pose proof (retrieveDataStateAt_notCreate contID loc). emits_auto.
Qed.

Lemma restoreDB_notCreate r contID unitName d : emits notCreate (restoreDB r contID unitName d).
Proof.
  unfold restoreDB.
  pose proof (markDatabase_notCreate contID
                (getDumpLocation r (Format d) unitName)).
  pose proof (emits_weaken quiet notCreate (prepareDB r contID unitName)
                ltac:(intros [[] ?|[] ? ?]; simpl; tauto)
                (prepareDB_quiet r contID unitName)).
  emits_auto.
Qed.

Lemma restoreAll_notCreate r contID dbList : emits notCreate (restoreAll r contID dbList).
Proof.
  induction dbList as [| [unitName d] more IH]; cbn [restoreAll].
  - apply emits_ret.
  - pose proof (restoreDB_notCreate r contID unitName d). emits_auto.
Qed.

Lemma parsePlainFile_notCreate dumpPath : emits notCreate (parsePlainFile dumpPath).
Proof. unfold parsePlainFile. emits_auto. Qed.

Lemma discoverEntries_notCreate dumpLocation fileInfos :
  forall dbList, emits notCreate (discoverEntries dumpLocation fileInfos dbList).
Proof.
  induction fileInfos as [| info more IH]; intros dbList; cbn [discoverEntries].
  - apply emits_ret.
  - destruct (fiIsDir info); [apply IH |].
    intros s.
    destruct (parsePlainFile_notCreate (path_Join [dumpLocation; fiName info]) s)
      as [n1 [E1 F1]].
    destruct (parsePlainFile (path_Join [dumpLocation; fiName info]) s)
      as [[dbName | err] s1]; cbn [snd] in E1.
    + destruct (IH (mapSet dbList (fiName info) (mkDBDefinition [] plainFormat dbName)) s1)
        as [n2 [E2 F2]].
      exists (n2 ++ n1)%list. rewrite E2, E1, app_assoc.
      split; [reflexivity | apply Forall_app; split; assumption].
    + destruct (is_errDBNameNotFound err).
      * destruct (IH (mapSet dbList (fiName info) (mkDBDefinition [] plainFormat "")) s1)
          as [n2 [E2 F2]].
        exists (n2 ++ n1)%list. rewrite E2, E1, app_assoc.
        split; [reflexivity | apply Forall_app; split; assumption].
      * exists n1. split; assumption.
Qed.

Lemma getDBList_notCreate r dumpLocation meta contID :
  emits notCreate (getDBList r dumpLocation meta contID).
Proof.
  unfold getDBList, discoverCustomDump, discoverDumpLocation.
  pose proof (discoverEntries_notCreate dumpLocation). emits_auto.
Qed.

Lemma runInContainer_notCreate r contID : emits notCreate (runInContainer r contID).
Proof.
  unfold runInContainer.
  pose proof (getDBList_notCreate r (DumpLocation (Options r)) dumpMetafile contID).
  pose proof (restoreAll_notCreate r contID).
  emits_auto.
Qed.

Lemma since_app (new t : Trace) : since t (new ++ t)%list = new.
Proof.
  unfold since. rewrite length_app, Nat.add_sub.
  rewrite firstn_app, Nat.sub_diag, firstn_all. simpl. apply app_nil_r.
Qed.

(** *** Run *)

(** C4.  For every run where the data directory is non-empty and ForceInit
    is false, [Run] fails with the "data directory is not empty" error
    before any container is created: it returns in the state it started in,
    so that no call at all, neither the image pull nor [ContainerCreate],
    has been made. *)
Theorem Run_data_directory_not_empty (r : RestoreJob) (s : JobState) :
  tools_IsEmptyDirectory (trace s) (DataDir (fsPool r)) = Ok false ->
  ForceInit (Options r) = false ->
  Run r s =
    (Fail (errors_Errorf
             "the data directory %q is not empty. Use 'forceInit' or empty the data directory"
             [DataDir (fsPool r)]), s)
  /\ since (trace s) (trace (snd (Run r s))) = [].
Proof.
  intros Hdir Hforce.
  assert (Run r s =
    (Fail (errors_Errorf
             "the data directory %q is not empty. Use 'forceInit' or empty the data directory"
             [DataDir (fsPool r)]), s)) as E.
  { unfold Run, bind, lookResult. rewrite Hdir. cbn [negb]. rewrite Hforce. reflexivity. }
  split; [exact E |]. rewrite E. cbn [snd]. apply (since_app [] (trace s)).
Qed.

Lemma bind_ask {B} (q : Query) (k : string * option error -> Job B) (s : JobState) :
  bind (ask q) k s =
  k (request (trace s) q)
    (mkJobState (dbMark s) (dsa s)
       (Got q (fst (request (trace s) q)) (snd (request (trace s) q)) :: trace s)).
Proof. unfold bind, ask. destruct (request (trace s) q). reflexivity. Qed.

Lemma createdAsBuilt_earlier r (n1 n2 : Trace) :
  Forall notCreate n1 -> createdAsBuilt r n2 -> createdAsBuilt r (n2 ++ n1)%list.
Proof.
  intros Hn1 Hn2 cfg hc nm id err Hin.
  apply in_app_or in Hin. destruct Hin as [Hin | Hin].
  - destruct (Hn2 _ _ _ _ _ Hin) as [Hnm [pwd [Hpwd Hcfg]]].
    split; [assumption |]. exists pwd. split; [apply in_or_app; left |]; assumption.
  - rewrite Forall_forall in Hn1. destruct (Hn1 _ Hin).
Qed.

Lemma Run_creates r (s : JobState) :
  exists new, trace (snd (Run r s)) = (new ++ trace s)%list /\ createdAsBuilt r new.
Proof.
  assert (Hstep : forall A B (m : Job A) (k : A -> Job B),
    emits notCreate m ->
    (forall a s1, exists new, trace (snd (k a s1)) = (new ++ trace s1)%list
                              /\ createdAsBuilt r new) ->
    forall s0, exists new, trace (snd (bind m k s0)) = (new ++ trace s0)%list
                           /\ createdAsBuilt r new).
  { intros A B m k Hm Hk s0. unfold bind.
    destruct (Hm s0) as [n1 [E1 F1]].
    destruct (m s0) as [[a | e] s1]; cbn [snd] in *.
    - destruct (Hk a s1) as [n2 [E2 R2]].
      exists (n2 ++ n1)%list. rewrite E2, E1, app_assoc.
      split; [reflexivity | apply createdAsBuilt_earlier; assumption].
    - exists n1. split; [assumption |].
      apply (createdAsBuilt_earlier r n1 []); [assumption | intros ? ? ? ? ? []]. }
  unfold Run. revert s.
  apply Hstep; [apply emits_lookResult | intros isEmpty s].
  revert s. apply Hstep;
    [destruct (negb isEmpty), (negb (ForceInit (Options r)));
     first [apply emits_ret | apply emits_fail] | intros _ s].
  revert s. apply Hstep; [apply emits_do; intros; exact I | intros err s].
  revert s. apply Hstep; [apply emits_check | intros _ s].
  revert s. apply Hstep; [unfold getHostConfig; emits_auto | intros hostConfig s].
  rewrite bind_ask.
  destruct (request (trace s) GeneratePassword) as [pwd [e |]]; cbn [fst snd].
  { (* no password *)
    eexists [_]. split; [reflexivity |].
    intros cfg hc nm id err' [H | []]. discriminate H. }
  change (bind (check None ?w) ?k ?s1) with (k tt s1). cbv beta.
  rewrite bind_ask.
  destruct (request _ (ContainerCreate _ _ _)) as [contID err2]. cbn [fst snd].
  match goal with
  | |- context [bind ?m ?k ?s1] =>
    assert (emits notCreate (bind m k)) as Hrest
      by (pose proof (runInContainer_notCreate r contID); emits_auto);
    destruct (Hrest s1) as [later [E F]]
  end.
  rewrite E. cbn [trace].
  eexists (later ++ [_; _])%list. split.
  { rewrite <- app_assoc. reflexivity. }
  intros cfg hc nm id err' Hin.
  apply in_app_or in Hin. destruct Hin as [Hin | [Hin | [Hin | []]]].
  - rewrite Forall_forall in F. destruct (F _ Hin).
  - inversion Hin; subst. split; [reflexivity |].
    exists pwd. split; [| reflexivity].
    apply in_or_app. right. right. left. reflexivity.
  - discriminate Hin.
Qed.

(** C8, as the code has it.  Every container [Run] creates is named
    [dblab_lr_<instanceID>] and labelled [dblab_control = restore] and
    [dblab_instance_id = <instanceID>]; its environment is the environment
    of the engine's own process ([os.Environ()]) followed by
    [PGDATA=<dataDir>] and [POSTGRES_PASSWORD=<password>], the password being
    the one [tools.GeneratePassword] returned in this run. *)
Theorem restore_container_config (r : RestoreJob) (s : JobState) :
  forall cfg hc nm id err,
    In (Got (ContainerCreate cfg hc nm) id err) (since (trace s) (trace (snd (Run r s)))) ->
    nm = "dblab_lr_" ++ InstanceID (globalCfg r)
    /\ Labels cfg =
       [("dblab_control", "restore"); ("dblab_instance_id", InstanceID (globalCfg r))]
    /\ exists password,
         In (Got GeneratePassword password None) (since (trace s) (trace (snd (Run r s))))
         /\ Env cfg = (os_Environ ++ ["PGDATA=" ++ DataDir (fsPool r);
                                      "POSTGRES_PASSWORD=" ++ password]%string)%list.
Proof.
  intros cfg hc nm id err Hin.
  destruct (Run_creates r s) as [new [E R]].
  rewrite E, since_app in *.
  destruct (R _ _ _ _ _ Hin) as [-> [pwd [Hpwd ->]]].
  split; [reflexivity | split; [reflexivity |]].
  exists pwd. split; [assumption | reflexivity].
Qed.

(** *** updateDataStateAt *)

(** C7.  Whenever the stored DBMark dataStateAt string does not parse in the
    canonical timestamp format, [updateDataStateAt] leaves the pool's
    dataStateAt (and everything else) unchanged; the pool timestamp is set
    only on a successful parse of the stored value, to the parsed time. *)
Theorem updateDataStateAt_spec (s : JobState) :
  (time_Parse DataStateAtFormat (dbmarker.DataStateAt (dbMark s)) = None ->
   updateDataStateAt s = (Ok tt, s))
  /\ (forall t,
        time_Parse DataStateAtFormat (dbmarker.DataStateAt (dbMark s)) = Some t ->
        updateDataStateAt s = (Ok tt, mkJobState (dbMark s) t (trace s)))
  /\ (dsa (snd (updateDataStateAt s)) <> dsa s ->
      exists t, time_Parse DataStateAtFormat (dbmarker.DataStateAt (dbMark s)) = Some t
                /\ dsa (snd (updateDataStateAt s)) = t).
Proof.
  unfold updateDataStateAt, bind, get_dbMark.
  destruct (time_Parse DataStateAtFormat (dbmarker.DataStateAt (dbMark s))) as [t |] eqn:E.
  - split; [discriminate | split].
    + intros t' H. inversion H; subst. reflexivity.
    + intros _. exists t. split; reflexivity.
  - split; [reflexivity | split]; [discriminate |].
    intros H. exfalso. apply H. reflexivity.
Qed.

(** *** restoreDB *)

Lemma plain_is_not_custom : string_eqb plainFormat customFormat = false.
Proof. reflexivity. Qed.

(** C1, as the code has it.  For every restore of a plain-format dump whose
    DBDefinition carries a non-empty embedded database name, the restore
    command built is [psql --username <user> --dbname <default> --file
    <dump-path>]: the [--dbname] argument is the default database name
    ([defaults.DBName]), whatever the embedded name, and the dump path is the
    dump location joined with the unit name; no [create database]
    preparation step runs, running the command is the only thing
    [restoreDB] does. *)
Theorem plain_restore_embedded_name (r : RestoreJob) (contID unitName : string)
  (d : DBDefinition) (s : JobState) :
  Format d = plainFormat -> dbName d <> "" ->
  buildPlainTextCommand r unitName d =
    ["psql"; "--username"; User (Database (globalCfg r)); "--dbname"; defaults_DBName;
     "--file"; path_Join [DumpLocation (Options r); unitName]]
  /\ buildLogicalRestoreCommand r unitName d = buildPlainTextCommand r unitName d
  /\ exists out err,
       since (trace s) (trace (snd (restoreDB r contID unitName d s))) =
       [Got (ExecCommandWithOutput contID true (buildPlainTextCommand r unitName d)) out err].
Proof.
  intros Hformat Hname.
  apply string_eqb_false in Hname.
  assert (buildLogicalRestoreCommand r unitName d = buildPlainTextCommand r unitName d) as Hcmd.
  { unfold buildLogicalRestoreCommand. rewrite Hformat. reflexivity. }
  split; [| split; [exact Hcmd |]].
  - unfold buildPlainTextCommand, getDumpLocation.
    rewrite Hname, Hformat, plain_is_not_custom. reflexivity.
  - unfold restoreDB. rewrite Hformat, Hname, Hcmd.
    change (string_eqb plainFormat plainFormat) with true. cbn [andb].
    unfold bind at 1. cbn [ret].
    unfold bind, ask.
    destruct (request (trace s) (ExecCommandWithOutput contID true
                (buildPlainTextCommand r unitName d))) as [out err].
    exists out, err.
    destruct err; cbn [check fail ret snd trace];
      match goal with |- since ?t (?e :: ?t) = _ => apply (since_app [e] t) end.
Qed.

Lemma since_step (e : Event) (t : Trace) : since t (e :: t) = [e].
Proof. apply (since_app [e] t). Qed.

Lemma before_contains_last {A} (after before l : list A) (x g : A) :
  (after ++ x :: before = l ++ [g])%list -> x <> g -> In g before.
Proof.
  intros E Hneq. apply (f_equal (@rev A)) in E.
  rewrite !rev_app_distr in E. cbn [rev app] in E.
  rewrite <- app_assoc in E. cbn [app] in E.
  apply in_rev. destruct (rev before) as [| b more].
  - cbn [app] in E. inversion E. congruence.
  - cbn [app] in E. inversion E. left. reflexivity.
Qed.

Lemma startsWith_ask {B} q (k : string * option error -> Job B) :
  (forall x, emits (fun _ => True) (k x)) -> startsWith q (bind (ask q) k).
Proof.
  intros Hk s. rewrite bind_ask.
  match goal with
  | |- context [k ?x ?s1] => destruct (Hk x s1) as [later [E _]]
  end.
  exists later. do 2 eexists. exact E.
Qed.

Lemma startsWith_bind {A B} q (m : Job A) (k : A -> Job B) :
  startsWith q m -> (forall a, emits (fun _ => True) (k a)) -> startsWith q (bind m k).
Proof.
  intros Hm Hk s. unfold bind.
  destruct (Hm s) as [n1 [out [err E1]]].
  destruct (m s) as [[a | e] s1]; cbn [snd] in *.
  - destruct (Hk a s1) as [n2 [E2 _]].
    exists (n2 ++ n1)%list, out, err. rewrite E2, E1, <- app_assoc. reflexivity.
  - exists n1, out, err. exact E1.
Qed.

(** [markDatabase] begins by creating the exec of the metadata command:
    this call is the mark of its invocation in a trace. *)
Lemma markDatabase_starts contID loc :
  startsWith (ContainerExecCreate contID
                ["sh"; "-c"; "pg_restore --list " ++ loc ++ " | head -n 10"]%string)
             (markDatabase contID loc).
Proof.
  unfold markDatabase. apply startsWith_bind.
  - unfold retrieveDataStateAt. cbv zeta. apply startsWith_ask.
    intros [execID err]. emits_auto.
  - intros [dataStateAt err]. unfold updateDataStateAt. emits_auto.
Qed.

Lemma restoreDB_shape r contID unitName d (s : JobState) :
  let cmd := buildLogicalRestoreCommand r unitName d in
  let meta := ["sh"; "-c"; "pg_restore --list " ++ getDumpLocation r (Format d) unitName
                             ++ " | head -n 10"]%string in
  exists new prep,
    trace (snd (restoreDB r contID unitName d s)) = (new ++ trace s)%list
    /\ Forall quiet prep
    /\ (new = prep
        \/ (exists out e, new = Got (ExecCommandWithOutput contID true cmd) out (Some e) :: prep)
        \/ (exists out, Format d = plainFormat
                        /\ new = Got (ExecCommandWithOutput contID true cmd) out None :: prep)
        \/ (exists out later id err,
              Format d <> plainFormat
              /\ new = (later ++ [Got (ContainerExecCreate contID meta) id err;
                                  Got (ExecCommandWithOutput contID true cmd) out None])%list)).
Proof.
  cbv zeta. unfold restoreDB. cbv zeta.
  set (cmd := buildLogicalRestoreCommand r unitName d).
  set (loc := getDumpLocation r (Format d) unitName).
  unfold bind at 1.
  match goal with
  | |- context [(if ?c then wrapErr ?m ?w else ret tt) s] =>
    assert (exists prep, trace (snd ((if c then wrapErr m w else ret tt) s))
                         = (prep ++ trace s)%list
                         /\ Forall quiet prep
                         /\ (string_eqb (Format d) plainFormat = false -> prep = []))
      as [prep [Eprep [Fprep Hplain]]]
  end.
  { destruct (string_eqb (Format d) plainFormat); cbn [andb].
    - destruct (string_eqb (dbName d) "").
      + destruct (emits_wrapErr quiet _
                    (fun err => errors_Wrapf err "failed to prepare database for dump: %s"
                                  [unitName])
                    (prepareDB_quiet r contID unitName) s) as [prep [E F]].
        exists prep. split; [exact E | split; [exact F | discriminate]].
      + exists []. split; [reflexivity | split; [constructor | discriminate]].
    - exists []. split; [reflexivity | split; [constructor | reflexivity]]. }
  match goal with
  | |- context [(if ?c then wrapErr ?m ?w else ret tt) s] =>
    destruct ((if c then wrapErr m w else ret tt) s) as [[[] | e] s1]
  end; cbn [snd] in Eprep.
  2:{ exists prep, prep. cbn [snd]. repeat split; auto. }
  rewrite bind_ask.
  destruct (request (trace s1) (ExecCommandWithOutput contID true cmd)) as [out [e |]];
    cbn [fst snd].
  { (* the restore command fails *)
    exists (Got (ExecCommandWithOutput contID true cmd) out (Some e) :: prep), prep.
    unfold bind. cbn [check fail snd trace]. rewrite Eprep.
    repeat split; auto. right. left. exists out, e. reflexivity. }
  change (bind (check None ?w) ?k ?s2) with (k tt s2). cbv beta.
  destruct (string_eqb (Format d) plainFormat) eqn:Hformat.
  { exists (Got (ExecCommandWithOutput contID true cmd) out None :: prep), prep.
    cbn [ret snd trace]. rewrite Eprep.
    repeat split; auto. right. right. left. exists out.
    split; [apply string_eqb_true; assumption | reflexivity]. }
  rewrite (Hplain eq_refl) in *. cbn [app] in Eprep.
  match goal with
  | |- context [wrapErr (markDatabase contID loc) ?w ?s2] =>
    assert (trace (snd (wrapErr (markDatabase contID loc) w s2))
            = trace (snd (markDatabase contID loc s2))) as Ewrap
      by (unfold wrapErr; destruct (markDatabase contID loc s2) as [[] ?]; reflexivity);
    destruct (markDatabase_starts contID loc s2) as [later [id [err Estart]]]
  end.
  rewrite Ewrap, Estart. cbn [trace]. rewrite Eprep.
  eexists (later ++ [_; _])%list, [].
  split; [rewrite <- app_assoc; reflexivity |].
  split; [constructor |].
  right. right. right. exists out, later, id, err.
  split; [apply string_eqb_false; assumption | reflexivity].
Qed.

(** C5.  For every database processed by a restore job, a DBMark is
    persisted only after the restore command for that database has returned
    success, and never for a plain-format dump: [markDatabase] is invoked
    (its first call, the exec of the metadata command, is in the trace)
    exactly when the exec of the restore command succeeded and the
    DBDefinition's format is not plain; and whenever [SaveConfig] is called,
    the format is not plain and the successful run of the restore command
    lies before it. *)
Theorem mark_only_after_successful_restore (r : RestoreJob)
  (contID unitName : string) (d : DBDefinition) (s : JobState) :
  let cmd := buildLogicalRestoreCommand r unitName d in
  let meta := ["sh"; "-c"; "pg_restore --list " ++ getDumpLocation r (Format d) unitName
                             ++ " | head -n 10"]%string in
  let new := since (trace s) (trace (snd (restoreDB r contID unitName d s))) in
  ((exists id err, In (Got (ContainerExecCreate contID meta) id err) new)
   <-> (Format d <> plainFormat
        /\ exists out, In (Got (ExecCommandWithOutput contID true cmd) out None) new))
  /\ (forall after mark err before,
        new = (after ++ Did (SaveConfig mark) err :: before)%list ->
        Format d <> plainFormat
        /\ exists out, In (Got (ExecCommandWithOutput contID true cmd) out None) before).
Proof.
  cbv zeta.
  destruct (restoreDB_shape r contID unitName d s) as [new [prep [E [F Hshape]]]].
  cbv zeta in Hshape. rewrite E, since_app.
  rewrite Forall_forall in F.
  assert (Hq1 : forall id err cmd', ~ In (Got (ContainerExecCreate contID cmd') id err) prep)
    by (intros ? ? ? Hin; apply (F _ Hin)).
  assert (Hq2 : forall out err cmd', ~ In (Got (ExecCommandWithOutput contID true cmd') out err) prep)
    by (intros ? ? ? Hin; apply (F _ Hin)).
  assert (Hq3 : forall mark err, ~ In (Did (SaveConfig mark) err) prep)
    by (intros ? ? Hin; apply (F _ Hin)).
  destruct Hshape as [-> | [[out [e ->]] | [[out [Hplain ->]] | [out [later [id [err [Hnot ->]]]]]]]].
  - split.
    + split.
      * intros [id [err Hin]]. destruct (Hq1 _ _ _ Hin).
      * intros [_ [out Hin]]. destruct (Hq2 _ _ _ Hin).
    + intros after mark err before ->.
      destruct (Hq3 mark err). apply in_or_app. right. left. reflexivity.
  - split.
    + split.
      * intros [id [err [Hin | Hin]]]; [discriminate | destruct (Hq1 _ _ _ Hin)].
      * intros [_ [out' [Hin | Hin]]]; [discriminate | destruct (Hq2 _ _ _ Hin)].
    + intros after mark err before Hsplit.
      assert (In (Did (SaveConfig mark) err)
                (Got (ExecCommandWithOutput contID true
                        (buildLogicalRestoreCommand r unitName d)) out (Some e) :: prep))
        as [Hin | Hin]
        by (rewrite Hsplit; apply in_or_app; right; left; reflexivity);
        [discriminate | destruct (Hq3 _ _ Hin)].
  - split.
    + split.
      * intros [id [err [Hin | Hin]]]; [discriminate | destruct (Hq1 _ _ _ Hin)].
      * intros [Hnot _]. contradiction.
    + intros after mark err before Hsplit.
      assert (In (Did (SaveConfig mark) err)
                (Got (ExecCommandWithOutput contID true
                        (buildLogicalRestoreCommand r unitName d)) out None :: prep))
        as [Hin | Hin]
        by (rewrite Hsplit; apply in_or_app; right; left; reflexivity);
        [discriminate | destruct (Hq3 _ _ Hin)].
  - split.
    + split.
      * intros _. split; [assumption |]. exists out.
        apply in_or_app. right. right. left. reflexivity.
      * intros _. exists id, err. apply in_or_app. right. left. reflexivity.
    + intros after mark err' before Hsplit.
      split; [assumption |]. exists out.
      apply (before_contains_last after before
               (later ++ [Got (ContainerExecCreate contID
                   ["sh"; "-c"; "pg_restore --list " ++ getDumpLocation r (Format d) unitName
                                  ++ " | head -n 10"]%string) id err])%list
               (Did (SaveConfig mark) err')).
      * rewrite <- Hsplit, <- app_assoc. reflexivity.
      * discriminate.
Qed.

(** *** markDatabase *)

(** When the extraction of the timestamp fails, it yields the empty string
    and leaves the job's mark and the pool's timestamp as they were. *)
Lemma retrieveDataStateAt_failed contID loc (s s1 : JobState) out e :
  retrieveDataStateAt contID loc s = (Ok (out, Some e), s1) ->
  out = "" /\ dbMark s1 = dbMark s /\ dsa s1 = dsa s.
Proof.
  unfold retrieveDataStateAt. cbv zeta. rewrite bind_ask.
  destruct (request (trace s) _) as [execID [e1 |]]; cbn [fst snd ret].
  { intros H. inversion H; subst. repeat split. }
  unfold bind at 1. unfold do at 1.
  destruct (perform _ (ContainerExecAttach execID)) as [e2 |]; cbn [ret].
  { intros H. inversion H; subst. repeat split. }
  unfold defer. rewrite bind_ask.
  destruct (request _ (DiscoverDataStateAt execID)) as [dataStateAt [e3 |]];
    cbn [fst snd ret bind do];
    intros H; inversion H; subst; repeat split.
Qed.

(** C10.  Even when dataStateAt extraction fails, [markDatabase] still
    persists a DBMark: it goes on to [CreateConfig] and, that succeeding, to
    [SaveConfig] with the job's mark as it stood before the call; it returns
    success when the save succeeds.  And because the job's single mark
    record is shared across the per-database restore loop and overwritten
    only when a non-empty timestamp is extracted, the DBMark persisted for
    one database can carry the dataStateAt value extracted for a previously
    restored database in the same run: there is a run of a new job, whose
    mark carries no timestamp and which has made no call yet, that restores
    two databases one after the other, in which the extraction succeeds for
    the first and fails for the second, and both saved marks carry the
    timestamp extracted for the first. *)
Theorem mark_persisted_with_earlier_timestamp :
  (forall contID loc (s s1 : JobState) out e,
     retrieveDataStateAt contID loc s = (Ok (out, Some e), s1) ->
     perform (trace s1) CreateConfig = None ->
     let saved := perform (Did CreateConfig None :: trace s1) (SaveConfig (dbMark s)) in
     trace (snd (markDatabase contID loc s)) =
       Did (SaveConfig (dbMark s)) saved :: Did CreateConfig None :: trace s1
     /\ dbMark (snd (markDatabase contID loc s)) = dbMark s
     /\ (saved = None -> fst (markDatabase contID loc s) = Ok tt))
  /\ (exists (sc : Scenario) (r : RestoreJob) (s0 : @JobState (scripted sc)) stamp failure,
        dbMark s0 = newMark
        /\ trace s0 = []
        /\ stamp <> ""
        /\ fst (@Run (scripted sc) r s0) = Ok tt
        /\ restoredCommands (trace (snd (@Run (scripted sc) r s0))) =
           [@buildLogicalRestoreCommand (scripted sc) r "orders"
              (mkDBDefinition [] directoryFormat "");
            @buildLogicalRestoreCommand (scripted sc) r "users"
              (mkDBDefinition [] directoryFormat "")]
        /\ extractions (trace (snd (@Run (scripted sc) r s0))) =
           [(stamp, None); ("", Some failure)]
        /\ savedStamps (trace (snd (@Run (scripted sc) r s0))) = [stamp; stamp]).
Proof.
  split.
  - intros contID loc s s1 out e Hretrieve Hcreate. cbv zeta.
    destruct (retrieveDataStateAt_failed _ _ _ _ _ _ Hretrieve) as [-> [Hmark Hdsa]].
    remember (markDatabase contID loc s) as res eqn:Hres.
    unfold markDatabase, bind in Hres. rewrite Hretrieve in Hres.
    change (negb (string_eqb "" "")) with false in Hres.
    cbn [ret] in Hres. unfold do in Hres. rewrite Hcreate in Hres.
    cbn [check ret get_dbMark dbMark dsa trace] in Hres. rewrite Hmark in Hres.
    destruct (perform (Did CreateConfig None :: trace s1) (SaveConfig (dbMark s)))
      as [e2 |]; cbn [check ret fail] in Hres.
    + subst res. cbn [snd fst trace dbMark].
      split; [reflexivity | split; [reflexivity | intros H; discriminate H]].
    + unfold updateDataStateAt, bind, get_dbMark in Hres. cbn [dbMark] in Hres.
      destruct (time_Parse DataStateAtFormat (dbmarker.DataStateAt (dbMark s)));
        subst res; cbn [ret SetDSA snd fst trace dbMark dsa];
        (split; [reflexivity | split; [reflexivity | intros _; reflexivity]]).
  - exists (mkScenario [] true []
              [mkFileInfo "orders" true; mkFileInfo "users" true]
              [("20200101120000", None); ("", Some (External "timestamp not found"))]
              []),
           (mkRestoreJob "restore" (mkPool "/data" "/pool")
              (mkGlobal "abc" (mkDatabase "postgres" "postgres"))
              (mkRestoreOptions "/dump" "postgres:12" [] [] false 1 [])),
           (@mkJobState (scripted _) newMark 0%Z []),
           "20200101120000", (External "timestamp not found").
    split; [reflexivity |]. split; [reflexivity |].
    split; [discriminate |]. vm_compute. repeat split.
Qed.

(** *** parsePlainFile *)
















(** A line that fills the scanner's buffer ends the scan: the lines after
    it are not seen. *)
Remark scan_stops_at_long_line (c : ascii) (rest : string) (cur : list ascii) (n : N) :
  c <> "010"%char -> (MaxScanTokenSize <= n + 1)%N ->
  scanTokens (String c rest) cur n = [].
Proof.
  intros Hc Hn. cbn [scanTokens].
  destruct (Ascii.eqb_spec c "010"%char); [contradiction |].
  apply N.leb_le in Hn. rewrite Hn. reflexivity.
Qed.

End Effects.

(** ** The properties on the sample inputs *)

(** Against C1 as stated: the plain dump [backup.sql] carries the embedded
    name [payments], and the command connects to [postgres], the default
    database, not to [payments]. *)
Lemma plain_dbname_is_the_default :
  Format (mkDBDefinition [] plainFormat "payments") = plainFormat
  /\ dbName (mkDBDefinition [] plainFormat "payments") <> ""
  /\ @buildPlainTextCommand (scripted sampleScenario) (sampleJob 1) "backup.sql"
       (mkDBDefinition [] plainFormat "payments")
     = ["psql"; "--username"; "postgres"; "--dbname"; "postgres";
        "--file"; "/dump/backup.sql"]
  /\ @buildPlainTextCommand (scripted sampleScenario) (sampleJob 1) "backup.sql"
       (mkDBDefinition [] plainFormat "payments")
     <> ["psql"; "--username"; "postgres";
         "--dbname"; dbName (mkDBDefinition [] plainFormat "payments");
         "--file"; "/dump/backup.sql"].
Proof.
  split; [reflexivity |]. split; [discriminate |].
  split; [reflexivity | discriminate].
Qed.

Lemma plain_restore_embedded_name_witness :
  (Format (mkDBDefinition [] plainFormat "payments") = plainFormat
   /\ dbName (mkDBDefinition [] plainFormat "payments") <> "")
  /\ exists out err,
       since [] (trace (snd (@restoreDB (scripted sampleScenario) (sampleJob 1) "c0ffee"
                               "backup.sql" (mkDBDefinition [] plainFormat "payments")
                               (freshState sampleScenario ""))))
       = [Got (ExecCommandWithOutput "c0ffee" true
                 ["psql"; "--username"; "postgres"; "--dbname"; "postgres";
                  "--file"; "/dump/backup.sql"]) out err].
Proof.
  split; [split; [reflexivity | discriminate] |].
  exact (proj2 (proj2 (@plain_restore_embedded_name (scripted sampleScenario) (sampleJob 1)
                         "c0ffee" "backup.sql" (mkDBDefinition [] plainFormat "payments")
                         (freshState sampleScenario "")
                         eq_refl
                         (fun H : "payments" = "" => eq_ind "payments"
                            (fun x => match x with EmptyString => False | _ => True end)
                            I "" H)))).
Defined.

(** Against C2 as stated: with [parallelJobs = -1] the job keeps -1 and hands
    [--jobs -1] to [pg_restore]. *)
Lemma negative_parallelJobs_kept :
  (ParallelJobs (Options (sampleJob (-1))) <= 0)%Z
  /\ ParallelJobs (Options (setDefaults (sampleJob (-1)))) = (-1)%Z
  /\ @buildPGRestoreCommand (scripted sampleScenario) (setDefaults (sampleJob (-1)))
       "acme" (mkDBDefinition [] customFormat "")
     = ["pg_restore"; "--username"; "postgres"; "--dbname"; "postgres";
        "--no-privileges"; "--no-owner"; "--create"; "--jobs"; "-1"; "/dump"]
  /\ @Reload (scripted sampleScenario) (sampleJob (-1)) [] = Ok (sampleJob (-1)).
Proof.
  split; [discriminate |]. repeat split.
Qed.

Lemma setDefaults_jobs_witness :
  @Reload (scripted sampleScenario) (sampleJob 0) [] = Ok (sampleJob 1)
  /\ (exists o, o = sampleOptions 0 /\ sampleJob 1 = setDefaults (withOptions (sampleJob 0) o))
  /\ @buildPGRestoreCommand (scripted sampleScenario) (setDefaults (sampleJob 0))
       "acme" (mkDBDefinition [] customFormat "")
     = ["pg_restore"; "--username"; "postgres"; "--dbname"; "postgres";
        "--no-privileges"; "--no-owner"; "--create"; "--jobs"; "1"; "/dump"].
Proof.
  split; [reflexivity |]. split.
  - destruct (proj1 (proj2 (proj2 (@setDefaults_jobs (scripted sampleScenario) (sampleJob 0)
                                     "acme" (mkDBDefinition [] customFormat ""))))
                [] (sampleJob 1) eq_refl) as [o [Ho Hjob]].
    exists o. split; [| exact Hjob].
    exact (f_equal (fun res => match res with Ok x => x | Fail _ => o end) (eq_sym Ho)).
  - exact (proj1 (proj2 (@setDefaults_jobs (scripted sampleScenario) (sampleJob 0)
                           "acme" (mkDBDefinition [] customFormat "")))).
Defined.

Lemma buildPGRestoreCommand_spec_witness :
  Format (mkDBDefinition ["t1"; "t2"] directoryFormat "") = directoryFormat
  /\ exists dumpPath,
       @buildPGRestoreCommand (scripted sampleScenario) (sampleJob 4) "orders"
         (mkDBDefinition ["t1"; "t2"] directoryFormat "")
       = ["pg_restore"; "--username"; "postgres"; "--dbname"; "postgres";
          "--no-privileges"; "--no-owner"; "--create"; "--jobs"; "4";
          "--table"; "t1"; "--table"; "t2"; dumpPath]
       /\ dumpPath = "/dump/orders".
Proof.
  split; [reflexivity |].
  destruct (@buildPGRestoreCommand_spec (scripted sampleScenario) (sampleJob 4) "orders"
              (mkDBDefinition ["t1"; "t2"] directoryFormat "") (or_intror eq_refl))
    as [dumpPath [E [_ Hdir]]].
  exists dumpPath. split; [exact E |].
  exact (Hdir eq_refl).
Defined.

Lemma Run_data_directory_not_empty_witness :
  (@tools_IsEmptyDirectory (scripted usedDataDirScenario) [] "/data" = Ok false
   /\ ForceInit (Options (sampleJob 1)) = false)
  /\ @Run (scripted usedDataDirScenario) (sampleJob 1) (freshState usedDataDirScenario "")
     = (Fail (errors_Errorf
                "the data directory %q is not empty. Use 'forceInit' or empty the data directory"
                ["/data"]),
        freshState usedDataDirScenario "").
Proof.
  split; [split; reflexivity |].
  exact (proj1 (@Run_data_directory_not_empty (scripted usedDataDirScenario) (sampleJob 1)
                  (freshState usedDataDirScenario "") eq_refl eq_refl)).
Defined.

Lemma mark_only_after_successful_restore_witness :
  exists before,
    since [] (trace (snd (@restoreDB (scripted sampleScenario) (sampleJob 1) "c0ffee" "orders"
                            (mkDBDefinition [] directoryFormat "")
                            (freshState sampleScenario ""))))
    = Did (SaveConfig (dbmarker.mkConfig "20200101120000" "logical")) None :: before
    /\ Format (mkDBDefinition [] directoryFormat "") <> plainFormat
    /\ exists out,
         In (Got (ExecCommandWithOutput "c0ffee" true
                    ["pg_restore"; "--username"; "postgres"; "--dbname"; "postgres";
                     "--no-privileges"; "--no-owner"; "--create"; "--jobs"; "1";
                     "/dump/orders"]) out None) before.
Proof.
  eexists. split; [vm_compute; reflexivity |].
  exact (proj2 (@mark_only_after_successful_restore (scripted sampleScenario) (sampleJob 1)
                  "c0ffee" "orders" (mkDBDefinition [] directoryFormat "")
                  (freshState sampleScenario ""))
           [] _ None _ eq_refl).
Defined.






Lemma updateDataStateAt_spec_witness :
  @time_Parse (scripted sampleScenario) "20060102150405" "not a timestamp" = None
  /\ @updateDataStateAt (scripted sampleScenario) (freshState sampleScenario "not a timestamp")
     = (Ok tt, freshState sampleScenario "not a timestamp").
Proof.
  split; [reflexivity |].
  exact (proj1 (@updateDataStateAt_spec (scripted sampleScenario)
                  (freshState sampleScenario "not a timestamp")) eq_refl).
Defined.

(** Against C8 as stated: with [PATH] set in the environment of the engine,
    the container gets three variables, not two. *)
Lemma container_env_includes_process_env :
  Env (@buildContainerConfig (scripted sampleScenario) (sampleJob 1) "s3cr3t")
  = ["PATH=/usr/bin"; "PGDATA=/data"; "POSTGRES_PASSWORD=s3cr3t"]
  /\ Env (@buildContainerConfig (scripted sampleScenario) (sampleJob 1) "s3cr3t")
     <> ["PGDATA=/data"; "POSTGRES_PASSWORD=s3cr3t"].
Proof. split; [reflexivity | discriminate]. Qed.

Lemma restore_container_config_witness :
  exists cfg,
    In (Got (ContainerCreate cfg (mkHostConfig [] []) "dblab_lr_abc") "c0ffee" None)
       (since [] (trace (snd (@Run (scripted sampleScenario) (sampleJob 1)
                                (freshState sampleScenario "")))))
    /\ Labels cfg = [("dblab_control", "restore"); ("dblab_instance_id", "abc")]
    /\ exists password,
         Env cfg = ["PATH=/usr/bin"; "PGDATA=/data";
                    ("POSTGRES_PASSWORD=" ++ password)%string].
Proof.
  exists (@buildContainerConfig (scripted sampleScenario) (sampleJob 1) "s3cr3t").
  assert (In (Got (ContainerCreate
                     (@buildContainerConfig (scripted sampleScenario) (sampleJob 1) "s3cr3t")
                     (mkHostConfig [] []) "dblab_lr_abc") "c0ffee" None)
             (since [] (trace (snd (@Run (scripted sampleScenario) (sampleJob 1)
                                      (freshState sampleScenario ""))))))
    as Hin.
  { vm_compute. repeat (first [left; reflexivity | right]). }
  split; [exact Hin |].
  destruct (@restore_container_config (scripted sampleScenario) (sampleJob 1)
              (freshState sampleScenario "") _ _ _ _ _ Hin)
    as [_ [Hlabels [password [_ Henv]]]].
  split; [exact Hlabels |]. exists password. exact Henv.
Defined.

Lemma mark_persisted_with_earlier_timestamp_witness :
  @perform (scripted noStampScenario)
     [Did (CloseAttach "exec") None;
      Got (DiscoverDataStateAt "exec") "" (Some (External "timestamp not found"));
      Did (ContainerExecAttach "exec") None;
      Got (ContainerExecCreate "c0ffee"
             ["sh"; "-c"; "pg_restore --list /dump/users | head -n 10"]) "exec" None]
     CreateConfig = None
  /\ savedStamps (trace (snd (@markDatabase (scripted noStampScenario) "c0ffee" "/dump/users"
                               (freshState noStampScenario "20200101120000"))))
     = ["20200101120000"].
Proof.
  split; [reflexivity |].
  rewrite (proj1 (proj1 (@mark_persisted_with_earlier_timestamp (scripted noStampScenario))
                    "c0ffee" "/dump/users" (freshState noStampScenario "20200101120000")
                    _ "" _ eq_refl eq_refl)).
  reflexivity.
Defined.

(** ** The scenarios of the specification *)

(** Custom dump, single database. *)
Example custom_dump_command :
  @buildLogicalRestoreCommand (scripted sampleScenario) (sampleJob 1) "acme"
    (mkDBDefinition [] customFormat "")
  = ["pg_restore"; "--username"; "postgres"; "--dbname"; "postgres";
     "--no-privileges"; "--no-owner"; "--create"; "--jobs"; "1"; "/dump"].
Proof. reflexivity. Qed.

(** The default database is not created again. *)
Example default_database_command :
  @buildLogicalRestoreCommand (scripted sampleScenario)
    (mkRestoreJob "logicalRestore" (mkPool "/data" "/var/lib/dblab")
       (mkGlobal "abc" (mkDatabase "postgres" "postgres"))
       (mkRestoreOptions "/dump" "postgres:12" [] [] true 2 []))
    "postgres" (mkDBDefinition ["public.t"] directoryFormat "")
  = ["pg_restore"; "--username"; "postgres"; "--dbname"; "postgres";
     "--no-privileges"; "--no-owner"; "--clean"; "--if-exists"; "--jobs"; "2";
     "--table"; "public.t"; "/dump/postgres"].
Proof. reflexivity. Qed.

(** Plain dump without embedded name: the database is created first, under
    the name derived from the file name, and the dump is restored into it. *)
Example plain_dump_without_name :
  since [] (trace (snd (@restoreDB (scripted sampleScenario) (sampleJob 1) "c0ffee"
                          "legacy-db.sql" (mkDBDefinition [] plainFormat "")
                          (freshState sampleScenario ""))))
  = [Got (ExecCommandWithOutput "c0ffee" true
            ["psql"; "--username"; "postgres"; "--dbname"; "legacy_db";
             "--file"; "/dump/legacy-db.sql"]) "" None;
     Did (RemoveFile "/dump/createdb_legacy-db.sql_*.sql") None;
     Did (CloseFile "/dump/createdb_legacy-db.sql_*.sql") None;
     Did (ExecCommand "c0ffee"
            ["psql"; "--username"; "postgres"; "--dbname"; "postgres";
             "--file"; "/dump/createdb_legacy-db.sql_*.sql"]) None;
     Did (WriteFile "/dump/createdb_legacy-db.sql_*.sql"
            "
create database 'legacy_db' with template = template0 encoding = 'utf8';
alter database 'legacy_db' owner to 'postgres'; 
") None;
     Got (TempFile "/dump" "createdb_legacy-db.sql_*.sql")
       "/dump/createdb_legacy-db.sql_*.sql" None].
Proof. reflexivity. Qed.

(** The dump location is discovered entry by entry. *)
Example discovered_databases :
  fst (@getDBList (scripted sampleScenario) (sampleJob 1) "/dump" dumpMetafile "c0ffee"
         (freshState sampleScenario ""))
  = Ok [("backup.sql", mkDBDefinition [] plainFormat "payments");
        ("legacy-db.sql", mkDBDefinition [] plainFormat "");
        ("orders", mkDBDefinition [] directoryFormat "");
        ("users", mkDBDefinition [] directoryFormat "")].
Proof. reflexivity. Qed.

(** A whole run: the job succeeds, the container is removed last, and the
    pool's timestamp is the one of the last mark saved. *)
Example whole_run :
  fst (@Run (scripted sampleScenario) (sampleJob 1) (freshState sampleScenario "")) = Ok tt
  /\ hd_error (trace (snd (@Run (scripted sampleScenario) (sampleJob 1)
                             (freshState sampleScenario ""))))
     = Some (Did (RemoveContainer "c0ffee") None)
  /\ dsa (snd (@Run (scripted sampleScenario) (sampleJob 1) (freshState sampleScenario "")))
     = 20200101120000%Z
  /\ savedStamps (trace (snd (@Run (scripted sampleScenario) (sampleJob 1)
                                (freshState sampleScenario ""))))
     = ["20200101120000"; "20200101120000"].
Proof. vm_compute. repeat split. Qed.

(* ================================================================== *)
(** * Part III: further properties of the job *)
(* ================================================================== *)

Section Steps.

Context {host : Host}.

(** ** One step of the monad *)

Lemma bind_ret {A B} (a : A) (k : A -> Job B) (s : JobState) : bind (ret a) k s = k a s.
Proof. reflexivity. Qed.

Lemma bind_fail {A B} (e : error) (k : A -> Job B) (s : JobState) :
  bind (fail e) k s = (Fail e, s).
Proof. reflexivity. Qed.

Lemma bind_do {B} (a : Action) (k : option error -> Job B) (s : JobState) :
  bind (do a) k s =
  k (perform (trace s) a)
    (mkJobState (dbMark s) (dsa s) (Did a (perform (trace s) a) :: trace s)).
Proof. reflexivity. Qed.

Lemma bind_check {B} (err : option error) wrap (k : unit -> Job B) (s : JobState) :
  bind (check err wrap) k s =
  match err with
  | Some e => (Fail (wrap e), s)
  | None => k tt s
  end.
Proof. destruct err; reflexivity. Qed.

Lemma bind_look {A B} (f : Trace -> A) (k : A -> Job B) (s : JobState) :
  bind (look f) k s = k (f (trace s)) s.
Proof. reflexivity. Qed.

Lemma bind_lookResult {A B} (f : Trace -> result A) wrap (k : A -> Job B) (s : JobState) :
  bind (lookResult f wrap) k s =
  match f (trace s) with
  | Ok a => k a s
  | Fail e => (Fail (wrap e), s)
  end.
Proof. unfold bind, lookResult. destruct (f (trace s)); reflexivity. Qed.

Lemma bind_wrapErr {A B} (m : Job A) wrap (k : A -> Job B) (s : JobState) :
  bind (wrapErr m wrap) k s =
  match m s with
  | (Ok a, s') => k a s'
  | (Fail e, s') => (Fail (wrap e), s')
  end.
Proof. unfold bind, wrapErr. destruct (m s) as [[a | e] s']; reflexivity. Qed.

Lemma bind_assoc {A B C} (m : Job A) (f : A -> Job B) (g : B -> Job C) (s : JobState) :
  bind (bind m f) g s = bind m (fun a => bind (f a) g) s.
Proof. unfold bind. destruct (m s) as [[a | e] s1]; reflexivity. Qed.

Lemma getHostConfig_eq (r : RestoreJob) (s : JobState) :
  getHostConfig r s =
  match cont_BuildHostConfig (trace s) (DataDir (fsPool r)) (ContainerConfig (Options r)) with
  | Ok base =>
    (Ok (if HasPrefix (DumpLocation (Options r)) (MountDir (fsPool r))
         then mkHostConfig (Settings base)
                (Mounts base ++ [mkMount (DumpLocation (Options r))
                                         (DumpLocation (Options r))])%list
         else base), s)
  | Fail e => (Fail e, s)
  end.
Proof.
  unfold getHostConfig. rewrite bind_lookResult.
  destruct (cont_BuildHostConfig _ _ _) as [base | e]; [| reflexivity].
  destruct (HasPrefix _ _); reflexivity.
Qed.

(** ** What runs inside the container *)

Ltac emits_in :=
  cbv zeta;
  repeat match goal with
  | |- emits _ (bind _ _) => apply emits_bind; [| intros ?]
  | |- emits _ (ret _) => apply emits_ret
  | |- emits _ (fail _) => apply emits_fail
  | |- emits _ (do _) => apply emits_do; intros; first [exact I | reflexivity]
  | |- emits _ (ask _) => apply emits_ask; intros; first [exact I | reflexivity]
  | |- emits _ (look _) => apply emits_look
  | |- emits _ (lookResult _ _) => apply emits_lookResult
  | |- emits _ (check _ _) => apply emits_check
  | |- emits _ (defer _ _) => apply emits_defer; [| intros ?]
  | |- emits _ (wrapErr _ _) => apply emits_wrapErr
  | |- emits _ get_dbMark => apply emits_get_dbMark
  | |- emits _ (set_DataStateAt _) => apply emits_set_DataStateAt
  | |- emits _ (SetDSA _) => apply emits_SetDSA
  | |- emits _ (match ?x with _ => _ end) => destruct x
  | H : _ |- _ => apply H
  end.

(** Discovering the dump location reads the world and changes nothing. *)
Lemma parsePlainFile_pure dumpPath (s : JobState) : snd (parsePlainFile dumpPath s) = s.
Proof.
  unfold parsePlainFile. rewrite bind_lookResult.
  destruct (os_Open (trace s) dumpPath); [| reflexivity].
  destruct (scanLoop _); reflexivity.
Qed.

Lemma discoverEntries_pure dumpLocation fileInfos :
  forall dbList (s : JobState), snd (discoverEntries dumpLocation fileInfos dbList s) = s.
Proof.
  induction fileInfos as [| info more IH]; intros dbList s; cbn [discoverEntries].
  - reflexivity.
  - destruct (fiIsDir info); [apply IH |].
    pose proof (parsePlainFile_pure (path_Join [dumpLocation; fiName info]) s) as Hpure.
    destruct (parsePlainFile _ s) as [[dbName | err] s1]; cbn [snd] in Hpure; subst s1.
    + apply IH.
    + destruct (is_errDBNameNotFound err); [apply IH | reflexivity].
Qed.

Lemma discoverDumpLocation_pure dumpLocation (s : JobState) :
  snd (discoverDumpLocation dumpLocation s) = s.
Proof.
  unfold discoverDumpLocation. rewrite bind_lookResult.
  destruct (ioutil_ReadDir (trace s) dumpLocation); [apply discoverEntries_pure | reflexivity].
Qed.

Lemma restoreDB_inContainer r contID unitName d :
  emits (inContainer contID) (restoreDB r contID unitName d).
Proof.
  unfold restoreDB, prepareDB, markDatabase, retrieveDataStateAt, updateDataStateAt.
  emits_in.
Qed.

Lemma restoreAll_inContainer r contID dbList :
  emits (inContainer contID) (restoreAll r contID dbList).
Proof.
  induction dbList as [| [unitName d] more IH]; cbn [restoreAll].
  - apply emits_ret.
  - pose proof (restoreDB_inContainer r contID unitName d). emits_in.
Qed.

Lemma getDBList_inContainer r dumpLocation meta contID :
  emits (inContainer contID) (getDBList r dumpLocation meta contID).
Proof.
  assert (emits (inContainer contID) (discoverDumpLocation dumpLocation)) as Hdiscover.
  { apply emits_silent. intros s. rewrite discoverDumpLocation_pure. reflexivity. }
  unfold getDBList, discoverCustomDump. emits_in.
Qed.

Lemma runInContainer_inContainer r contID :
  emits (inContainer contID) (runInContainer r contID).
Proof.
  unfold runInContainer.
  pose proof (getDBList_inContainer r (DumpLocation (Options r)) dumpMetafile contID).
  pose proof (restoreAll_inContainer r contID).
  emits_in.
Qed.

(** ** The shape of a run *)

Lemma since_same (t : Trace) : since t t = [].
Proof. apply (since_app [] t). Qed.

Lemma since_two (a b : Event) (t : Trace) : since t (a :: b :: t) = [a; b].
Proof. apply (since_app [a; b] t). Qed.

Lemma since_three (a b c : Event) (t : Trace) : since t (a :: b :: c :: t) = [a; b; c].
Proof. apply (since_app [a; b; c] t). Qed.

Lemma since_eq (new t l : Trace) : l = (new ++ t)%list -> since t l = new.
Proof. intros ->. apply since_app. Qed.

Ltac stop_before_container out :=
  subst out; left; eexists; cbn [fst snd trace dbMark dsa];
  split; [reflexivity |]; split; [reflexivity |]; split; [reflexivity |];
  first [rewrite since_same | rewrite since_step | rewrite since_two | rewrite since_three];
  repeat constructor.

(** Either [Run] fails before a container exists, having made only the calls
    that precede one, or it creates the container [id], runs
    [runInContainer], prints the container's logs if that failed, and
    removes the container. *)
Lemma Run_shape (r : RestoreJob) (s : JobState) :
  (exists e, fst (Run r s) = Fail e
             /\ dbMark (snd (Run r s)) = dbMark s
             /\ dsa (snd (Run r s)) = dsa s
             /\ Forall beforeContainer (since (trace s) (trace (snd (Run r s)))))
  \/ (exists pwd base id rem,
        cont_BuildHostConfig (Did (PullImage (DockerImage (Options r))) None :: trace s)
          (DataDir (fsPool r)) (ContainerConfig (Options r)) = Ok base
        /\ let hc := if HasPrefix (DumpLocation (Options r)) (MountDir (fsPool r))
                     then mkHostConfig (Settings base)
                            (Mounts base ++ [mkMount (DumpLocation (Options r))
                                                     (DumpLocation (Options r))])%list
                     else base in
           let created :=
             [Got (ContainerCreate (buildContainerConfig r pwd) hc (restoreContainerName r))
                id None;
              Got GeneratePassword pwd None;
              Did (PullImage (DockerImage (Options r))) None] in
           let inside := runInContainer r id
                           (mkJobState (dbMark s) (dsa s) (created ++ trace s)%list) in
           fst (Run r s) = fst inside
           /\ dbMark (snd (Run r s)) = dbMark (snd inside)
           /\ dsa (snd (Run r s)) = dsa (snd inside)
           /\ since (trace s) (trace (snd (Run r s))) =
              (Did (RemoveContainer id) rem
               :: match fst inside with
                  | Fail _ => [Did (PrintContainerLogs (restoreContainerName r))
                                 (perform (trace (snd inside))
                                    (PrintContainerLogs (restoreContainerName r)))]
                  | Ok _ => []
                  end
               ++ since (created ++ trace s)%list (trace (snd inside)) ++ created)%list).
Proof.
  remember (Run r s) as out eqn:Hout.
  unfold Run in Hout. rewrite bind_lookResult in Hout.
  destruct (tools_IsEmptyDirectory (trace s) (DataDir (fsPool r))) as [isEmpty | e0];
    [| stop_before_container out].
  match type of Hout with
  | context [bind ?guard ?k s] =>
    assert (guard s = (Ok tt, s) \/ exists e, guard s = (Fail e, s)) as [Hguard | [e Hguard]]
      by (destruct (negb isEmpty); [destruct (negb (ForceInit (Options r))) |];
          first [left; reflexivity | right; eexists; reflexivity]);
    unfold bind at 1 in Hout; rewrite Hguard in Hout
  end;
    [| stop_before_container out].
  rewrite bind_do in Hout.
  destruct (perform (trace s) (PullImage (DockerImage (Options r)))) as [e1 |];
    rewrite bind_check in Hout; [stop_before_container out |].
  rewrite bind_wrapErr, getHostConfig_eq in Hout. cbn [trace] in Hout.
  destruct (cont_BuildHostConfig _ _ _) as [base | e2] eqn:Hbase; [| stop_before_container out].
  rewrite bind_ask in Hout. cbn [trace] in Hout.
  destruct (request _ GeneratePassword) as [pwd [e3 |]]; cbn [fst snd] in Hout;
    rewrite bind_check in Hout; [stop_before_container out |].
  rewrite bind_ask in Hout. cbn [trace] in Hout.
  destruct (request _ (ContainerCreate _ _ _)) as [id [e4 |]]; cbn [fst snd] in Hout;
    rewrite bind_check in Hout; [stop_before_container out |].
  right. exists pwd, base, id. cbv zeta. unfold defer in Hout. cbn [app].
  cbn [dbMark dsa trace] in Hout.
  match type of Hout with
  | context [runInContainer r id ?s1] =>
    destruct (runInContainer_inContainer r id s1) as [body [Ebody _]];
    destruct (runInContainer r id s1) as [res s2]; cbn [fst snd trace] in *
  end.
  destruct res as [[] | e5]; cbn [ret bind do fst snd trace dbMark dsa] in Hout;
    subst out; cbn [fst snd trace dbMark dsa];
    eexists; (split; [reflexivity |]);
    (split; [reflexivity |]); (split; [reflexivity |]); (split; [reflexivity |]);
    rewrite Ebody;
    match goal with
    | |- context [since (?a :: ?b :: ?c :: ?t) (body ++ ?a :: ?b :: ?c :: ?t)%list] =>
      rewrite (since_app body (a :: b :: c :: t))
    end;
    apply since_eq; cbn [app]; rewrite <- ?app_assoc; cbn [app]; reflexivity.
Qed.

Lemma runInContainer_body r contID (s : JobState) :
  Forall (inContainer contID) (since (trace s) (trace (snd (runInContainer r contID s)))).
Proof.
  destruct (runInContainer_inContainer r contID s) as [body [E F]].
  rewrite E, since_app. exact F.
Qed.

Lemma inContainer_containerOf id e c :
  inContainer id e -> containerOf e = Some c -> c = id.
Proof.
  destruct e as [[] err | [] out err]; cbn [inContainer containerOf];
    intros H E; try discriminate E; try contradiction; inversion E; subst; reflexivity.
Qed.

(** ** The life of the restore container *)

(** Once [ContainerCreate] has succeeded, the last thing [Run] does, whatever
    the outcome of the restore, is to remove the container it created; it
    removes a container only once. *)
Theorem Run_removes_created_container (r : RestoreJob) (s : JobState) :
  forall cfg hc nm id,
    In (Got (ContainerCreate cfg hc nm) id None) (since (trace s) (trace (snd (Run r s)))) ->
    exists rem earlier,
      since (trace s) (trace (snd (Run r s))) = Did (RemoveContainer id) rem :: earlier
      /\ forall c err, ~ In (Did (RemoveContainer c) err) earlier.
Proof.
  intros cfg hc nm id Hin.
  destruct (Run_shape r s) as [[e [_ [_ [_ F]]]] | [pwd [base [id' [rem [_ H]]]]]].
  - rewrite Forall_forall in F. destruct (F _ Hin).
  - cbv zeta in H. destruct H as [_ [_ [_ E]]].
    match type of E with
    | _ = (_ :: ?logs ++ ?body ++ ?created)%list =>
      pose proof (runInContainer_body r id'
                    (mkJobState (dbMark s) (dsa s) (created ++ trace s)%list)) as Fbody;
      cbn [trace] in Fbody;
      assert (Hlogs : forall e, In e logs ->
                exists err, e = Did (PrintContainerLogs (restoreContainerName r)) err)
        by (intros e0 He0; destruct (fst (runInContainer r id' _));
            [destruct He0 | destruct He0 as [<- | []]; eexists; reflexivity])
    end.
    rewrite Forall_forall in Fbody.
    rewrite E in Hin |- *.
    assert (id' = id) as ->.
    { destruct Hin as [Hin | Hin]; [discriminate Hin |].
      apply in_app_or in Hin. destruct Hin as [Hin | Hin].
      - destruct (Hlogs _ Hin) as [err Herr]. discriminate Herr.
      - apply in_app_or in Hin. destruct Hin as [Hin | Hin].
        + destruct (Fbody _ Hin).
        + destruct Hin as [Hin | [Hin | [Hin | []]]];
            [inversion Hin; reflexivity | discriminate Hin | discriminate Hin]. }
    do 2 eexists. split; [reflexivity |].
    intros c err Hrem.
    apply in_app_or in Hrem. destruct Hrem as [Hrem | Hrem].
    + destruct (Hlogs _ Hrem) as [err' Herr]. discriminate Herr.
    + apply in_app_or in Hrem. destruct Hrem as [Hrem | Hrem].
      * apply (Fbody _ Hrem).
      * destruct Hrem as [Hrem | [Hrem | [Hrem | []]]]; discriminate Hrem.
Qed.


(** The logs of the container are printed exactly when a container was
    created and the run failed afterwards. *)
Theorem Run_prints_logs_on_failure (r : RestoreJob) (s : JobState) :
  (exists nm err, In (Did (PrintContainerLogs nm) err)
                     (since (trace s) (trace (snd (Run r s)))))
  <-> ((exists e, fst (Run r s) = Fail e)
       /\ exists cfg hc nm id,
            In (Got (ContainerCreate cfg hc nm) id None)
               (since (trace s) (trace (snd (Run r s))))).
Proof.
  destruct (Run_shape r s) as [[e [E [_ [_ F]]]] | [pwd [base [id [rem [_ H]]]]]].
  - rewrite Forall_forall in F. split.
    + intros [nm [err Hin]]. destruct (F _ Hin).
    + intros [_ [cfg [hc [nm [id Hin]]]]]. destruct (F _ Hin).
  - cbv zeta in H. destruct H as [Hres [_ [_ E]]].
    match type of E with
    | _ = (_ :: _ ++ _ ++ ?created)%list =>
      pose proof (runInContainer_body r id
                    (mkJobState (dbMark s) (dsa s) (created ++ trace s)%list)) as Fbody;
      cbn [trace] in Fbody
    end.
    rewrite Forall_forall in Fbody. rewrite E, Hres. clear E Hres.
    destruct (fst (runInContainer r id _)) as [[] | e].
    + split.
      * intros [nm [err [Hin | Hin]]]; [discriminate Hin |].
        cbn [app] in Hin. apply in_app_or in Hin. destruct Hin as [Hin | Hin].
        -- destruct (Fbody _ Hin).
        -- destruct Hin as [Hin | [Hin | [Hin | []]]]; discriminate Hin.
      * intros [[e He] _]. discriminate He.
    + split.
      * intros _. split; [exists e; reflexivity |].
        do 4 eexists. right. apply in_or_app. right. apply in_or_app. right.
        left. reflexivity.
      * intros _. do 2 eexists. right. left. reflexivity.
Qed.

(** Every call of a run that addresses a container by its ID addresses the
    container the run created. *)
Theorem Run_works_in_created_container (r : RestoreJob) (s : JobState) :
  forall cfg hc nm id,
    In (Got (ContainerCreate cfg hc nm) id None) (since (trace s) (trace (snd (Run r s)))) ->
    forall e c, In e (since (trace s) (trace (snd (Run r s)))) ->
                containerOf e = Some c -> c = id.
Proof.
  intros cfg hc nm id Hin e c He Hc.
  destruct (Run_shape r s) as [[e0 [_ [_ [_ F]]]] | [pwd [base [id' [rem [_ H]]]]]].
  - rewrite Forall_forall in F. destruct (F _ Hin).
  - cbv zeta in H. destruct H as [_ [_ [_ E]]].
    match type of E with
    | _ = (_ :: ?logs ++ _ ++ ?created)%list =>
      pose proof (runInContainer_body r id'
                    (mkJobState (dbMark s) (dsa s) (created ++ trace s)%list)) as Fbody;
      cbn [trace] in Fbody;
      assert (Hlogs : forall e, In e logs ->
                exists err, e = Did (PrintContainerLogs (restoreContainerName r)) err)
        by (intros e1 He1; destruct (fst (runInContainer r id' _));
            [destruct He1 | destruct He1 as [<- | []]; eexists; reflexivity])
    end.
    rewrite Forall_forall in Fbody. rewrite E in Hin, He. clear E.
    assert (id' = id) as ->.
    { destruct Hin as [Hin | Hin]; [discriminate Hin |].
      apply in_app_or in Hin. destruct Hin as [Hin | Hin].
      - destruct (Hlogs _ Hin) as [err Herr]. discriminate Herr.
      - apply in_app_or in Hin. destruct Hin as [Hin | Hin].
        + destruct (Fbody _ Hin).
        + destruct Hin as [Hin | [Hin | [Hin | []]]];
            [inversion Hin; reflexivity | discriminate Hin | discriminate Hin]. }
    destruct He as [<- | He]; [inversion Hc; reflexivity |].
    apply in_app_or in He. destruct He as [He | He].
    + destruct (Hlogs _ He) as [err ->]. discriminate Hc.
    + apply in_app_or in He. destruct He as [He | He].
      * apply (inContainer_containerOf id e c (Fbody _ He) Hc).
      * destruct He as [<- | [<- | [<- | []]]]; discriminate Hc.
Qed.

(** Whatever [ContainerCreate] answers, the host configuration it was called
    with is the one [getHostConfig] returned. *)
Lemma Run_hostConfig (r : RestoreJob) (s : JobState) :
  forall cfg hc nm id err,
    In (Got (ContainerCreate cfg hc nm) id err) (since (trace s) (trace (snd (Run r s)))) ->
    exists base,
      cont_BuildHostConfig (Did (PullImage (DockerImage (Options r))) None :: trace s)
        (DataDir (fsPool r)) (ContainerConfig (Options r)) = Ok base
      /\ hc = if HasPrefix (DumpLocation (Options r)) (MountDir (fsPool r))
              then mkHostConfig (Settings base)
                     (Mounts base ++ [mkMount (DumpLocation (Options r))
                                              (DumpLocation (Options r))])%list
              else base.
Proof.
  intros cfg hc nm id err.
  remember (Run r s) as out eqn:Hout.
  unfold Run in Hout. rewrite bind_lookResult in Hout.
  destruct (tools_IsEmptyDirectory (trace s) (DataDir (fsPool r))) as [isEmpty | e0];
    [| subst out; cbn [snd]; rewrite since_same; intros []].
  match type of Hout with
  | context [bind ?guard ?k s] =>
    assert (guard s = (Ok tt, s) \/ exists e, guard s = (Fail e, s)) as [Hguard | [e Hguard]]
      by (destruct (negb isEmpty); [destruct (negb (ForceInit (Options r))) |];
          first [left; reflexivity | right; eexists; reflexivity]);
    unfold bind at 1 in Hout; rewrite Hguard in Hout
  end;
    [| subst out; cbn [snd]; rewrite since_same; intros []].
  rewrite bind_do in Hout.
  destruct (perform (trace s) (PullImage (DockerImage (Options r)))) as [e1 |];
    rewrite bind_check in Hout;
    [subst out; cbn [snd trace]; rewrite since_step; intros [H | []]; discriminate H |].
  rewrite bind_wrapErr, getHostConfig_eq in Hout. cbn [trace] in Hout.
  destruct (cont_BuildHostConfig _ _ _) as [base | e2] eqn:Hbase;
    [| subst out; cbn [snd trace]; rewrite since_step; intros [H | []]; discriminate H].
  rewrite bind_ask in Hout. cbn [trace] in Hout.
  destruct (request _ GeneratePassword) as [pwd [e3 |]]; cbn [fst snd] in Hout;
    rewrite bind_check in Hout;
    [subst out; cbn [snd trace]; rewrite since_two;
     intros [H | [H | []]]; discriminate H |].
  rewrite bind_ask in Hout. cbn [trace] in Hout.
  destruct (request _ (ContainerCreate _ _ _)) as [id' err'] eqn:Hcreate.
  cbn [fst snd] in Hout. rewrite bind_check in Hout.
  assert (Hlater : exists later,
            trace (snd out)
            = (later ++ [Got (ContainerCreate (buildContainerConfig r pwd)
                                (if HasPrefix (DumpLocation (Options r)) (MountDir (fsPool r))
                                 then mkHostConfig (Settings base)
                                        (Mounts base ++ [mkMount (DumpLocation (Options r))
                                                                 (DumpLocation (Options r))])%list
                                 else base)
                                (restoreContainerName r)) id' err';
                         Got GeneratePassword pwd None;
                         Did (PullImage (DockerImage (Options r))) None] ++ trace s)%list
            /\ Forall notCreate later).
  { destruct err' as [e4 |].
    - exists []. subst out. split; [reflexivity | constructor].
    - match type of Hout with
      | out = ?m ?s1 =>
        assert (emits notCreate m) as Hrest
          by (pose proof (runInContainer_notCreate r id'); emits_in);
          destruct (Hrest s1) as [later [E F]]
      end.
      exists later. rewrite Hout, E. split; [reflexivity | exact F]. }
  destruct Hlater as [later [E F]].
  rewrite (since_eq _ _ _ (eq_trans E (app_assoc _ _ _))).
  intros Hin. apply in_app_or in Hin. destruct Hin as [Hin | Hin].
  - rewrite Forall_forall in F. destruct (F _ Hin).
  - destruct Hin as [Hin | [Hin | [Hin | []]]]; try discriminate Hin.
    injection Hin as _ <- _ _ _. exists base. split; reflexivity.
Qed.

(** The host configuration [Run] hands to [ContainerCreate], whatever the
    answer of that call, is the one of [cont.BuildHostConfig] with one
    change: when the dump location lies under the mount directory of the
    pool, a bind mount of the dump location onto the same path is appended
    to the mounts. *)
Theorem Run_mounts_dump_location (r : RestoreJob) (s : JobState) :
  forall cfg hc nm id err,
    In (Got (ContainerCreate cfg hc nm) id err) (since (trace s) (trace (snd (Run r s)))) ->
    exists base,
      cont_BuildHostConfig (Did (PullImage (DockerImage (Options r))) None :: trace s)
        (DataDir (fsPool r)) (ContainerConfig (Options r)) = Ok base
      /\ Settings hc = Settings base
      /\ Mounts hc =
         (Mounts base ++
          if HasPrefix (DumpLocation (Options r)) (MountDir (fsPool r))
          then [mkMount (DumpLocation (Options r)) (DumpLocation (Options r))]
          else [])%list.
Proof.
  intros cfg hc nm id err Hin.
  destruct (Run_hostConfig r s cfg hc nm id err Hin) as [base [Hbase ->]].
  exists base. split; [exact Hbase |].
  destruct (HasPrefix _ _); cbn [Settings Mounts];
    [split; reflexivity | split; [reflexivity | rewrite app_nil_r; reflexivity]].
Qed.

Lemma bind_Ok {A B} (m : Job A) (k : A -> Job B) (s : JobState) (b : B) :
  fst (bind m k s) = Ok b ->
  exists a, fst (m s) = Ok a /\ bind m k s = k a (snd (m s)).
Proof.
  unfold bind. destruct (m s) as [[a | e] s1]; cbn [fst snd]; intros H.
  - exists a. split; reflexivity.
  - discriminate H.
Qed.

(** A successful [runInContainer] has ended with the analyze command and the
    stop of Postgres, both successful. *)
Lemma runInContainer_finishes r contID (s : JobState) :
  fst (runInContainer r contID s) = Ok tt ->
  exists earlier,
    trace (snd (runInContainer r contID s)) =
    Did (StopPostgres contID (DataDir (fsPool r))) None
    :: Did (ExecCommand contID
              (buildAnalyzeCommand (User (Database (globalCfg r)))
                 (Name (Database (globalCfg r))) (ParallelJobs (Options r)))) None
    :: earlier.
Proof.
  intros H. unfold runInContainer in *. cbv zeta in *.
  do 8 (let a := fresh "a" in let E := fresh "E" in
        destruct (bind_Ok _ _ _ _ H) as [a [_ E]];
        rewrite E in H |- *; clear E; cbv beta in H |- *).
  rewrite bind_do in H |- *.
  destruct (perform _ (ExecCommand contID _)) as [e |];
    rewrite bind_check in H |- *; [discriminate H |].
  rewrite bind_do in H |- *. cbn [trace] in H |- *.
  destruct (perform _ (StopPostgres contID _)) as [e |];
    cbn [check fail ret fst snd trace] in H |- *; [discriminate H |].
  eexists. reflexivity.
Qed.

(** A run that succeeds has ended by analyzing the databases, stopping
    Postgres and removing the container, in this order and each with
    success for the first two. *)
Theorem Run_success_ends_with_analyze_stop_remove (r : RestoreJob) (s : JobState) :
  fst (Run r s) = Ok tt ->
  exists id rem earlier,
    since (trace s) (trace (snd (Run r s))) =
    Did (RemoveContainer id) rem
    :: Did (StopPostgres id (DataDir (fsPool r))) None
    :: Did (ExecCommand id
              (buildAnalyzeCommand (User (Database (globalCfg r)))
                 (Name (Database (globalCfg r))) (ParallelJobs (Options r)))) None
    :: earlier.
Proof.
  intros Hok.
  destruct (Run_shape r s) as [[e [E _]] | [pwd [base [id [rem [_ H]]]]]].
  - rewrite E in Hok. discriminate Hok.
  - cbv zeta in H. destruct H as [Hres [_ [_ E]]].
    rewrite Hok in Hres. symmetry in Hres.
    destruct (runInContainer_finishes r id _ Hres) as [earlier Hend].
    destruct (runInContainer_inContainer r id
                (mkJobState (dbMark s) (dsa s)
                   ([Got (ContainerCreate (buildContainerConfig r pwd)
                            (if HasPrefix (DumpLocation (Options r)) (MountDir (fsPool r))
                             then mkHostConfig (Settings base)
                                    (Mounts base ++ [mkMount (DumpLocation (Options r))
                                                             (DumpLocation (Options r))])%list
                             else base) (restoreContainerName r)) id None;
                     Got GeneratePassword pwd None;
                     Did (PullImage (DockerImage (Options r))) None] ++ trace s)%list))
      as [body [Ebody _]].
    rewrite E, Hres. cbn [trace] in Ebody. rewrite Ebody, since_app.
    rewrite Hend in Ebody. exists id, rem.
    destruct body as [| x [| y body]]; cbn [app] in Ebody.
    + discriminate Ebody.
    + inversion Ebody.
    + inversion Ebody; subst. eexists. reflexivity.
Qed.

(** ** The loop over the databases *)

Lemma restoreAll_app r contID (l1 l2 : list (string * DBDefinition)) :
  forall s : JobState,
    restoreAll r contID (l1 ++ l2) s =
    match restoreAll r contID l1 s with
    | (Ok _, s1) => restoreAll r contID l2 s1
    | (Fail e, s1) => (Fail e, s1)
    end.
Proof.
  induction l1 as [| [unitName d] l1 IH]; intros s; cbn [app restoreAll].
  - reflexivity.
  - rewrite !bind_wrapErr.
    destruct (restoreDB r contID unitName d s) as [[[] | e] s1]; [apply IH | reflexivity].
Qed.

(** The first database whose restore fails ends the loop: its error is
    returned, wrapped, in the state that restore left; the databases after it
    are not touched. *)
Theorem restoreAll_stops_at_first_failure (r : RestoreJob) (contID : string)
  (before after : list (string * DBDefinition)) (unitName : string) (d : DBDefinition)
  (s s1 s2 : JobState) (e : error) :
  restoreAll r contID before s = (Ok tt, s1) ->
  restoreDB r contID unitName d s1 = (Fail e, s2) ->
  restoreAll r contID (before ++ (unitName, d) :: after) s =
  (Fail (errors_Wrap e "failed to restore a database"), s2).
Proof.
  intros Hbefore Hfail.
  rewrite restoreAll_app, Hbefore. cbn [restoreAll].
  rewrite bind_wrapErr, Hfail. reflexivity.
Qed.

(** ** The mark and the timestamp of the pool *)

Lemma steady_silent {A} (m : Job A) :
  (forall s, dbMark (snd (m s)) = dbMark s /\ dsa (snd (m s)) = dsa s) -> steady m.
Proof. intros H. exact H. Qed.

Lemma steady_ret {A} (a : A) : steady (ret a).
Proof. intros s. split; reflexivity. Qed.

Lemma steady_fail {A} e : steady (@fail host A e).
Proof. intros s. split; reflexivity. Qed.

Lemma steady_do a : steady (do a).
Proof. intros s. split; reflexivity. Qed.

Lemma steady_ask q : steady (ask q).
Proof. intros s. unfold ask. destruct (request (trace s) q). split; reflexivity. Qed.

Lemma steady_look {A} (f : Trace -> A) : steady (look f).
Proof. intros s. split; reflexivity. Qed.

Lemma steady_lookResult {A} (f : Trace -> result A) wrap : steady (lookResult f wrap).
Proof. intros s. unfold lookResult. destruct (f (trace s)); split; reflexivity. Qed.

Lemma steady_check err wrap : steady (check err wrap).
Proof. intros s. destruct err; split; reflexivity. Qed.

Lemma steady_bind {A B} (m : Job A) (k : A -> Job B) :
  steady m -> (forall a, steady (k a)) -> steady (bind m k).
Proof.
  intros Hm Hk s. unfold bind. destruct (Hm s) as [M1 D1].
  destruct (m s) as [[a | e] s1]; cbn [snd] in *.
  - destruct (Hk a s1) as [M2 D2]. split; congruence.
  - split; assumption.
Qed.

Lemma steady_defer {A} (cleanup : option error -> Job unit) (body : Job A) :
  steady body -> (forall err, steady (cleanup err)) -> steady (defer cleanup body).
Proof.
  intros Hb Hc s. unfold defer. destruct (Hb s) as [M1 D1].
  destruct (body s) as [res s1]; cbn [snd] in *.
  match goal with |- context [cleanup ?err s1] => destruct (Hc err s1) as [M2 D2] end.
  split; congruence.
Qed.

Lemma steady_wrapErr {A} (m : Job A) wrap : steady m -> steady (wrapErr m wrap).
Proof.
  intros Hm s. unfold wrapErr. destruct (Hm s) as [M D].
  destruct (m s) as [[a | e] s1]; split; assumption.
Qed.

Ltac steady_auto :=
  cbv zeta;
  repeat match goal with
  | |- steady (bind _ _) => apply steady_bind; [| intros ?]
  | |- steady (ret _) => apply steady_ret
  | |- steady (fail _) => apply steady_fail
  | |- steady (do _) => apply steady_do
  | |- steady (ask _) => apply steady_ask
  | |- steady (look _) => apply steady_look
  | |- steady (lookResult _ _) => apply steady_lookResult
  | |- steady (check _ _) => apply steady_check
  | |- steady (defer _ _) => apply steady_defer; [| intros ?]
  | |- steady (wrapErr _ _) => apply steady_wrapErr
  | |- steady (match ?x with _ => _ end) => destruct x
  | H : _ |- _ => apply H
  end.

Lemma prepareDB_steady r contID unitName : steady (prepareDB r contID unitName).
Proof. unfold prepareDB. steady_auto. Qed.

Lemma retrieveDataStateAt_steady contID loc : steady (retrieveDataStateAt contID loc).
Proof. unfold retrieveDataStateAt. steady_auto. Qed.

(** Restoring a plain dump, and a restore whose command did not succeed,
    leave the job's mark and the timestamp of the pool as they were. *)
Theorem restoreDB_keeps_mark_unless_restored (r : RestoreJob) (contID unitName : string)
  (d : DBDefinition) (s : JobState) :
  Format d = plainFormat
  \/ (forall out, ~ In (Got (ExecCommandWithOutput contID true
                               (buildLogicalRestoreCommand r unitName d)) out None)
                        (since (trace s) (trace (snd (restoreDB r contID unitName d s))))) ->
  dbMark (snd (restoreDB r contID unitName d s)) = dbMark s
  /\ dsa (snd (restoreDB r contID unitName d s)) = dsa s.
Proof.
  intros H.
  destruct (string_eqb (Format d) plainFormat) eqn:Hformat.
  - clear H. revert s.
    change (steady (restoreDB r contID unitName d)).
    pose proof (prepareDB_steady r contID unitName).
    unfold restoreDB. rewrite Hformat. steady_auto.
  - destruct H as [H | H]; [apply string_eqb_true in H; congruence |].
    revert H. unfold restoreDB. rewrite Hformat. cbn [andb].
    rewrite bind_ret. cbv zeta. rewrite bind_ask.
    destruct (request (trace s) _) as [out [e |]]; cbn [fst snd]; rewrite bind_check.
    + intros _. split; reflexivity.
    + intros H. exfalso. apply (H out).
      match goal with
      | |- context [wrapErr ?m ?w ?s1] =>
        destruct (emits_wrapErr (fun _ => True) m w) with (s := s1) as [later [E _]]
      end.
      { pose proof (markDatabase_notCreate contID
                      (getDumpLocation r (Format d) unitName)) as Hm.
        eapply emits_weaken; [| exact Hm]. intros; exact I. }
      rewrite E. cbn [trace].
      match goal with
      | |- In ?x (since ?t (later ++ ?x :: ?t)%list) =>
        rewrite (since_eq (later ++ [x])%list t)
          by (rewrite <- app_assoc; reflexivity)
      end.
      apply in_or_app. right. left. reflexivity.
Qed.

(** When the timestamp is extracted and not empty, and the marker accepts
    the calls, [markDatabase] saves the job's mark with this timestamp and
    its data type unchanged; the timestamp of the pool becomes the parsed
    time, or stays when the timestamp does not parse. *)
Theorem markDatabase_saves_extracted_timestamp (contID loc : string)
  (s s1 : JobState) (stamp : string) :
  retrieveDataStateAt contID loc s = (Ok (stamp, None), s1) ->
  stamp <> "" ->
  perform (trace s1) CreateConfig = None ->
  perform (Did CreateConfig None :: trace s1)
    (SaveConfig (dbmarker.mkConfig stamp (dbmarker.DataType (dbMark s)))) = None ->
  fst (markDatabase contID loc s) = Ok tt
  /\ trace (snd (markDatabase contID loc s)) =
     Did (SaveConfig (dbmarker.mkConfig stamp (dbmarker.DataType (dbMark s)))) None
     :: Did CreateConfig None :: trace s1
  /\ dbMark (snd (markDatabase contID loc s)) =
     dbmarker.mkConfig stamp (dbmarker.DataType (dbMark s))
  /\ dsa (snd (markDatabase contID loc s)) =
     match time_Parse DataStateAtFormat stamp with
     | Some t => t
     | None => dsa s
     end.
Proof.
  intros Hretrieve Hstamp Hcreate Hsave.
  destruct (retrieveDataStateAt_steady contID loc s) as [Hmark Hdsa].
  rewrite Hretrieve in Hmark, Hdsa. cbn [snd] in Hmark, Hdsa.
  apply string_eqb_false in Hstamp.
  remember (markDatabase contID loc s) as res eqn:Hres.
  unfold markDatabase, bind in Hres. rewrite Hretrieve, Hstamp in Hres.
  cbn [negb set_DataStateAt] in Hres. unfold do in Hres.
  cbn [trace dbMark dsa] in Hres. rewrite Hcreate in Hres.
  cbn [check ret get_dbMark dbMark dsa trace] in Hres.
  rewrite Hmark, Hsave in Hres.
  cbn [check ret] in Hres.
  unfold updateDataStateAt, bind, get_dbMark in Hres.
  cbn [dbMark dbmarker.DataStateAt] in Hres.
  destruct (time_Parse DataStateAtFormat stamp); subst res;
    cbn [ret SetDSA fst snd trace dbMark dsa];
    repeat split; assumption.
Qed.

(** ** Where saved marks come from *)

Lemma descends_later init (new : Trace) (e : Event) mark :
  descends init new mark -> descends init (e :: new) mark.
Proof.
  intros [Htype [Hstamp | [Hne [execID Hin]]]]; split; auto.
  right. split; [assumption |]. exists execID. right. assumption.
Qed.

Lemma reached_refl (s0 : JobState) : reached s0 s0.
Proof.
  exists []. split; [reflexivity |]. split.
  - split; [reflexivity | left; reflexivity].
  - intros mark err [].
Qed.

(** An event that is no [SaveConfig] keeps a state reached. *)
Lemma reached_step (s0 s : JobState) (e : Event) :
  (forall mark err, e <> Did (SaveConfig mark) err) ->
  reached s0 s ->
  reached s0 (mkJobState (dbMark s) (dsa s) (e :: trace s)).
Proof.
  intros Hnot [new [E [Hmark Hsaved]]].
  exists (e :: new). cbn [trace dbMark]. split; [rewrite E; reflexivity |]. split.
  - apply descends_later, Hmark.
  - intros mark err [Hin | Hin]; [destruct (Hnot _ _ Hin) |].
    apply descends_later, Hsaved with (err := err), Hin.
Qed.

Lemma reached_dsa (s0 s : JobState) t :
  reached s0 s -> reached s0 (mkJobState (dbMark s) t (trace s)).
Proof. intros H. exact H. Qed.

Lemma maintains_ret {A} s0 (a : A) : maintains s0 (ret a).
Proof. intros s H. exact H. Qed.

Lemma maintains_fail {A} s0 e : maintains s0 (@fail host A e).
Proof. intros s H. exact H. Qed.

Lemma maintains_look {A} s0 (f : Trace -> A) : maintains s0 (look f).
Proof. intros s H. exact H. Qed.

Lemma maintains_lookResult {A} s0 (f : Trace -> result A) wrap :
  maintains s0 (lookResult f wrap).
Proof. intros s H. unfold lookResult. destruct (f (trace s)); exact H. Qed.

Lemma maintains_check s0 err wrap : maintains s0 (check err wrap).
Proof. intros s H. destruct err; exact H. Qed.

Lemma maintains_do s0 a :
  (forall mark, a <> SaveConfig mark) -> maintains s0 (do a).
Proof.
  intros Hnot s H. apply reached_step; [| exact H].
  intros mark err E. inversion E. apply (Hnot mark). assumption.
Qed.

Lemma maintains_ask s0 q : maintains s0 (ask q).
Proof.
  intros s H. unfold ask. destruct (request (trace s) q) as [out err].
  apply reached_step; [| exact H]. intros mark err' E. discriminate E.
Qed.

Lemma maintains_bind {A B} s0 (m : Job A) (k : A -> Job B) :
  maintains s0 m -> (forall a, maintains s0 (k a)) -> maintains s0 (bind m k).
Proof.
  intros Hm Hk s H. unfold bind. specialize (Hm s H).
  destruct (m s) as [[a | e] s1]; cbn [snd] in *; [apply Hk |]; assumption.
Qed.

Lemma maintains_defer {A} s0 (cleanup : option error -> Job unit) (body : Job A) :
  maintains s0 body -> (forall err, maintains s0 (cleanup err)) ->
  maintains s0 (defer cleanup body).
Proof.
  intros Hb Hc s H. unfold defer. specialize (Hb s H).
  destruct (body s) as [res s1]; cbn [snd] in *. apply Hc, Hb.
Qed.

Lemma maintains_wrapErr {A} s0 (m : Job A) wrap : maintains s0 m -> maintains s0 (wrapErr m wrap).
Proof.
  intros Hm s H. unfold wrapErr. specialize (Hm s H).
  destruct (m s) as [[a | e] s1]; exact Hm.
Qed.

Lemma maintains_pure {A} s0 (m : Job A) : (forall s, snd (m s) = s) -> maintains s0 m.
Proof. intros Hpure s H. rewrite Hpure. exact H. Qed.

Ltac maintains_auto :=
  cbv zeta;
  repeat match goal with
  | |- maintains _ (bind _ _) => apply maintains_bind; [| intros ?]
  | |- maintains _ (ret _) => apply maintains_ret
  | |- maintains _ (fail _) => apply maintains_fail
  | |- maintains _ (do _) => apply maintains_do; intros; discriminate
  | |- maintains _ (ask _) => apply maintains_ask
  | |- maintains _ (look _) => apply maintains_look
  | |- maintains _ (lookResult _ _) => apply maintains_lookResult
  | |- maintains _ (check _ _) => apply maintains_check
  | |- maintains _ (defer _ _) => apply maintains_defer; [| intros ?]
  | |- maintains _ (wrapErr _ _) => apply maintains_wrapErr
  | |- maintains _ (match ?x with _ => _ end) => destruct x
  | H : _ |- _ => apply H
  end.

(** What [retrieveDataStateAt] returns without error is what
    [tools.DiscoverDataStateAt] returned. *)
Lemma retrieveDataStateAt_extracted contID loc (s : JobState) :
  exists stamp err new,
    retrieveDataStateAt contID loc s =
      (Ok (stamp, err), mkJobState (dbMark s) (dsa s) (new ++ trace s)%list)
    /\ (forall mark err', ~ In (Did (SaveConfig mark) err') new)
    /\ (stamp <> "" -> extractedIn stamp new).
Proof.
  unfold retrieveDataStateAt. cbv zeta. rewrite bind_ask.
  destruct (request (trace s) _) as [execID [e1 |]]; cbn [fst snd ret].
  { exists "", (Some (errors_Wrap e1 "failed to create a restore metadata command")).
    eexists [_]. split; [reflexivity |]. split; [| congruence].
    intros mark err' [H | []]. discriminate H. }
  rewrite bind_do. cbn [trace].
  destruct (perform _ (ContainerExecAttach execID)) as [e2 |]; cbn [ret].
  { exists "", (Some (errors_Wrap e2 "failed to exec a restore metadata command")).
    eexists [_; _]. split; [reflexivity |]. split; [| congruence].
    intros mark err' [H | [H | []]]; discriminate H. }
  unfold defer. rewrite bind_ask. cbn [trace].
  destruct (request _ (DiscoverDataStateAt execID)) as [dataStateAt [e3 |]];
    cbn [fst snd ret bind do trace dbMark dsa].
  - exists "", (Some e3). eexists [_; _; _; _]. split; [reflexivity |]. split; [| congruence].
    intros mark err' [H | [H | [H | [H | []]]]]; discriminate H.
  - exists dataStateAt, None. eexists [_; _; _; _]. split; [reflexivity |]. split.
    + intros mark err' [H | [H | [H | [H | []]]]]; discriminate H.
    + intros Hne. split; [exact Hne |]. exists execID. right. left. reflexivity.
Qed.

Lemma markDatabase_maintains s0 contID loc : maintains s0 (markDatabase contID loc).
Proof.
  intros s [new0 [E0 [Hmark Hsaved]]].
  destruct (retrieveDataStateAt_extracted contID loc s)
    as [stamp [err [new [Hretrieve [Hnosave Hextracted]]]]].
  assert (Hlater : forall mark, descends (dbMark s0) new0 mark ->
                                descends (dbMark s0) (new ++ new0)%list mark).
  { clear. intros mark. induction new as [| e new IH]; intros H; [exact H |].
    cbn [app]. apply descends_later, IH, H. }
  assert (Hcur : exists current,
    descends (dbMark s0) (new ++ new0)%list current
    /\ forall k : unit -> Job unit,
         bind (if negb (string_eqb stamp "") then set_DataStateAt stamp else ret tt) k
           (mkJobState (dbMark s) (dsa s) (new ++ trace s)%list)
         = k tt (mkJobState current (dsa s) (new ++ trace s)%list)).
  { destruct (string_eqb stamp "") eqn:Hstamp; cbn [negb].
    - exists (dbMark s). split; [apply Hlater, Hmark | reflexivity].
    - exists (dbmarker.mkConfig stamp (dbmarker.DataType (dbMark s))). split; [| reflexivity].
      split; [exact (proj1 Hmark) |]. right. cbn [dbmarker.DataStateAt].
      apply string_eqb_false in Hstamp. destruct (Hextracted Hstamp) as [Hne [execID Hin]].
      split; [exact Hne |]. exists execID. apply in_or_app. left. exact Hin. }
  destruct Hcur as [current [Hcurrent Hset]].
  assert (Hsaved' : forall mark err', In (Did (SaveConfig mark) err') (new ++ new0)%list ->
                                      descends (dbMark s0) (new ++ new0)%list mark).
  { intros mark err' Hin. apply in_app_or in Hin. destruct Hin as [Hin | Hin].
    - destruct (Hnosave _ _ Hin).
    - apply Hlater, Hsaved with (err := err'), Hin. }
  unfold markDatabase. unfold bind at 1. rewrite Hretrieve. rewrite Hset.
  rewrite bind_do, bind_check. cbn [trace dbMark dsa].
  assert (Hafter_create : reached s0
            (mkJobState current (dsa s)
               (Did CreateConfig (perform (new ++ trace s)%list CreateConfig)
                :: new ++ trace s)%list)).
  { apply (reached_step s0 (mkJobState current (dsa s) (new ++ trace s)%list));
      [intros mark err' H; discriminate H |].
    exists (new ++ new0)%list. cbn [trace dbMark].
    split; [rewrite E0, app_assoc; reflexivity |]. split; assumption. }
  destruct (perform (new ++ trace s)%list CreateConfig) as [e |]; [exact Hafter_create |].
  unfold bind at 1. cbn [get_dbMark dbMark]. rewrite bind_do, bind_check.
  cbn [trace dbMark dsa].
  assert (Hafter_save : reached s0
            (mkJobState current (dsa s)
               (Did (SaveConfig current)
                  (perform (Did CreateConfig None :: new ++ trace s) (SaveConfig current))
                :: Did CreateConfig None :: new ++ trace s)%list)).
  { destruct Hafter_create as [n [En [Hm Hs]]]. cbn [trace dbMark] in *.
    eexists (_ :: n). cbn [trace dbMark]. split; [rewrite En; reflexivity |]. split.
    - apply descends_later, Hm.
    - intros mark err' [Hin | Hin].
      + inversion Hin; subst. apply descends_later, Hm.
      + apply descends_later, Hs with (err := err'), Hin. }
  destruct (perform _ (SaveConfig current)) as [e |]; [exact Hafter_save |].
  unfold updateDataStateAt, bind, get_dbMark. cbn [dbMark].
  destruct (time_Parse DataStateAtFormat (dbmarker.DataStateAt current));
    cbn [ret SetDSA snd]; exact Hafter_save.
Qed.

Lemma restoreDB_maintains s0 r contID unitName d :
  maintains s0 (restoreDB r contID unitName d).
Proof.
  pose proof (markDatabase_maintains s0 contID (getDumpLocation r (Format d) unitName)).
  unfold restoreDB, prepareDB. maintains_auto.
Qed.

Lemma restoreAll_maintains s0 r contID dbList : maintains s0 (restoreAll r contID dbList).
Proof.
  induction dbList as [| [unitName d] more IH]; cbn [restoreAll].
  - apply maintains_ret.
  - pose proof (restoreDB_maintains s0 r contID unitName d). maintains_auto.
Qed.

Lemma runInContainer_maintains s0 r contID : maintains s0 (runInContainer r contID).
Proof.
  pose proof (restoreAll_maintains s0 r contID).
  assert (maintains s0 (discoverDumpLocation (DumpLocation (Options r)))) as Hdiscover
    by (apply maintains_pure, discoverDumpLocation_pure).
  unfold runInContainer, getDBList, discoverCustomDump. maintains_auto.
Qed.

Lemma Run_maintains s0 r : maintains s0 (Run r).
Proof.
  assert (forall contID, maintains s0 (runInContainer r contID)) as H
    by (intros; apply runInContainer_maintains).
  unfold Run, getHostConfig. maintains_auto.
Qed.

(** Every mark a run hands to [SaveConfig], and the job's mark when the run
    ends, has the data type of the job's mark at the start, and a timestamp
    that is either the one the job's mark had at the start or a non-empty
    timestamp that [tools.DiscoverDataStateAt] returned without error in
    this run. *)
Theorem Run_saved_marks_descend (r : RestoreJob) (s : JobState) :
  descends (dbMark s) (since (trace s) (trace (snd (Run r s)))) (dbMark (snd (Run r s)))
  /\ forall mark err,
       In (Did (SaveConfig mark) err) (since (trace s) (trace (snd (Run r s)))) ->
       descends (dbMark s) (since (trace s) (trace (snd (Run r s)))) mark.
Proof.
  destruct (Run_maintains s r s (reached_refl s)) as [new [E [Hmark Hsaved]]].
  rewrite E, since_app. split; assumption.
Qed.

(** ** Where the timestamp of the pool comes from *)

Lemma keeps_ret {A} R (a : A) : keeps R (ret a).
Proof. intros s H. exact H. Qed.

Lemma keeps_fail {A} R e : keeps R (@fail host A e).
Proof. intros s H. exact H. Qed.

Lemma keeps_look {A} R (f : Trace -> A) : keeps R (look f).
Proof. intros s H. exact H. Qed.

Lemma keeps_lookResult {A} R (f : Trace -> result A) wrap : keeps R (lookResult f wrap).
Proof. intros s H. unfold lookResult. destruct (f (trace s)); exact H. Qed.

Lemma keeps_check R err wrap : keeps R (check err wrap).
Proof. intros s H. destruct err; exact H. Qed.

Lemma keeps_do (R : JobState -> Prop) a :
  (forall s e, R s -> R (mkJobState (dbMark s) (dsa s) (e :: trace s))) -> keeps R (do a).
Proof. intros Hstep s H. apply Hstep, H. Qed.

Lemma keeps_ask (R : JobState -> Prop) q :
  (forall s e, R s -> R (mkJobState (dbMark s) (dsa s) (e :: trace s))) -> keeps R (ask q).
Proof.
  intros Hstep s H. unfold ask. destruct (request (trace s) q). apply Hstep, H.
Qed.

Lemma keeps_bind {A B} R (m : Job A) (k : A -> Job B) :
  keeps R m -> (forall a, keeps R (k a)) -> keeps R (bind m k).
Proof.
  intros Hm Hk s H. unfold bind. specialize (Hm s H).
  destruct (m s) as [[a | e] s1]; cbn [snd] in *; [apply Hk |]; assumption.
Qed.

Lemma keeps_defer {A} R (cleanup : option error -> Job unit) (body : Job A) :
  keeps R body -> (forall err, keeps R (cleanup err)) -> keeps R (defer cleanup body).
Proof.
  intros Hb Hc s H. unfold defer. specialize (Hb s H).
  destruct (body s) as [res s1]; cbn [snd] in *. apply Hc, Hb.
Qed.

Lemma keeps_wrapErr {A} R (m : Job A) wrap : keeps R m -> keeps R (wrapErr m wrap).
Proof.
  intros Hm s H. unfold wrapErr. specialize (Hm s H).
  destruct (m s) as [[a | e] s1]; exact Hm.
Qed.

Lemma keeps_pure {A} R (m : Job A) : (forall s, snd (m s) = s) -> keeps R m.
Proof. intros Hpure s H. rewrite Hpure. exact H. Qed.

Lemma timed_refl (s0 : JobState) : timed s0 s0.
Proof. exists []. split; [reflexivity | left; reflexivity]. Qed.

Lemma timed_step (s0 s : JobState) (e : Event) mark :
  timed s0 s -> timed s0 (mkJobState mark (dsa s) (e :: trace s)).
Proof.
  intros [new [E Hdsa]]. exists (e :: new). cbn [trace dsa].
  split; [rewrite E; reflexivity |].
  destruct Hdsa as [Hdsa | [m [Hin Hparse]]]; [left; exact Hdsa |].
  right. exists m. split; [right; exact Hin | exact Hparse].
Qed.

Lemma timed_mark (s0 s : JobState) mark :
  timed s0 s -> timed s0 (mkJobState mark (dsa s) (trace s)).
Proof. intros H. exact H. Qed.

Ltac keeps_timed :=
  cbv zeta;
  repeat match goal with
  | |- keeps _ (bind _ _) => apply keeps_bind; [| intros ?]
  | |- keeps _ (ret _) => apply keeps_ret
  | |- keeps _ (fail _) => apply keeps_fail
  | |- keeps _ (do _) => apply keeps_do; intros; apply timed_step; assumption
  | |- keeps _ (ask _) => apply keeps_ask; intros; apply timed_step; assumption
  | |- keeps _ (look _) => apply keeps_look
  | |- keeps _ (lookResult _ _) => apply keeps_lookResult
  | |- keeps _ (check _ _) => apply keeps_check
  | |- keeps _ (defer _ _) => apply keeps_defer; [| intros ?]
  | |- keeps _ (wrapErr _ _) => apply keeps_wrapErr
  | |- keeps _ (match ?x with _ => _ end) => destruct x
  | H : _ |- _ => apply H
  end.

Lemma markDatabase_timed s0 contID loc : keeps (timed s0) (markDatabase contID loc).
Proof.
  intros s Htimed.
  destruct (retrieveDataStateAt_extracted contID loc s)
    as [stamp [err [new [Hretrieve _]]]].
  assert (Hretrieved : forall mark,
            timed s0 (mkJobState mark (dsa s) (new ++ trace s)%list)).
  { intros mark. clear Hretrieve. induction new as [| e new IH]; cbn [app].
    - apply timed_mark, Htimed.
    - apply (timed_step s0 (mkJobState mark (dsa s) (new ++ trace s)%list) e mark), IH. }
  unfold markDatabase. unfold bind at 1. rewrite Hretrieve.
  assert (Hcur : exists current,
    forall k : unit -> Job unit,
      bind (if negb (string_eqb stamp "") then set_DataStateAt stamp else ret tt) k
        (mkJobState (dbMark s) (dsa s) (new ++ trace s)%list)
      = k tt (mkJobState current (dsa s) (new ++ trace s)%list))
    by (destruct (string_eqb stamp ""); eexists; reflexivity).
  destruct Hcur as [current Hset]. rewrite Hset.
  rewrite bind_do, bind_check. cbn [trace dbMark dsa].
  destruct (perform (new ++ trace s)%list CreateConfig) as [e |].
  { apply (timed_step s0 (mkJobState current (dsa s) (new ++ trace s)%list)), Hretrieved. }
  unfold bind at 1. cbn [get_dbMark dbMark]. rewrite bind_do, bind_check.
  cbn [trace dbMark dsa].
  assert (Hcreated : timed s0 (mkJobState current (dsa s)
                                 (Did CreateConfig None :: new ++ trace s)%list))
    by (apply (timed_step s0 (mkJobState current (dsa s) (new ++ trace s)%list)),
          Hretrieved).
  destruct (perform _ (SaveConfig current)) as [e |].
  { apply (timed_step s0 _ _ current Hcreated). }
  unfold updateDataStateAt, bind, get_dbMark. cbn [dbMark].
  destruct (time_Parse DataStateAtFormat (dbmarker.DataStateAt current)) as [t |] eqn:Hparse;
    cbn [ret SetDSA snd].
  - destruct Hcreated as [n [En _]]. cbn [trace] in En.
    eexists (_ :: n). cbn [trace dsa]. split; [rewrite En; reflexivity |].
    right. exists current. split; [left; reflexivity | exact Hparse].
  - apply (timed_step s0 _ _ current Hcreated).
Qed.

Lemma Run_timed s0 r : keeps (timed s0) (Run r).
Proof.
  assert (forall contID loc, keeps (timed s0) (markDatabase contID loc)) as Hmark
    by (intros; apply markDatabase_timed).
  assert (forall contID unitName d, keeps (timed s0) (restoreDB r contID unitName d))
    as HrestoreDB by (intros; unfold restoreDB, prepareDB; keeps_timed).
  assert (forall contID dbList, keeps (timed s0) (restoreAll r contID dbList)) as HrestoreAll.
  { intros contID dbList. induction dbList as [| [unitName d] more IH]; cbn [restoreAll].
    - apply keeps_ret.
    - pose proof (HrestoreDB contID unitName d). keeps_timed. }
  assert (keeps (timed s0) (discoverDumpLocation (DumpLocation (Options r)))) as Hdiscover
    by (apply keeps_pure, discoverDumpLocation_pure).
  unfold Run, getHostConfig, runInContainer, getDBList, discoverCustomDump.
  clear HrestoreDB Hmark. keeps_timed.
Qed.

(** The timestamp of the pool after a run is the one before it, or the
    parsed timestamp of a mark that was saved with success in this run: the
    pool's dataStateAt moves only through the marker. *)
Theorem Run_pool_timestamp_from_saved_mark (r : RestoreJob) (s : JobState) :
  dsa (snd (Run r s)) = dsa s
  \/ exists mark,
       In (Did (SaveConfig mark) None) (since (trace s) (trace (snd (Run r s))))
       /\ time_Parse DataStateAtFormat (dbmarker.DataStateAt mark) = Some (dsa (snd (Run r s))).
Proof.
  destruct (Run_timed s r s (timed_refl s)) as [new [E H]].
  rewrite E, since_app. exact H.
Qed.

(** ** Preparing the database of a plain dump *)

(** The placeholders of the template are replaced, and the text put in
    their place is not searched for placeholders again. *)
Lemma creationSQL_eq (quotedDatabase quotedUser : string) :
  Replacer_Replace [("@database", quotedDatabase); ("@username", quotedUser)] 0
    templateCreateDB
  = creationSQL quotedDatabase quotedUser.
Proof.
  unfold templateCreateDB, creationSQL.
  cbn -[String.append].
  repeat (rewrite ?append_assoc; cbn [String.append]; try reflexivity; f_equal).
Qed.

(** What [prepareDB] does, call by call. *)
Lemma prepareDB_shape r contID unitName (s : JobState) :
  let q := TempFile (DumpLocation (Options r)) ("createdb_" ++ unitName ++ "_*.sql") in
  let sql := creationSQL (pq_QuoteLiteral (formatDBName unitName))
               (pq_QuoteLiteral (User (Database (globalCfg r)))) in
  exists tmp terr,
    request (trace s) q = (tmp, terr)
    /\ dbMark (snd (prepareDB r contID unitName s)) = dbMark s
    /\ dsa (snd (prepareDB r contID unitName s)) = dsa s
    /\ match terr with
       | Some e =>
         fst (prepareDB r contID unitName s) = Fail e
         /\ since (trace s) (trace (snd (prepareDB r contID unitName s)))
            = [Got q tmp (Some e)]
       | None =>
         exists rem cls w,
         match w with
         | Some e =>
           fst (prepareDB r contID unitName s) = Fail e
           /\ since (trace s) (trace (snd (prepareDB r contID unitName s)))
              = [Did (RemoveFile tmp) rem; Did (CloseFile tmp) cls;
                 Did (WriteFile tmp sql) (Some e); Got q tmp None]
         | None =>
           exists x,
           fst (prepareDB r contID unitName s)
           = match x with
             | Some e => Fail (errors_Wrap e "failed to exec restore command")
             | None => Ok tt
             end
           /\ since (trace s) (trace (snd (prepareDB r contID unitName s)))
              = [Did (RemoveFile tmp) rem; Did (CloseFile tmp) cls;
                 Did (ExecCommand contID
                        ["psql"; "--username"; User (Database (globalCfg r));
                         "--dbname"; defaults_DBName; "--file"; tmp]) x;
                 Did (WriteFile tmp sql) None; Got q tmp None]
         end
       end.
Proof.
  cbv zeta.
  remember (prepareDB r contID unitName s) as out eqn:Hout.
  unfold prepareDB in Hout. cbv zeta in Hout. rewrite creationSQL_eq in Hout.
  rewrite bind_ask in Hout.
  destruct (request (trace s) _) as [tmp terr] eqn:Hreq.
  exists tmp, terr. split; [reflexivity |].
  cbn [fst snd] in Hout. rewrite bind_check in Hout.
  destruct terr as [e |].
  - subst out. cbn [fst snd trace dbMark dsa]. rewrite since_step. repeat split.
  - unfold defer, bind, do, ret in Hout. cbn [trace dbMark dsa fst snd] in Hout.
    match type of Hout with
    | context [perform ?t (WriteFile tmp ?sql)] =>
      destruct (perform t (WriteFile tmp sql)) as [e |] eqn:Hw
    end.
    + cbn [check fail fst snd trace dbMark dsa] in Hout. unfold fail in Hout.
      cbn [fst snd trace dbMark dsa] in Hout. subst out.
      cbn [fst snd trace dbMark dsa].
      split; [reflexivity |]. split; [reflexivity |].
      eexists _, _, (Some e). cbn iota.
      split; [reflexivity |].
      apply since_eq. cbn [app]. reflexivity.
    + cbn [check] in Hout. unfold ret in Hout.
      cbn [fst snd trace dbMark dsa] in Hout.
      match type of Hout with
      | context [perform ?t (ExecCommand contID ?cmd)] =>
        destruct (perform t (ExecCommand contID cmd)) as [e |] eqn:Hx
      end.
      * unfold fail in Hout. cbn [fst snd trace dbMark dsa] in Hout. subst out.
        cbn [fst snd trace dbMark dsa].
        split; [reflexivity |]. split; [reflexivity |].
        eexists _, _, None. cbn iota. exists (Some e).
        split; [reflexivity |].
        apply since_eq. cbn [app]. reflexivity.
      * cbn [fst snd trace dbMark dsa] in Hout. subst out.
        cbn [fst snd trace dbMark dsa].
        split; [reflexivity |]. split; [reflexivity |].
        eexists _, _, None. cbn iota. exists None.
        split; [reflexivity |].
        apply since_eq. cbn [app]. reflexivity.
Qed.

Lemma emits_trace {A} (P : Event -> Prop) (m : Job A) (s : JobState) :
  emits P m ->
  trace (snd (m s)) = (since (trace s) (trace (snd (m s))) ++ trace s)%list.
Proof.
  intros H. destruct (H s) as [new [E _]]. rewrite E at 2. rewrite since_app. exact E.
Qed.

(** [prepareDB] cleans up behind itself.  When the temporary file was
    created, the last two calls of [prepareDB] close it and remove it,
    whether writing the script or running it failed or not; what was written
    to the file before is the creation script for the formatted name of the
    dump and the user of the job, both quoted; [prepareDB] succeeds exactly
    when psql ran that file on the default database with success; and the
    mark and the timestamp of the pool are untouched. *)
Theorem prepareDB_removes_temp_file r contID unitName (s : JobState) (tmp : string) :
  request (trace s)
    (TempFile (DumpLocation (Options r)) ("createdb_" ++ unitName ++ "_*.sql"))
  = (tmp, None) ->
  let new := since (trace s) (trace (snd (prepareDB r contID unitName s))) in
  let script := ["psql"; "--username"; User (Database (globalCfg r));
                 "--dbname"; defaults_DBName; "--file"; tmp] in
  (exists rem cls written earlier,
     new = Did (RemoveFile tmp) rem :: Did (CloseFile tmp) cls :: earlier
     /\ In (Did (WriteFile tmp
                   (creationSQL (pq_QuoteLiteral (formatDBName unitName))
                      (pq_QuoteLiteral (User (Database (globalCfg r))))))
              written) earlier
     /\ (forall a err, In (Did a err) earlier -> a <> RemoveFile tmp /\ a <> CloseFile tmp))
  /\ (fst (prepareDB r contID unitName s) = Ok tt
      <-> In (Did (ExecCommand contID script) None) new)
  /\ dbMark (snd (prepareDB r contID unitName s)) = dbMark s
  /\ dsa (snd (prepareDB r contID unitName s)) = dsa s.
Proof.
  intros Hreq. cbv zeta.
  destruct (prepareDB_shape r contID unitName s) as [tmp' [terr [Hreq' [Hmark [Hdsa H]]]]].
  rewrite Hreq in Hreq'. injection Hreq' as <- <-.
  destruct H as [rem [cls [w H]]].
  split; [| split; [| split; [exact Hmark | exact Hdsa]]].
  - exists rem, cls, w.
    destruct w as [e |].
    + destruct H as [_ ->]. eexists. split; [reflexivity |].
      split; [left; reflexivity |].
      intros a err [Hin | [Hin | []]]; inversion Hin; subst; split; discriminate.
    + destruct H as [x [_ ->]]. eexists. split; [reflexivity |].
      split; [right; left; reflexivity |].
      intros a err [Hin | [Hin | [Hin | []]]]; inversion Hin; subst; split; discriminate.
  - destruct w as [e |].
    + destruct H as [-> ->]. split; [discriminate |].
      intros [Hin | [Hin | [Hin | [Hin | []]]]]; discriminate Hin.
    + destruct H as [x [-> ->]]. destruct x as [e |].
      * split; [discriminate |].
        intros [Hin | [Hin | [Hin | [Hin | [Hin | []]]]]]; discriminate Hin.
      * split; [| reflexivity]. intros _. right. right. left. reflexivity.
Qed.

(** A plain dump that names no database is restored into the database the
    creation script created.  Whenever [restoreDB] runs the restore command
    of such a dump, it is the call made last, and before it the creation
    script for the formatted unit name was written to a temporary file and
    psql ran that file with success; the restore command then targets the
    database of that same formatted name.  So a failure to prepare the
    database prevents the restore. *)
Theorem restoreDB_prepares_before_restoring r contID unitName d (s : JobState) out err cmd :
  Format d = plainFormat ->
  dbName d = "" ->
  In (Got (ExecCommandWithOutput contID true cmd) out err)
     (since (trace s) (trace (snd (restoreDB r contID unitName d s)))) ->
  cmd = ["psql"; "--username"; User (Database (globalCfg r));
         "--dbname"; formatDBName unitName;
         "--file"; path_Join [DumpLocation (Options r); unitName]]
  /\ exists tmp prep,
       since (trace s) (trace (snd (restoreDB r contID unitName d s)))
       = Got (ExecCommandWithOutput contID true cmd) out err :: prep
       /\ In (Did (WriteFile tmp
                     (creationSQL (pq_QuoteLiteral (formatDBName unitName))
                        (pq_QuoteLiteral (User (Database (globalCfg r))))))
                None) prep
       /\ In (Did (ExecCommand contID
                     ["psql"; "--username"; User (Database (globalCfg r));
                      "--dbname"; defaults_DBName; "--file"; tmp])
                None) prep.
Proof.
  intros Hfmt Hname.
  remember (restoreDB r contID unitName d s) as res eqn:Hres.
  unfold restoreDB in Hres. cbv zeta in Hres.
  unfold buildLogicalRestoreCommand, buildPlainTextCommand, getDumpLocation in Hres.
  rewrite Hfmt, Hname in Hres.
  change (string_eqb plainFormat plainFormat) with true in Hres.
  change (string_eqb "" "") with true in Hres.
  cbn [andb] in Hres. cbv zeta in Hres. rewrite bind_wrapErr in Hres.
  pose proof (emits_trace quiet _ s (prepareDB_quiet r contID unitName)) as Htr.
  destruct (prepareDB_shape r contID unitName s) as [tmp [terr [Hreq [Hmark [Hdsa H]]]]].
  destruct (prepareDB r contID unitName s) as [[[] | e] s1] eqn:Hprep;
    cbn [fst snd] in *.
  - rewrite bind_ask in Hres.
    destruct (request (trace s1) _) as [o oerr] eqn:Hrq.
    cbn [fst snd] in Hres. rewrite bind_check in Hres.
    destruct terr as [e |]; [destruct H as [H _]; discriminate H |].
    destruct H as [rem [cls [[e |] H]]]; [destruct H as [H _]; discriminate H |].
    destruct H as [[e |] [H Hnew]]; [discriminate H |].
    rewrite Hnew in Htr. cbn [app] in Htr.
    assert (Hall : since (trace s) (trace (snd res))
                   = Got (ExecCommandWithOutput contID true
                            ["psql"; "--username"; User (Database (globalCfg r));
                             "--dbname"; formatDBName unitName; "--file";
                             path_Join [DumpLocation (Options r); unitName]]) o oerr
                     :: since (trace s) (trace s1)).
    { subst res. rewrite Hnew.
      destruct oerr as [e |]; cbn [fst snd trace ret];
        rewrite Htr; apply since_eq; reflexivity. }
    rewrite Hall, Hnew. intros Hin.
    destruct Hin as [Hin | Hin].
    + inversion Hin; subst cmd out err. split; [reflexivity |].
      exists tmp. eexists. split; [reflexivity |].
      split; [do 3 right; left; reflexivity | do 2 right; left; reflexivity].
    + exfalso.
      destruct Hin as [Hin | [Hin | [Hin | [Hin | [Hin | []]]]]]; discriminate Hin.
  - subst res. cbn [snd]. intros Hin. exfalso.
    destruct (prepareDB_quiet r contID unitName s) as [new [E F]].
    rewrite Hprep in E. cbn [snd] in E. rewrite E, since_app in Hin.
    rewrite Forall_forall in F. exact (F _ Hin).
Qed.

(** ** Discovering the databases of a dump location *)

Lemma mapGet_mapSet {V} (m : list (string * V)) (k k' : string) (v : V) :
  mapGet (mapSet m k v) k' = if string_eqb k' k then Some v else mapGet m k'.
Proof.
  induction m as [| [k0 v0] rest IH]; cbn [mapSet mapGet].
  - reflexivity.
  - destruct (string_eqb k k0) eqn:Ek; cbn [mapGet].
    + apply string_eqb_true in Ek. subst k0.
      destruct (string_eqb k' k); reflexivity.
    + rewrite IH. destruct (string_eqb k' k0) eqn:Ek0; [| reflexivity].
      apply string_eqb_true in Ek0. subst k0.
      destruct (string_eqb k' k) eqn:Ek'; [| reflexivity].
      apply string_eqb_true in Ek'. subst k'.
      unfold string_eqb in Ek. rewrite String.eqb_refl in Ek. discriminate Ek.
Qed.

Lemma string_eqb_refl (a : string) : string_eqb a a = true.
Proof. apply String.eqb_refl. Qed.

Lemma parsePlainFile_eq dumpPath (s : JobState) :
  parsePlainFile dumpPath s =
  match os_Open (trace s) dumpPath with
  | Ok content =>
    match scanLoop (scanLines content) with
    | Ok name => (Ok name, s)
    | Fail err => (Fail err, s)
    end
  | Fail err => (Fail (errors_Wrap err "failed to open dump file"), s)
  end.
Proof.
  unfold parsePlainFile. rewrite bind_lookResult.
  destruct (os_Open (trace s) dumpPath); [| reflexivity].
  destruct (scanLoop _); reflexivity.
Qed.

Lemma classified_later t loc info infos name d :
  classified t loc infos name d -> classified t loc (info :: infos) name d.
Proof.
  intros [Htab [i [Hin H]]]. split; [exact Htab |].
  exists i. split; [right; exact Hin | exact H].
Qed.

(** The loop of the discovery: every entry of the result was there before
    or is the classification of one of the directory entries, and every
    directory entry is in the result. *)
Lemma discoverEntries_classified loc infos :
  forall dbList (s : JobState) result,
    fst (discoverEntries loc infos dbList s) = Ok result ->
    (forall name d, mapGet result name = Some d ->
       mapGet dbList name = Some d \/ classified (trace s) loc infos name d)
    /\ (forall name, mapGet dbList name <> None -> mapGet result name <> None)
    /\ (forall info, In info infos -> mapGet result (fiName info) <> None).
Proof.
  induction infos as [| info more IH]; intros dbList s result; cbn [discoverEntries].
  - unfold ret. cbn [fst]. intros E. injection E as <-.
    split; [intros name d H; left; exact H |].
    split; [intros name H; exact H | intros info []].
  - assert (Hstep : forall d0,
              Tables d0 = [] ->
              (if fiIsDir info
               then Format d0 = directoryFormat /\ dbName d0 = ""
               else Format d0 = plainFormat
                    /\ dbName d0 = embeddedName (trace s) (path_Join [loc; fiName info])) ->
              fst (discoverEntries loc more (mapSet dbList (fiName info) d0) s) = Ok result ->
              (forall name d, mapGet result name = Some d ->
                 mapGet dbList name = Some d
                 \/ classified (trace s) loc (info :: more) name d)
              /\ (forall name, mapGet dbList name <> None -> mapGet result name <> None)
              /\ (forall i, In i (info :: more) -> mapGet result (fiName i) <> None)).
    { intros d0 Htab Hd0 E.
      destruct (IH _ _ _ E) as [H1 [H2 H3]].
      split; [| split].
      - intros name d Hget. destruct (H1 name d Hget) as [Hold | Hnew].
        + rewrite mapGet_mapSet in Hold.
          destruct (string_eqb name (fiName info)) eqn:Ename.
          * apply string_eqb_true in Ename. injection Hold as <-. right.
            split; [exact Htab |]. exists info.
            split; [left; reflexivity |]. split; [symmetry; exact Ename |].
            subst name. exact Hd0.
          * left. exact Hold.
        + right. apply classified_later. exact Hnew.
      - intros name Hname. apply H2. rewrite mapGet_mapSet.
        destruct (string_eqb name (fiName info)); [discriminate | exact Hname].
      - intros i [<- | Hin].
        + apply H2. rewrite mapGet_mapSet, string_eqb_refl. discriminate.
        + apply H3. exact Hin. }
    destruct (fiIsDir info) eqn:Hdir.
    + apply Hstep; [reflexivity | split; reflexivity].
    + rewrite parsePlainFile_eq. unfold embeddedName in Hstep.
      destruct (os_Open (trace s) (path_Join [loc; fiName info])) as [content | err].
      * destruct (scanLoop (scanLines content)) as [name | err].
        -- apply Hstep; [reflexivity | split; reflexivity].
        -- destruct (is_errDBNameNotFound err); [| discriminate].
           apply Hstep; [reflexivity | split; reflexivity].
      * destruct (is_errDBNameNotFound _); [| discriminate].
        apply Hstep; [reflexivity | split; reflexivity].
Qed.

(** What a successful discovery of a dump location returns.  Every name of
    the directory listing has an entry in the result, and every entry of the
    result belongs to a listed name: an entry for a directory is a dump in
    directory format, an entry for a file is a plain dump recorded with the
    database name embedded in the file, or with none; no entry selects
    tables and none is of custom format.  The discovery leaves the state of
    the job as it was. *)
Theorem discoverDumpLocation_classifies dumpLocation (s : JobState) result :
  fst (discoverDumpLocation dumpLocation s) = Ok result ->
  exists fileInfos,
    ioutil_ReadDir (trace s) dumpLocation = Ok fileInfos
    /\ (forall name d, mapGet result name = Some d ->
          classified (trace s) dumpLocation fileInfos name d
          /\ Format d <> customFormat)
    /\ (forall info, In info fileInfos -> mapGet result (fiName info) <> None)
    /\ snd (discoverDumpLocation dumpLocation s) = s.
Proof.
  intros E. pose proof (discoverDumpLocation_pure dumpLocation s) as Hpure.
  unfold discoverDumpLocation in E. rewrite bind_lookResult in E.
  destruct (ioutil_ReadDir (trace s) dumpLocation) as [infos | err]; [| discriminate E].
  exists infos. split; [reflexivity |].
  destruct (discoverEntries_classified _ _ _ _ _ E) as [H1 [_ H3]].
  split; [| split; [exact H3 | exact Hpure]].
  intros name d Hget. destruct (H1 name d Hget) as [Hold | Hnew]; [discriminate Hold |].
  split; [exact Hnew |].
  destruct Hnew as [_ [info [_ [_ H]]]].
  destruct (fiIsDir info); destruct H as [-> _]; discriminate.
Qed.

Lemma scanLoop_fails (lines : list string) (err : error) :
  scanLoop lines = Fail err -> err = errDBNameNotFound.
Proof.
  induction lines as [| line more IH]; cbn [scanLoop].
  - intros E. injection E as <-. reflexivity.
  - repeat match goal with
           | |- context [if ?c then _ else _] => destruct c
           end; intros E; try discriminate E;
      try (injection E as <-; reflexivity); apply IH; exact E.
Qed.

Lemma discoverEntries_unreadable loc infos (s : JobState) :
  forall dbList,
    (exists info e,
       In info infos /\ fiIsDir info = false
       /\ os_Open (trace s) (path_Join [loc; fiName info]) = Fail e
       /\ is_errDBNameNotFound e = false) ->
    exists info e,
      In info infos /\ fiIsDir info = false
      /\ os_Open (trace s) (path_Join [loc; fiName info]) = Fail e
      /\ discoverEntries loc infos dbList s
         = (Fail (errors_Wrap e "failed to open dump file"), s).
Proof.
  induction infos as [| i more IH]; intros dbList [info [e [Hin [Hdir [Hopen Hnot]]]]].
  - destruct Hin.
  - assert (Hmore : i <> info ->
              forall dbList', exists info' e',
                In info' (i :: more) /\ fiIsDir info' = false
                /\ os_Open (trace s) (path_Join [loc; fiName info']) = Fail e'
                /\ discoverEntries loc more dbList' s
                   = (Fail (errors_Wrap e' "failed to open dump file"), s)).
    { intros Hneq dbList'. destruct Hin as [Hin | Hin]; [contradiction |].
      destruct (IH dbList') as [info' [e' [Hin' [Hdir' [Hopen' Hres]]]]].
      { exists info, e. repeat split; assumption. }
      exists info', e'. split; [right; exact Hin' |].
      split; [exact Hdir' |]. split; [exact Hopen' | exact Hres]. }
    cbn [discoverEntries]. destruct (fiIsDir i) eqn:Hidir.
    + apply Hmore. intros ->. congruence.
    + rewrite parsePlainFile_eq.
      destruct (os_Open (trace s) (path_Join [loc; fiName i])) as [content | err] eqn:Hiopen.
      * assert (Hneq : i <> info) by (intros ->; congruence).
        destruct (scanLoop (scanLines content)) as [name | err] eqn:Hscan.
        -- apply Hmore. exact Hneq.
        -- apply scanLoop_fails in Hscan. subst err. cbn [is_errDBNameNotFound].
           apply Hmore. exact Hneq.
      * cbn [is_errDBNameNotFound].
        destruct (is_errDBNameNotFound err) eqn:Herr.
        -- apply Hmore. intros ->. congruence.
        -- exists i, err. split; [left; reflexivity |].
           split; [exact Hidir |]. split; [exact Hiopen | reflexivity].
Qed.

(** One unreadable dump file makes the whole discovery fail.  If the dump
    location lists a file that cannot be opened, the discovery returns no
    list at all: it fails with the error of opening a listed file, wrapped
    as "failed to open dump file", and leaves the state of the job as it
    was.  (The error of the operating system is not the sentinel of the
    package for a dump without a database name.) *)
Theorem discoverDumpLocation_unreadable_file dumpLocation (s : JobState) fileInfos info e :
  ioutil_ReadDir (trace s) dumpLocation = Ok fileInfos ->
  In info fileInfos ->
  fiIsDir info = false ->
  os_Open (trace s) (path_Join [dumpLocation; fiName info]) = Fail e ->
  is_errDBNameNotFound e = false ->
  exists info' e',
    In info' fileInfos /\ fiIsDir info' = false
    /\ os_Open (trace s) (path_Join [dumpLocation; fiName info']) = Fail e'
    /\ discoverDumpLocation dumpLocation s
       = (Fail (errors_Wrap e' "failed to open dump file"), s).
Proof.
  intros Hdir Hin Hfile Hopen Hnot.
  unfold discoverDumpLocation. rewrite bind_lookResult, Hdir.
  apply discoverEntries_unreadable.
  exists info, e. repeat split; assumption.
Qed.

(** Where the list of databases comes from.  A successful [getDBList]
    returns the configured databases, untouched and without any call, when
    there are some.  Otherwise, if the metafile of a custom dump exists, it
    ran one command in the container, without a terminal, and the result
    is the single database the non-empty output names, in custom format and
    with no tables selected; if the metafile
    does not exist, it made no call and every entry of the result is the
    classification of an entry of the dump location.  The three sources are
    never mixed. *)
Theorem getDBList_sources r dumpLocation dumpFileMeta contID (s : JobState) result :
  fst (getDBList r dumpLocation dumpFileMeta contID s) = Ok result ->
  let new := since (trace s) (trace (snd (getDBList r dumpLocation dumpFileMeta contID s))) in
  let metaPath := path_Join [dumpLocation; dumpFileMeta] in
  (Databases (Options r) <> [] /\ result = Databases (Options r) /\ new = [])
  \/ (Databases (Options r) = []
      /\ os_Stat (trace s) metaPath = None
      /\ exists out,
           out <> ""
           /\ new = [Got (ExecCommandWithOutput contID false
                            ["bash"; "-c";
                             "pg_restore --list " ++ metaPath ++ " | grep " ++ prefixDBName
                             ++ " | tr -d '[;]'"]) out None]
           /\ result = [(TrimSpace (TrimPrefix out prefixDBName),
                         mkDBDefinition [] customFormat "")])
  \/ (Databases (Options r) = []
      /\ exists e fileInfos,
           os_Stat (trace s) metaPath = Some e
           /\ os_IsNotExist e = true
           /\ new = []
           /\ ioutil_ReadDir (trace s) dumpLocation = Ok fileInfos
           /\ forall name d, mapGet result name = Some d ->
                classified (trace s) dumpLocation fileInfos name d).
Proof.
  cbv zeta.
  remember (getDBList r dumpLocation dumpFileMeta contID s) as res eqn:Hres.
  unfold getDBList in Hres.
  destruct (Databases (Options r)) as [| db dbs] eqn:Hdbs; cbn [List.length Nat.ltb Nat.leb] in Hres.
  - change (0 <? 0)%nat with false in Hres. cbv zeta in Hres. rewrite bind_look in Hres.
    destruct (os_Stat (trace s) (path_Join [dumpLocation; dumpFileMeta])) as [e |] eqn:Hstat.
    + destruct (os_IsNotExist e) eqn:Hnot.
      * intros E. right. right. split; [reflexivity |].
        pose proof (discoverDumpLocation_pure dumpLocation s) as Hpure.
        subst res. rewrite Hpure, since_same.
        unfold discoverDumpLocation in E. rewrite bind_lookResult in E.
        destruct (ioutil_ReadDir (trace s) dumpLocation) as [infos | err] eqn:Hdir;
          [| discriminate E].
        exists e, infos. split; [reflexivity |]. split; [exact Hnot |].
        split; [reflexivity |]. split; [reflexivity |].
        intros name d Hget.
        destruct (discoverEntries_classified _ _ _ _ _ E) as [H1 _].
        destruct (H1 name d Hget) as [Hold | Hnew]; [discriminate Hold | exact Hnew].
      * subst res. intros E. discriminate E.
    + intros E. right. left. split; [reflexivity |]. split; [reflexivity |].
      unfold discoverCustomDump in Hres. cbv zeta in Hres. rewrite bind_ask in Hres.
      destruct (request (trace s) _) as [out err] eqn:Hreq.
      cbn [fst snd] in Hres. rewrite bind_check in Hres.
      destruct err as [e |]; [subst res; discriminate E |].
      destruct (string_eqb out "") eqn:Hout; [subst res; discriminate E |].
      exists out. split.
      { intros ->. discriminate Hout. }
      subst res. cbn [fst snd trace ret] in *. unfold ret in *. cbn [fst snd trace] in *.
      split; [apply since_step |].
      injection E as <-. reflexivity.
  - change (0 <? S (List.length dbs))%nat with true in Hres. subst res.
    unfold ret. cbn [fst snd]. intros E. injection E as <-.
    left. split; [discriminate |]. split; [reflexivity | apply since_same].
Qed.

(** ** Which databases a run restores *)

Lemma restoredCommands_app (a b : Trace) :
  restoredCommands (a ++ b)%list = (restoredCommands b ++ restoredCommands a)%list.
Proof.
  induction a as [| e a IH]; cbn [app restoredCommands].
  - symmetry. apply app_nil_r.
  - destruct e as [act err | q out err]; [exact IH |].
    destruct q; try exact IH.
    destruct tty; [| exact IH]. destruct err; [exact IH |].
    rewrite IH. symmetry. apply app_assoc.
Qed.

Lemma restoredCommands_calm (new : Trace) : Forall calm new -> restoredCommands new = [].
Proof.
  induction 1 as [| e new He _ IH]; [reflexivity |].
  destruct e as [act err | q out err]; cbn [restoredCommands]; [exact IH |].
  destruct q; try exact IH.
  destruct tty; [| exact IH]. destruct err; [exact IH | destruct He].
Qed.

Lemma restored_calm {A} (m : Job A) (s : JobState) :
  emits calm m -> restoredCommands (since (trace s) (trace (snd (m s)))) = [].
Proof.
  intros H. destruct (H s) as [new [E F]]. rewrite E, since_app.
  apply restoredCommands_calm, F.
Qed.

Lemma restored_bind {A B} P (m : Job A) (k : A -> Job B) (s : JobState) :
  emits P m -> (forall a, emits P (k a)) ->
  restoredCommands (since (trace s) (trace (snd (bind m k s)))) =
  (restoredCommands (since (trace s) (trace (snd (m s))))
   ++ match fst (m s) with
      | Ok a => restoredCommands (since (trace (snd (m s))) (trace (snd (k a (snd (m s))))))
      | Fail _ => []
      end)%list.
Proof.
  intros Hm Hk. unfold bind. destruct (Hm s) as [n1 [E1 _]].
  destruct (m s) as [[a | e] s1]; cbn [fst snd] in *.
  - destruct (Hk a s1) as [n2 [E2 _]]. rewrite E2, E1.
    rewrite (since_eq (n2 ++ n1)%list) by apply app_assoc.
    rewrite !since_app. apply restoredCommands_app.
  - symmetry. apply app_nil_r.
Qed.

Lemma calm_quiet (e : Event) : quiet e -> calm e.
Proof.
  destruct e as [act err | q out err]; cbn [quiet calm]; [exact (fun _ => I) |].
  destruct q; try exact (fun _ => I). intros [].
Qed.

Lemma markDatabase_calm contID loc : emits calm (markDatabase contID loc).
Proof.
  unfold markDatabase, retrieveDataStateAt, updateDataStateAt.
  emits_in.
Qed.

Lemma fst_wrapErr {A} (m : Job A) wrap (s : JobState) (a : A) :
  fst (wrapErr m wrap s) = Ok a <-> fst (m s) = Ok a.
Proof.
  unfold wrapErr. destruct (m s) as [[a' | e] s1]; cbn [fst]; split; intros H;
    try exact H; discriminate H.
Qed.

Lemma snd_wrapErr {A} (m : Job A) wrap (s : JobState) :
  snd (wrapErr m wrap s) = snd (m s).
Proof. unfold wrapErr. destruct (m s) as [[a' | e] s1]; reflexivity. Qed.

Lemma fst_bind {A B} (m : Job A) (k : A -> Job B) (s : JobState) :
  fst (bind m k s) = match fst (m s) with
                     | Ok a => fst (k a (snd (m s)))
                     | Fail e => Fail e
                     end.
Proof. unfold bind. destruct (m s) as [[a | e] s1]; reflexivity. Qed.

Lemma ask_eq (q : Query) (s : JobState) :
  ask q s = (Ok (request (trace s) q),
             mkJobState (dbMark s) (dsa s)
               (Got q (fst (request (trace s) q)) (snd (request (trace s) q)) :: trace s)).
Proof. unfold ask. destruct (request (trace s) q). reflexivity. Qed.

(** [restoreDB] runs the restore command of its database at most once, and
    it has run it with success when it succeeds. *)
Lemma restoreDB_restored r contID unitName d (s : JobState) :
  let done := restoredCommands (since (trace s)
                                  (trace (snd (restoreDB r contID unitName d s)))) in
  (done = [] /\ fst (restoreDB r contID unitName d s) <> Ok tt)
  \/ done = [buildLogicalRestoreCommand r unitName d].
Proof.
  cbv zeta.
  pose proof (prepareDB_quiet r contID unitName) as Hprep.
  apply (emits_weaken _ calm _ calm_quiet) in Hprep.
  pose proof (markDatabase_calm contID
                (getDumpLocation r (Format d) unitName)) as Hmark.
  assert (Hfirst : emits calm
            (if string_eqb (Format d) plainFormat && string_eqb (dbName d) ""
             then wrapErr (prepareDB r contID unitName)
                    (fun err => errors_Wrapf err "failed to prepare database for dump: %s"
                                  [unitName])
             else ret tt)).
  { destruct (_ && _); [apply emits_wrapErr; exact Hprep | apply emits_ret]. }
  assert (Hlast : emits calm
            (if string_eqb (Format d) plainFormat then ret tt
             else wrapErr (markDatabase contID (getDumpLocation r (Format d) unitName))
                    (fun err => errors_Wrap err "failed to mark the database"))).
  { destruct (string_eqb _ _); [apply emits_ret | apply emits_wrapErr; exact Hmark]. }
  assert (Hany : forall A (m : Job A), emits calm m -> emits (fun _ => True) m).
  { intros A m H. eapply emits_weaken; [| exact H]. intros e _. exact I. }
  apply Hany in Hprep, Hmark.
  pose proof (Hany _ _ Hfirst) as Hfirst'. pose proof (Hany _ _ Hlast) as Hlast'.
  clear Hany. unfold restoreDB. cbv zeta.
  rewrite (restored_bind (fun _ => True)); [| exact Hfirst' | intros; emits_in].
  rewrite (restored_calm _ s Hfirst), fst_bind. cbn [app].
  destruct (fst _) as [[] | e]; [| left; split; [reflexivity | discriminate]].
  match goal with
  | |- context [bind (ask ?q) ?k (snd ?x)] => generalize (snd x); intros s1
  end.
  rewrite (restored_bind (fun _ => True)); [| emits_in | intros; emits_in].
  rewrite fst_bind, ask_eq. cbn [fst snd trace]. rewrite since_step.
  destruct (request (trace s1) _) as [out [e |]]; cbn [fst snd restoredCommands app].
  - left. rewrite bind_check. cbn [fst snd trace]. rewrite since_same.
    split; [reflexivity | discriminate].
  - right. rewrite bind_check.
    match goal with
    | |- context [trace (snd (?m ?s2))] =>
      pose proof (restored_calm m s2 Hlast) as Hnone
    end.
    cbn [trace] in Hnone. rewrite Hnone. reflexivity.
Qed.

(** The loop restores a prefix of its list, in order. *)
Lemma restoreAll_restored r contID (l : list (string * DBDefinition)) :
  forall s : JobState,
  exists done rest,
    l = (done ++ rest)%list
    /\ restoredCommands (since (trace s) (trace (snd (restoreAll r contID l s))))
       = map (fun p => buildLogicalRestoreCommand r (fst p) (snd p)) done
    /\ (fst (restoreAll r contID l s) = Ok tt -> rest = []).
Proof.
  assert (Hany : forall A (m : Job A) P, emits P m -> emits (fun _ => True) m).
  { intros A m P H. eapply emits_weaken; [| exact H]. intros e _. exact I. }
  induction l as [| [unitName d] more IH]; intros s; cbn [restoreAll].
  - exists [], []. unfold ret. cbn [fst snd]. rewrite since_same.
    split; [reflexivity |]. split; reflexivity.
  - rewrite (restored_bind (fun _ => True));
      [| apply emits_wrapErr, (Hany _ _ _ (restoreDB_inContainer r contID unitName d))
       | intros; apply (Hany _ _ _ (restoreAll_inContainer r contID more))].
    rewrite fst_bind, snd_wrapErr.
    destruct (restoreDB_restored r contID unitName d s) as [[Hdone Hfail] | Hdone];
      cbv zeta in *; rewrite Hdone.
    + destruct (fst (wrapErr _ _ s)) as [[] | e] eqn:Hres.
      * exfalso. apply Hfail. apply fst_wrapErr in Hres. exact Hres.
      * exists [], ((unitName, d) :: more).
        split; [reflexivity |]. split; [reflexivity | discriminate].
    + destruct (fst (wrapErr _ _ s)) as [[] | e] eqn:Hres.
      * destruct (IH (snd (restoreDB r contID unitName d s))) as [done [rest [E [Hd Hr]]]].
        exists ((unitName, d) :: done), rest.
        split; [cbn [app]; rewrite E; reflexivity |].
        split; [rewrite Hd; reflexivity | exact Hr].
      * exists [(unitName, d)], more.
        split; [reflexivity |]. split; [reflexivity | discriminate].
Qed.

Lemma emits_any {A} (P : Event -> Prop) (m : Job A) : emits P m -> emits (fun _ => True) m.
Proof. apply emits_weaken. intros e _. exact I. Qed.

Lemma getDBList_calm r dumpLocation meta contID :
  emits calm (getDBList r dumpLocation meta contID).
Proof.
  assert (emits calm (discoverDumpLocation dumpLocation)) as Hdiscover.
  { apply emits_silent. intros s. rewrite discoverDumpLocation_pure. reflexivity. }
  unfold getDBList, discoverCustomDump. emits_in.
Qed.

Lemma restoreDB_afterPreparing r contID unitName d :
  emits afterPreparing (restoreDB r contID unitName d).
Proof.
  unfold restoreDB, prepareDB, markDatabase, retrieveDataStateAt, updateDataStateAt.
  emits_in.
Qed.

Lemma restoreAll_afterPreparing r contID dbList :
  emits afterPreparing (restoreAll r contID dbList).
Proof.
  induction dbList as [| [unitName d] more IH]; cbn [restoreAll].
  - apply emits_ret.
  - pose proof (restoreDB_afterPreparing r contID unitName d). emits_in.
Qed.

Lemma getDBList_afterPreparing r dumpLocation meta contID :
  emits afterPreparing (getDBList r dumpLocation meta contID).
Proof.
  assert (emits afterPreparing (discoverDumpLocation dumpLocation)) as Hdiscover.
  { apply emits_silent. intros s. rewrite discoverDumpLocation_pure. reflexivity. }
  unfold getDBList, discoverCustomDump. emits_in.
Qed.

Lemma getDBList_steady r dumpLocation meta contID :
  steady (getDBList r dumpLocation meta contID).
Proof.
  assert (steady (discoverDumpLocation dumpLocation)) as Hdiscover.
  { intros s. rewrite discoverDumpLocation_pure. split; reflexivity. }
  unfold getDBList, discoverCustomDump. steady_auto.
Qed.

Lemma preparing_calm (new : Trace) : Forall preparing new -> restoredCommands new = [].
Proof.
  intros F. apply restoredCommands_calm. eapply Forall_impl; [| exact F].
  intros e. destruct e as [a err | q out err]; [exact (fun _ => I) |].
  destruct q; cbn [preparing calm]; try exact (fun _ => I); intros [].
Qed.

(** What [Run] does from the call of [getDBList] on, when it succeeds: it
    has run the restore commands of the databases [getDBList] returned, in
    the order [range] visits them, and made none of the preparing calls. *)
Lemma restore_after_preparing r contID (s1 : JobState) :
  let rest :=
    (bind (getDBList r (DumpLocation (Options r)) dumpMetafile contID) (fun dbList =>
     bind (look (fun t => rangeOrder t dbList)) (fun visited =>
     bind (restoreAll r contID visited) (fun _ =>
     bind (do (ExecCommand contID
                 (buildAnalyzeCommand (User (Database (globalCfg r)))
                    (Name (Database (globalCfg r))) (ParallelJobs (Options r))))) (fun err =>
     bind (check err (fun e => errors_Wrap e
                                 "failed to recalculate statistics after restore")) (fun _ =>
     bind (do (StopPostgres contID (DataDir (fsPool r)))) (fun err =>
     check err (fun e => errors_Wrap e "failed to stop Postgres instance")))))))) in
  fst (rest s1) = Ok tt ->
  exists dbList post,
    fst (getDBList r (DumpLocation (Options r)) dumpMetafile contID s1) = Ok dbList
    /\ trace (snd (rest s1)) = (post ++ trace s1)%list
    /\ Forall afterPreparing post
    /\ restoredCommands post
       = map (fun p => buildLogicalRestoreCommand r (fst p) (snd p))
           (rangeOrder
              (trace (snd (getDBList r (DumpLocation (Options r)) dumpMetafile contID s1)))
              dbList).
Proof.
  cbv zeta. intros H.
  pose proof (getDBList_afterPreparing r (DumpLocation (Options r)) dumpMetafile contID)
    as Hlist.
  pose proof (restoreAll_afterPreparing r contID) as Hall.
  match type of H with
  | fst (?m s1) = _ =>
    assert (emits afterPreparing m) as Hrest by emits_in;
    destruct (Hrest s1) as [post [E F]]
  end.
  clear Hlist Hall.
  pose proof (emits_any _ _ (getDBList_calm r (DumpLocation (Options r)) dumpMetafile contID))
    as HgetDBList.
  assert (HrestoreAll : forall l, emits (fun _ => True) (restoreAll r contID l))
    by (intros l; apply (emits_any _ _ (restoreAll_inContainer r contID l))).
  assert (Hdone : restoredCommands post = restoredCommands (since (trace s1) (post ++ trace s1)%list))
    by (rewrite since_app; reflexivity).
  rewrite <- E in Hdone.
  rewrite (restored_bind (fun _ => True)) in Hdone; [| emits_in | intros; emits_in].
  rewrite (restored_calm _ _ (getDBList_calm r (DumpLocation (Options r)) dumpMetafile contID))
    in Hdone.
  rewrite fst_bind in H. cbn [app] in Hdone.
  destruct (fst (getDBList r _ _ contID s1)) as [dbList | e] eqn:Hget; [| discriminate H].
  exists dbList, post.
  split; [reflexivity |]. split; [exact E |]. split; [exact F |].
  rewrite Hdone. clear Hdone E F Hrest.
  rewrite bind_look in H |- *.
  rewrite (restored_bind (fun _ => True)); [| apply HrestoreAll | intros; emits_in].
  rewrite fst_bind in H.
  match goal with
  | |- context [restoreAll r contID ?l ?s2] =>
    destruct (restoreAll_restored r contID l s2) as [done [rest [El [Hdone Hrest]]]];
    destruct (fst (restoreAll r contID l s2)) as [[] | e]; [| discriminate H];
    rewrite Hdone, (Hrest eq_refl), app_nil_r in *; subst done
  end.
  rewrite restored_calm by emits_in.
  rewrite app_nil_r. reflexivity.
Qed.

(** A successful [runInContainer]: the preparing calls, then the call of
    [getDBList] in a state with the mark and the timestamp of the start,
    then the restore of the databases it returned. *)
Lemma runInContainer_restored r contID (s : JobState) :
  fst (runInContainer r contID s) = Ok tt ->
  exists (s1 : JobState) dbList pre post,
    trace s1 = (pre ++ trace s)%list /\ dbMark s1 = dbMark s /\ dsa s1 = dsa s
    /\ Forall preparing pre
    /\ fst (getDBList r (DumpLocation (Options r)) dumpMetafile contID s1) = Ok dbList
    /\ trace (snd (runInContainer r contID s)) = (post ++ trace s1)%list
    /\ Forall afterPreparing post
    /\ restoredCommands post
       = map (fun p => buildLogicalRestoreCommand r (fst p) (snd p))
           (rangeOrder
              (trace (snd (getDBList r (DumpLocation (Options r)) dumpMetafile contID s1)))
              dbList).
Proof.
  pose (rest := (bind (getDBList r (DumpLocation (Options r)) dumpMetafile contID) (fun dbList =>
     bind (look (fun t => rangeOrder t dbList)) (fun visited =>
     bind (restoreAll r contID visited) (fun _ =>
     bind (do (ExecCommand contID
                 (buildAnalyzeCommand (User (Database (globalCfg r)))
                    (Name (Database (globalCfg r))) (ParallelJobs (Options r))))) (fun err =>
     bind (check err (fun e => errors_Wrap e
                                 "failed to recalculate statistics after restore")) (fun _ =>
     bind (do (StopPostgres contID (DataDir (fsPool r)))) (fun err =>
     check err (fun e => errors_Wrap e "failed to stop Postgres instance"))))))))).
  assert (Hfinish : forall (s1 : JobState) (pre : Trace) out,
            out = rest s1 ->
            trace s1 = (pre ++ trace s)%list -> dbMark s1 = dbMark s -> dsa s1 = dsa s ->
            Forall preparing pre ->
            fst out = Ok tt ->
            exists (s1 : JobState) dbList pre post,
              trace s1 = (pre ++ trace s)%list /\ dbMark s1 = dbMark s /\ dsa s1 = dsa s
              /\ Forall preparing pre
              /\ fst (getDBList r (DumpLocation (Options r)) dumpMetafile contID s1)
                 = Ok dbList
              /\ trace (snd out) = (post ++ trace s1)%list
              /\ Forall afterPreparing post
              /\ restoredCommands post
                 = map (fun p => buildLogicalRestoreCommand r (fst p) (snd p))
                     (rangeOrder
                        (trace (snd (getDBList r (DumpLocation (Options r)) dumpMetafile
                                       contID s1)))
                        dbList)).
  { intros s1 pre out -> Htrace Hmark Hdsa Hpre Hok.
    destruct (restore_after_preparing r contID s1 Hok) as [dbList [post [Hget [E [F Hdone]]]]].
    exists s1, dbList, pre, post. repeat (split; [assumption |]). assumption. }
  remember (runInContainer r contID s) as out eqn:Hout.
  unfold runInContainer in Hout. cbv zeta in Hout.
  rewrite bind_do, bind_check in Hout.
  destruct (perform (trace s) (ContainerStart contID)) as [e0 |];
    [subst out; intros H; discriminate H |].
  rewrite bind_do in Hout. cbn [trace dbMark dsa] in Hout.
  assert (Hconfigs : forall (s0 : JobState) (pre : Trace) out,
            out = bind (if (0 <? List.length (Configs (Options r)))%nat
                        then bind (do (UpdateConfigs (DataDir (fsPool r)) contID
                                         (Configs (Options r))))
                               (fun err => check err
                                             (fun e => errors_Wrap e "failed to update configs"))
                        else ret tt)
                    (fun _ => rest) s0 ->
            trace s0 = (pre ++ trace s)%list -> dbMark s0 = dbMark s -> dsa s0 = dsa s ->
            Forall preparing pre ->
            fst out = Ok tt ->
            exists (s1 : JobState) dbList pre post,
              trace s1 = (pre ++ trace s)%list /\ dbMark s1 = dbMark s /\ dsa s1 = dsa s
              /\ Forall preparing pre
              /\ fst (getDBList r (DumpLocation (Options r)) dumpMetafile contID s1)
                 = Ok dbList
              /\ trace (snd out) = (post ++ trace s1)%list
              /\ Forall afterPreparing post
              /\ restoredCommands post
                 = map (fun p => buildLogicalRestoreCommand r (fst p) (snd p))
                     (rangeOrder
                        (trace (snd (getDBList r (DumpLocation (Options r)) dumpMetafile
                                       contID s1)))
                        dbList)).
  { intros s0 pre out0 Hout0 Htrace Hmark Hdsa Hpre.
    destruct (0 <? List.length (Configs (Options r)))%nat.
    - rewrite bind_assoc, bind_do in Hout0.
      destruct (perform (trace s0) (UpdateConfigs _ contID _)) as [e |];
        rewrite bind_check in Hout0; [subst out0; intros H; discriminate H |].
      apply (Hfinish _ (Did (UpdateConfigs (DataDir (fsPool r)) contID
                               (Configs (Options r))) None :: pre) _ Hout0);
        cbn [trace dbMark dsa]; [rewrite Htrace; reflexivity | assumption | assumption |].
      constructor; [exact I | exact Hpre].
    - rewrite bind_ret in Hout0. apply (Hfinish _ pre _ Hout0); assumption. }
  match type of Hout with
  | context [perform ?t (CheckContainerReadiness contID)] =>
    destruct (perform t (CheckContainerReadiness contID)) as [e0 |]
  end.
  - destruct (as_ErrHealthCheck e0); cbn [negb] in Hout;
      [| rewrite bind_fail in Hout; subst out; intros H; discriminate H].
    rewrite bind_assoc, bind_do in Hout. cbn [trace dbMark dsa] in Hout.
    match type of Hout with
    | context [perform ?t (SetupPGData ?dir contID)] =>
      destruct (perform t (SetupPGData dir contID)) as [e1 |]
    end;
      rewrite bind_check in Hout; [subst out; intros H; discriminate H |].
    apply (Hconfigs _ [Did (SetupPGData (DataDir (fsPool r)) contID) None;
                       Did (CheckContainerReadiness contID) (Some e0);
                       Did (ContainerStart contID) None] _ Hout);
      cbn [trace dbMark dsa]; try reflexivity.
    repeat constructor.
  - rewrite bind_ret in Hout.
    apply (Hconfigs _ [Did (CheckContainerReadiness contID) None;
                       Did (ContainerStart contID) None] _ Hout);
      cbn [trace dbMark dsa]; try reflexivity.
    repeat constructor.
Qed.

(** The loop over the databases restores a prefix of its list, in order.
    The restore commands that ran with success during [restoreAll] are those
    of the first databases of the list, one command per database and in the
    order of the list; when the loop succeeds, they are those of the whole
    list. *)
Theorem restoreAll_restores_in_order r contID (l : list (string * DBDefinition))
  (s : JobState) :
  exists done rest,
    l = (done ++ rest)%list
    /\ restoredCommands (since (trace s) (trace (snd (restoreAll r contID l s))))
       = map (fun p => buildLogicalRestoreCommand r (fst p) (snd p)) done
    /\ (fst (restoreAll r contID l s) = Ok tt -> rest = []).
Proof. apply restoreAll_restored. Qed.

(** A run that succeeds has restored every database [getDBList] returned,
    each one once.  The calls of the run fall in two parts: first the
    preparing calls [before], up to the state [s1] in which the run called
    [getDBList], and then the others, [after].  [getDBList] returned
    [dbList] there, the configured databases if there are any.  The restore
    commands that ran with success during the run are the commands built
    for the entries of [dbList] in the order [range] visited them; [range]
    visiting every entry of a map exactly once, they are the commands of
    every entry, once each. *)
Theorem Run_success_restores_every_database (r : RestoreJob) (s : JobState) :
  (forall t dbList, Permutation (rangeOrder t dbList) dbList) ->
  fst (Run r s) = Ok tt ->
  exists id (s1 : JobState) dbList before after,
    since (trace s) (trace (snd (Run r s))) = (after ++ before)%list
    /\ Forall preparing before /\ Forall afterPreparing after
    /\ (exists cfg hc nm, In (Got (ContainerCreate cfg hc nm) id None) before)
    /\ trace s1 = (before ++ trace s)%list /\ dbMark s1 = dbMark s /\ dsa s1 = dsa s
    /\ fst (getDBList r (DumpLocation (Options r)) dumpMetafile id s1) = Ok dbList
    /\ (Databases (Options r) <> [] -> dbList = Databases (Options r))
    /\ restoredCommands (since (trace s) (trace (snd (Run r s))))
       = map (fun p => buildLogicalRestoreCommand r (fst p) (snd p))
           (rangeOrder
              (trace (snd (getDBList r (DumpLocation (Options r)) dumpMetafile id s1)))
              dbList)
    /\ Permutation (restoredCommands (since (trace s) (trace (snd (Run r s)))))
         (map (fun p => buildLogicalRestoreCommand r (fst p) (snd p)) dbList).
Proof.
  intros Hrange Hok.
  destruct (Run_shape r s) as [[e [E _]] | [pwd [base [id [rem [_ H]]]]]].
  - rewrite E in Hok. discriminate Hok.
  - cbv zeta in H. destruct H as [Hres [_ [_ E]]].
    rewrite Hok in Hres. symmetry in Hres.
    destruct (runInContainer_restored r id _ Hres)
      as [s1 [dbList [pre [post [Htrace [Hmark [Hdsa [Hpre [Hlist [Hpost [Fpost Hdone]]]]]]]]]]].
    cbn [trace dbMark dsa] in Htrace, Hmark, Hdsa.
    rewrite Hres, Hpost, Htrace in E. cbn [app] in E.
    match type of E with
    | _ = (_ :: since ?t (post ++ pre ++ ?t) ++ _)%list =>
      rewrite (since_eq (post ++ pre)%list t) in E by (rewrite <- app_assoc; reflexivity)
    end.
    exists id, s1, dbList.
    eexists (pre ++ [_; _; _])%list, (Did (RemoveContainer id) rem :: post).
    assert (Hall : restoredCommands (since (trace s) (trace (snd (Run r s))))
                   = map (fun p => buildLogicalRestoreCommand r (fst p) (snd p))
                       (rangeOrder
                          (trace (snd (getDBList r (DumpLocation (Options r)) dumpMetafile
                                         id s1)))
                          dbList)).
    { rewrite E. cbn [restoredCommands].
      rewrite <- app_assoc, restoredCommands_app, restoredCommands_app.
      cbn [restoredCommands app]. rewrite (preparing_calm pre Hpre). cbn [app].
      exact Hdone. }
    split; [rewrite E; cbn [app]; rewrite <- !app_assoc; reflexivity |].
    split; [apply Forall_app; split; [exact Hpre | repeat constructor] |].
    split; [constructor; [exact I | exact Fpost] |].
    split; [do 3 eexists; apply in_or_app; right; left; reflexivity |].
    split; [rewrite Htrace, <- app_assoc; reflexivity |].
    split; [exact Hmark |]. split; [exact Hdsa |]. split; [exact Hlist |].
    split.
    { intros Hconfigured. unfold getDBList in Hlist.
      destruct (Databases (Options r)) as [| db dbs]; [congruence |].
      change (0 <? List.length (db :: dbs))%nat with true in Hlist.
      unfold ret in Hlist. cbn [fst] in Hlist. congruence. }
    split; [exact Hall |].
    rewrite Hall. apply Permutation_map, Hrange.
Qed.

(** ** The names [formatDBName] produces *)

Lemma replaceNonWord_length (s : string) :
  forall skip, (String.length (replaceNonWord skip s) <= String.length s)%nat.
Proof.
  induction s as [| c rest IH]; intros skip; [apply Nat.le_refl |].
  destruct skip as [| k].
  - rewrite replaceNonWord_cons.
    destruct (utf8.DecodeRuneInString (String c rest)) as [r width].
    destruct (isWordRune r); cbn [String.length]; apply le_n_S, IH.
  - cbn [replaceNonWord String.length]. apply Nat.le_trans with (String.length rest);
      [apply IH | apply Nat.le_succ_diag_r].
Qed.

Lemma take_length (n : nat) (s : string) : (String.length (take n s) <= String.length s)%nat.
Proof.
  revert n. induction s as [| c rest IH]; intros [| n]; cbn [take String.length];
    try apply Nat.le_0_l.
  apply le_n_S, IH.
Qed.

(** The names [formatDBName] produces are safe to pass on a command line
    and never longer than the file name.  Every byte of the result is an
    ASCII letter, a digit or an underscore; the result has at most as many
    bytes as the file name; and the file names [formatDBName] leaves
    unchanged are exactly those made of such bytes only. *)
Theorem formatDBName_word_name (fileName : string) :
  (forall c, In c (list_ascii_of_string (formatDBName fileName)) -> wordByte c = true)
  /\ (String.length (formatDBName fileName) <= String.length fileName)%nat
  /\ (formatDBName fileName = fileName <-> allWord fileName = true).
Proof.
  split; [| split].
  - apply allWord_In, replaceNonWord_allWord.
  - unfold formatDBName, filenameFormatter_ReplaceAllString.
    eapply Nat.le_trans; [apply replaceNonWord_length |].
    unfold TrimSuffix. destruct (HasSuffix _ _); [apply take_length | apply Nat.le_refl].
  - split.
    + intros E. rewrite <- E. apply replaceNonWord_allWord.
    + intros H. unfold formatDBName.
      rewrite (filepath_Ext_allWord _ H), TrimSuffix_empty.
      apply replaceNonWord_fixed, H.
Qed.

(** ** Reading the timestamp of a dump *)

(** [retrieveDataStateAt] closes the attached stream exactly when it has
    attached to the exec with success, and it does so last, whether the
    timestamp could be read or not.  It never fails as a step of the job:
    errors come back beside the timestamp, which is empty whenever there is
    an error; the mark and the timestamp of the pool are untouched. *)
Theorem retrieveDataStateAt_closes_attach (contID dumpLocation : string) (s : JobState) :
  let res := retrieveDataStateAt contID dumpLocation s in
  let new := since (trace s) (trace (snd res)) in
  let cmd := ["sh"; "-c"; "pg_restore --list " ++ dumpLocation ++ " | head -n 10"] in
  (exists stamp err, fst res = Ok (stamp, err) /\ (err <> None -> stamp = ""))
  /\ (forall execID,
        In (Did (ContainerExecAttach execID) None) new ->
        exists cls out err,
          new = [Did (CloseAttach execID) cls; Got (DiscoverDataStateAt execID) out err;
                 Did (ContainerExecAttach execID) None;
                 Got (ContainerExecCreate contID cmd) execID None])
  /\ (forall execID cls,
        In (Did (CloseAttach execID) cls) new ->
        In (Did (ContainerExecAttach execID) None) new)
  /\ dbMark (snd res) = dbMark s /\ dsa (snd res) = dsa s.
Proof.
  cbv zeta.
  remember (retrieveDataStateAt contID dumpLocation s) as res eqn:Hres.
  unfold retrieveDataStateAt in Hres. cbv zeta in Hres. rewrite bind_ask in Hres.
  destruct (request (trace s) _) as [execID [e |]]; cbn [fst snd] in Hres.
  - subst res. unfold ret. cbn [fst snd trace dbMark dsa]. rewrite since_step.
    split; [do 2 eexists; split; [reflexivity | reflexivity] |].
    split; [intros x [Hin | []]; discriminate Hin |].
    split; [intros x cls [Hin | []]; discriminate Hin |].
    split; reflexivity.
  - rewrite bind_do in Hres. cbn [trace dbMark dsa] in Hres.
    destruct (perform _ (ContainerExecAttach execID)) as [e |].
    + subst res. unfold ret. cbn [fst snd trace dbMark dsa]. rewrite since_two.
      split; [do 2 eexists; split; [reflexivity | reflexivity] |].
      split; [intros x [Hin | [Hin | []]]; discriminate Hin |].
      split; [intros x cls [Hin | [Hin | []]]; discriminate Hin |].
      split; reflexivity.
    + unfold defer in Hres. rewrite bind_ask in Hres. cbn [trace dbMark dsa] in Hres.
      destruct (request _ (DiscoverDataStateAt execID)) as [stamp err].
      cbn [fst snd] in Hres.
      assert (Hnew : fst res = Ok (match err with Some _ => "" | None => stamp end, err)
                     /\ exists cls,
                          trace (snd res)
                          = ([Did (CloseAttach execID) cls;
                              Got (DiscoverDataStateAt execID) stamp err;
                              Did (ContainerExecAttach execID) None;
                              Got (ContainerExecCreate contID
                                     ["sh"; "-c";
                                      ("pg_restore --list " ++ dumpLocation
                                       ++ " | head -n 10")%string]) execID None]
                             ++ trace s)%list
                          /\ dbMark (snd res) = dbMark s /\ dsa (snd res) = dsa s).
      { subst res. destruct err as [e |]; unfold ret, bind, do;
          cbn [fst snd trace dbMark dsa]; (split; [reflexivity |]);
          eexists; (split; [reflexivity |]); split; reflexivity. }
      clear Hres. destruct Hnew as [Hfst [cls [Htrace [Hmark Hdsa]]]].
      rewrite Htrace, since_app.
      split.
      { do 2 eexists. split; [exact Hfst |]. destruct err; [reflexivity | congruence]. }
      split.
      { intros x [Hin | [Hin | [Hin | [Hin | []]]]]; try discriminate Hin.
        injection Hin as <-. do 3 eexists. reflexivity. }
      split.
      { intros x cls' [Hin | [Hin | [Hin | [Hin | []]]]]; try discriminate Hin.
        injection Hin as <- _. right. right. left. reflexivity. }
      split; assumption.
Qed.

(** ** Creating and reloading a job *)

(** A job that was created or reloaded never has zero parallel jobs, and
    reloading touches the options only.  [Reload] succeeds exactly when the
    options decode, keeps the name, the pool and the global configuration of
    the job, and takes the decoded options as they are unless their
    [ParallelJobs] is zero; [NewJob] does the same from the zero options, and
    wraps a decoding error a second time. *)
Theorem Reload_keeps_job_and_sets_jobs (r : RestoreJob) (cfg : list (string * YamlValue))
  (jobName : string) (pool : Pool) (global : global_Config) :
  match options_Unmarshal cfg (Options r) with
  | Ok o =>
    exists r', Reload r cfg = Ok r'
               /\ name r' = name r /\ fsPool r' = fsPool r /\ globalCfg r' = globalCfg r
               /\ ParallelJobs (Options r') <> 0%Z
               /\ (ParallelJobs o <> 0%Z -> Options r' = o)
               /\ (ParallelJobs o = 0%Z -> Options r' = withParallelJobs o 1)
  | Fail e => Reload r cfg = Fail (errors_Wrap e "failed to unmarshal configuration options")
  end
  /\ match options_Unmarshal cfg (mkRestoreOptions "" "" [] [] false 0 []) with
     | Ok o =>
       exists r', NewJob jobName pool cfg global = Ok r'
                  /\ name r' = jobName /\ fsPool r' = pool /\ globalCfg r' = global
                  /\ ParallelJobs (Options r') <> 0%Z
                  /\ Reload (mkRestoreJob jobName pool global
                               (mkRestoreOptions "" "" [] [] false 0 [])) cfg = Ok r'
     | Fail e =>
       NewJob jobName pool cfg global
       = Fail (errors_Wrap
                 (errors_Wrap e "failed to unmarshal configuration options")
                 "failed to unmarshal configuration options")
     end.
Proof.
  split.
  - unfold Reload. destruct (options_Unmarshal cfg (Options r)) as [o | e]; [| reflexivity].
    eexists. split; [reflexivity |]. unfold setDefaults. cbn [Options withOptions].
    destruct (ParallelJobs o =? 0)%Z eqn:E.
    + apply Z.eqb_eq in E.
      repeat (split; [reflexivity |]). split; [discriminate |].
      split; [intros H; contradiction | intros _; reflexivity].
    + apply Z.eqb_neq in E.
      repeat (split; [reflexivity |]). split; [exact E |].
      split; [intros _; reflexivity | intros H; contradiction].
  - unfold NewJob, Reload. cbn [Options].
    destruct (options_Unmarshal cfg _) as [o | e]; [| reflexivity].
    eexists. split; [reflexivity |]. unfold setDefaults. cbn [Options withOptions].
    destruct (ParallelJobs o =? 0)%Z eqn:E; cbn [Options withOptions withParallelJobs ParallelJobs].
    + change (defaultParallelJobs =? 0)%Z with false. cbn [Options name fsPool globalCfg ParallelJobs].
      repeat (split; [reflexivity |]). split; [discriminate | reflexivity].
    + rewrite E. cbn [Options name fsPool globalCfg ParallelJobs].
      apply Z.eqb_neq in E.
      repeat (split; [reflexivity |]). split; [exact E | reflexivity].
Qed.

(** ** Waiting for the container *)

Lemma restoreDB_restoring r contID unitName d :
  emits restoring (restoreDB r contID unitName d).
Proof.
  unfold restoreDB, prepareDB, markDatabase, retrieveDataStateAt, updateDataStateAt.
  emits_in.
Qed.

Lemma restoreAll_restoring r contID dbList :
  emits restoring (restoreAll r contID dbList).
Proof.
  induction dbList as [| [unitName d] more IH]; cbn [restoreAll].
  - apply emits_ret.
  - pose proof (restoreDB_restoring r contID unitName d). emits_in.
Qed.

Lemma getDBList_restoring r dumpLocation meta contID :
  emits restoring (getDBList r dumpLocation meta contID).
Proof.
  assert (emits restoring (discoverDumpLocation dumpLocation)) as Hdiscover.
  { apply emits_silent. intros s. rewrite discoverDumpLocation_pure. reflexivity. }
  unfold getDBList, discoverCustomDump. emits_in.
Qed.

Lemma bind_emits {A B} P (m : Job A) (k : A -> Job B) (s : JobState) :
  emits P (bind m k) ->
  exists later, trace (snd (bind m k s)) = (later ++ trace s)%list /\ Forall P later.
Proof. intros H. apply H. Qed.

(** The start of [runInContainer]: how the readiness check decides what
    follows. *)
Lemma runInContainer_readiness r contID (s : JobState) :
  let body := since (trace s) (trace (snd (runInContainer r contID s))) in
  (forall dir c err,
     In (Did (SetupPGData dir c) err) body ->
     dir = DataDir (fsPool r) /\ c = contID
     /\ exists e, as_ErrHealthCheck e = true
                  /\ In (Did (CheckContainerReadiness contID) (Some e)) body)
  /\ (forall c e,
        In (Did (CheckContainerReadiness c) (Some e)) body ->
        as_ErrHealthCheck e = false ->
        c = contID
        /\ fst (runInContainer r contID s) = Fail (errors_Wrap e "failed to readiness check")
        /\ body = [Did (CheckContainerReadiness contID) (Some e);
                   Did (ContainerStart contID) None]).
Proof.
  cbv zeta.
  pose proof (getDBList_restoring r (DumpLocation (Options r)) dumpMetafile contID) as Hlist.
  pose proof (restoreAll_restoring r contID) as Hall.
  remember (runInContainer r contID s) as res eqn:Hres.
  unfold runInContainer in Hres. cbv zeta in Hres.
  rewrite bind_do, bind_check in Hres.
  destruct (perform (trace s) (ContainerStart contID)) as [e0 |].
  { subst res. cbn [fst snd trace]. rewrite since_step.
    split; [intros dir c err [Hin | []]; discriminate Hin
           | intros c e [Hin | []]; discriminate Hin]. }
  rewrite bind_do in Hres. cbn [trace dbMark dsa] in Hres.
  match type of Hres with
  | context [perform ?t (CheckContainerReadiness contID)] =>
    destruct (perform t (CheckContainerReadiness contID)) as [e0 |] eqn:Hcheck
  end.
  - destruct (as_ErrHealthCheck e0) eqn:Hhealth; cbn [negb] in Hres.
    + rewrite bind_assoc, bind_do in Hres. cbn [trace dbMark dsa] in Hres.
      match type of Hres with
      | context [perform ?t (SetupPGData ?dir contID)] =>
        destruct (perform t (SetupPGData dir contID)) as [e1 |] eqn:Hsetup
      end.
      * rewrite bind_check in Hres. subst res. cbn [fst snd trace]. rewrite since_three.
        split.
        -- intros dir c err [Hin | [Hin | [Hin | []]]]; try discriminate Hin.
           injection Hin as <- <- _. split; [reflexivity |]. split; [reflexivity |].
           exists e0. split; [exact Hhealth | right; left; reflexivity].
        -- intros c e [Hin | [Hin | [Hin | []]]] He; try discriminate Hin.
           injection Hin as _ <-. congruence.
      * rewrite bind_check in Hres.
        match type of Hres with
        | res = bind ?m ?k ?s3 =>
          destruct (bind_emits restoring m k s3) as [later [E F]];
            [pose proof Hlist; pose proof Hall; emits_in |]
        end.
        rewrite <- Hres in E. cbn [trace] in E. rewrite Forall_forall in F.
        rewrite (since_eq (later ++ [Did (SetupPGData (DataDir (fsPool r)) contID) None;
                                     Did (CheckContainerReadiness contID) (Some e0);
                                     Did (ContainerStart contID) None])%list)
          by (rewrite E, <- app_assoc; reflexivity).
        split.
        -- intros dir c err Hin. apply in_app_or in Hin. destruct Hin as [Hin | Hin].
           ++ destruct (F _ Hin).
           ++ destruct Hin as [Hin | [Hin | [Hin | []]]]; try discriminate Hin.
              injection Hin as <- <- _. split; [reflexivity |]. split; [reflexivity |].
              exists e0. split; [exact Hhealth |].
              apply in_or_app. right. right. left. reflexivity.
        -- intros c e Hin He. apply in_app_or in Hin. destruct Hin as [Hin | Hin].
           ++ destruct (F _ Hin).
           ++ destruct Hin as [Hin | [Hin | [Hin | []]]]; try discriminate Hin.
              injection Hin as _ <-. congruence.
    + rewrite bind_fail in Hres. subst res. cbn [fst snd trace]. rewrite since_two.
      split.
      * intros dir c err [Hin | [Hin | []]]; discriminate Hin.
      * intros c e [Hin | [Hin | []]] He; try discriminate Hin.
        injection Hin as <- <-. repeat split.
  - rewrite bind_ret in Hres.
    match type of Hres with
    | res = bind ?m ?k ?s3 =>
      destruct (bind_emits restoring m k s3) as [later [E F]];
        [pose proof Hlist; pose proof Hall; emits_in |]
    end.
    rewrite <- Hres in E. cbn [trace] in E. rewrite Forall_forall in F.
    rewrite (since_eq (later ++ [Did (CheckContainerReadiness contID) None;
                                 Did (ContainerStart contID) None])%list)
      by (rewrite E, <- app_assoc; reflexivity).
    split.
    + intros dir c err Hin. apply in_app_or in Hin. destruct Hin as [Hin | Hin].
      * destruct (F _ Hin).
      * destruct Hin as [Hin | [Hin | []]]; discriminate Hin.
    + intros c e Hin He. apply in_app_or in Hin. destruct Hin as [Hin | Hin].
      * destruct (F _ Hin).
      * destruct Hin as [Hin | [Hin | []]]; discriminate Hin.
Qed.

(** How a run waits for the container.  The Postgres data directory is set
    up only after the readiness check of the created container failed with a
    health check error, and then for the data directory of the pool.  Any
    other failure of the readiness check ends the run with that error,
    wrapped as "failed to readiness check": the container was started and
    checked, its logs are printed and it is removed; nothing was discovered
    or restored. *)
Theorem Run_readiness_check (r : RestoreJob) (s : JobState) :
  let new := since (trace s) (trace (snd (Run r s))) in
  (forall dir c err,
     In (Did (SetupPGData dir c) err) new ->
     dir = DataDir (fsPool r)
     /\ exists e, as_ErrHealthCheck e = true
                  /\ In (Did (CheckContainerReadiness c) (Some e)) new)
  /\ (forall c e,
        In (Did (CheckContainerReadiness c) (Some e)) new ->
        as_ErrHealthCheck e = false ->
        fst (Run r s) = Fail (errors_Wrap e "failed to readiness check")
        /\ exists rem logs cfg hc pwd,
             new = [Did (RemoveContainer c) rem;
                    Did (PrintContainerLogs (restoreContainerName r)) logs;
                    Did (CheckContainerReadiness c) (Some e);
                    Did (ContainerStart c) None;
                    Got (ContainerCreate cfg hc (restoreContainerName r)) c None;
                    Got GeneratePassword pwd None;
                    Did (PullImage (DockerImage (Options r))) None]).
Proof.
  cbv zeta.
  destruct (Run_shape r s) as [[e0 [_ [_ [_ F]]]] | [pwd [base [id [rem [_ H]]]]]].
  - rewrite Forall_forall in F. split.
    + intros dir c err Hin. destruct (F _ Hin).
    + intros c e Hin. destruct (F _ Hin).
  - cbv zeta in H. destruct H as [Hres [_ [_ E]]].
    match type of E with
    | _ = (_ :: ?logs ++ _ ++ ?created)%list =>
      destruct (runInContainer_readiness r id
                  (mkJobState (dbMark s) (dsa s) (created ++ trace s)%list)) as [Hsetup Hcheck];
      cbn [trace] in Hsetup, Hcheck;
      assert (Hlogs : forall e, In e logs ->
                exists err, e = Did (PrintContainerLogs (restoreContainerName r)) err)
        by (intros e1 He1; destruct (fst (runInContainer r id _));
            [destruct He1 | destruct He1 as [<- | []]; eexists; reflexivity])
    end.
    rewrite E, Hres. split.
    + intros dir c err Hin.
      destruct Hin as [Hin | Hin]; [discriminate Hin |].
      apply in_app_or in Hin. destruct Hin as [Hin | Hin].
      { destruct (Hlogs _ Hin) as [err' Herr]. discriminate Herr. }
      apply in_app_or in Hin. destruct Hin as [Hin | Hin].
      * destruct (Hsetup _ _ _ Hin) as [Hdir [-> [e [He Hc]]]].
        split; [exact Hdir |]. exists e. split; [exact He |].
        right. apply in_or_app. right. apply in_or_app. left. exact Hc.
      * destruct Hin as [Hin | [Hin | [Hin | []]]]; discriminate Hin.
    + intros c e Hin He.
      destruct Hin as [Hin | Hin]; [discriminate Hin |].
      apply in_app_or in Hin. destruct Hin as [Hin | Hin].
      { destruct (Hlogs _ Hin) as [err' Herr]. discriminate Herr. }
      apply in_app_or in Hin. destruct Hin as [Hin | Hin].
      * destruct (Hcheck _ _ Hin He) as [-> [Hfail Hbody]].
        rewrite Hfail, Hbody. split; [reflexivity |].
        do 5 eexists. cbn [app]. reflexivity.
      * destruct Hin as [Hin | [Hin | [Hin | []]]]; discriminate Hin.
Qed.

End Steps.

(** ** The properties at work on the sample runs *)

Ltac found := vm_compute; repeat (first [left; reflexivity | right]).

Lemma Run_removes_created_container_witness :
  exists rem earlier,
    since [] (trace (snd (@Run (scripted sampleScenario) (sampleJob 1)
                            (freshState sampleScenario ""))))
    = Did (RemoveContainer "c0ffee") rem :: earlier
    /\ forall c err, ~ In (Did (RemoveContainer c) err) earlier.
Proof.
  refine (@Run_removes_created_container (scripted sampleScenario) (sampleJob 1)
            (freshState sampleScenario "")
            (@buildContainerConfig (scripted sampleScenario) (sampleJob 1) "s3cr3t")
            (mkHostConfig [] []) "dblab_lr_abc" "c0ffee" _).
  found.
Defined.


Lemma Run_prints_logs_on_failure_witness :
  exists nm err,
    In (Did (PrintContainerLogs nm) err)
       (since [] (trace (snd (@Run (scripted failingRestoreScenario) (sampleJob 1)
                               (freshState failingRestoreScenario ""))))).
Proof.
  apply (proj2 (@Run_prints_logs_on_failure (scripted failingRestoreScenario) (sampleJob 1)
                  (freshState failingRestoreScenario ""))).
  split.
  - eexists. vm_compute. reflexivity.
  - exists (@buildContainerConfig (scripted failingRestoreScenario) (sampleJob 1) "s3cr3t"),
      (mkHostConfig [] []), "dblab_lr_abc", "c0ffee".
    found.
Defined.

Lemma Run_works_in_created_container_witness :
  Forall (fun e => forall c, containerOf e = Some c -> c = "c0ffee")
    (since [] (trace (snd (@Run (scripted sampleScenario) (sampleJob 1)
                             (freshState sampleScenario ""))))).
Proof.
  apply Forall_forall. intros e He c.
  refine (@Run_works_in_created_container (scripted sampleScenario) (sampleJob 1)
            (freshState sampleScenario "")
            (@buildContainerConfig (scripted sampleScenario) (sampleJob 1) "s3cr3t")
            (mkHostConfig [] []) "dblab_lr_abc" "c0ffee" _ e c He).
  found.
Defined.

Lemma Run_mounts_dump_location_witness :
  In (Got (ContainerCreate
             (@buildContainerConfig (scripted noStampScenario) mountedJob "s3cr3t")
             (mkHostConfig [] [mkMount "/var/lib/dblab/dump" "/var/lib/dblab/dump"])
             "dblab_lr_abc") "c0ffee" None)
     (since [] (trace (snd (@Run (scripted noStampScenario) mountedJob
                              (freshState noStampScenario "")))))
  /\ exists base,
       @cont_BuildHostConfig (scripted noStampScenario)
         [Did (PullImage "postgres:12") None] "/var/lib/dblab/data" [] = Ok base
       /\ Settings (mkHostConfig [] [mkMount "/var/lib/dblab/dump" "/var/lib/dblab/dump"])
          = Settings base
       /\ Mounts (mkHostConfig [] [mkMount "/var/lib/dblab/dump" "/var/lib/dblab/dump"])
          = (Mounts base ++ [mkMount "/var/lib/dblab/dump" "/var/lib/dblab/dump"])%list.
Proof.
  assert (Hin : In (Got (ContainerCreate
                           (@buildContainerConfig (scripted noStampScenario) mountedJob
                              "s3cr3t")
                           (mkHostConfig []
                              [mkMount "/var/lib/dblab/dump" "/var/lib/dblab/dump"])
                           "dblab_lr_abc") "c0ffee" None)
                   (since [] (trace (snd (@Run (scripted noStampScenario) mountedJob
                                            (freshState noStampScenario ""))))))
    by found.
  split; [exact Hin |].
  exact (@Run_mounts_dump_location (scripted noStampScenario) mountedJob
           (freshState noStampScenario "") _ _ _ _ _ Hin).
Defined.

Lemma Run_success_ends_with_analyze_stop_remove_witness :
  exists id rem earlier,
    since [] (trace (snd (@Run (scripted sampleScenario) (sampleJob 1)
                            (freshState sampleScenario ""))))
    = Did (RemoveContainer id) rem
      :: Did (StopPostgres id "/data") None
      :: Did (ExecCommand id ["vacuumdb"; "--analyze"; "--jobs"; "1";
                              "--username"; "postgres"; "--all"]) None
      :: earlier.
Proof.
  refine (@Run_success_ends_with_analyze_stop_remove (scripted sampleScenario) (sampleJob 1)
            (freshState sampleScenario "") _).
  vm_compute. reflexivity.
Defined.

Lemma restoreAll_stops_at_first_failure_witness :
  exists e s2,
    @restoreAll (scripted failingRestoreScenario) (sampleJob 1) "c0ffee"
      ([] ++ ("orders", mkDBDefinition [] directoryFormat "")
          :: [("users", mkDBDefinition [] directoryFormat "")])%list
      (freshState failingRestoreScenario "")
    = (Fail (errors_Wrap e "failed to restore a database"), s2).
Proof.
  do 2 eexists.
  refine (@restoreAll_stops_at_first_failure (scripted failingRestoreScenario) (sampleJob 1)
            "c0ffee" [] [("users", mkDBDefinition [] directoryFormat "")]
            "orders" (mkDBDefinition [] directoryFormat "")
            (freshState failingRestoreScenario "") (freshState failingRestoreScenario "")
            _ _ _ _).
  - reflexivity.
  - vm_compute. reflexivity.
Defined.

Lemma restoreDB_keeps_mark_unless_restored_witness :
  dbMark (snd (@restoreDB (scripted sampleScenario) (sampleJob 1) "c0ffee" "backup.sql"
                 (mkDBDefinition [] plainFormat "payments")
                 (freshState sampleScenario "20190101000000")))
  = dbmarker.mkConfig "20190101000000" dbmarker.LogicalDataType
  /\ dsa (snd (@restoreDB (scripted sampleScenario) (sampleJob 1) "c0ffee" "backup.sql"
                 (mkDBDefinition [] plainFormat "payments")
                 (freshState sampleScenario "20190101000000"))) = 0%Z.
Proof.
  refine (@restoreDB_keeps_mark_unless_restored (scripted sampleScenario) (sampleJob 1)
            "c0ffee" "backup.sql" (mkDBDefinition [] plainFormat "payments")
            (freshState sampleScenario "20190101000000") _).
  left. reflexivity.
Defined.

Lemma markDatabase_saves_extracted_timestamp_witness :
  fst (@markDatabase (scripted sampleScenario) "c0ffee" "/dump/orders"
         (freshState sampleScenario "")) = Ok tt
  /\ dbMark (snd (@markDatabase (scripted sampleScenario) "c0ffee" "/dump/orders"
                    (freshState sampleScenario "")))
     = dbmarker.mkConfig "20200101120000" dbmarker.LogicalDataType
  /\ dsa (snd (@markDatabase (scripted sampleScenario) "c0ffee" "/dump/orders"
                 (freshState sampleScenario ""))) = 20200101120000%Z.
Proof.
  destruct (@markDatabase_saves_extracted_timestamp (scripted sampleScenario)
              "c0ffee" "/dump/orders" (freshState sampleScenario "")
              (snd (@retrieveDataStateAt (scripted sampleScenario) "c0ffee" "/dump/orders"
                      (freshState sampleScenario "")))
              "20200101120000")
    as [Hok [_ [Hmark Hdsa]]].
  - vm_compute. reflexivity.
  - discriminate.
  - reflexivity.
  - reflexivity.
  - split; [exact Hok |]. split; [exact Hmark | exact Hdsa].
Defined.

Lemma Run_saved_marks_descend_witness :
  descends (dbmarker.mkConfig "" dbmarker.LogicalDataType)
    (since [] (trace (snd (@Run (scripted sampleScenario) (sampleJob 1)
                             (freshState sampleScenario "")))))
    (dbmarker.mkConfig "20200101120000" dbmarker.LogicalDataType).
Proof.
  refine (proj2 (@Run_saved_marks_descend (scripted sampleScenario) (sampleJob 1)
                   (freshState sampleScenario ""))
            (dbmarker.mkConfig "20200101120000" dbmarker.LogicalDataType) None _).
  found.
Defined.

Lemma prepareDB_removes_temp_file_witness :
  fst (@prepareDB (scripted sampleScenario) (sampleJob 1) "c0ffee" "legacy-db.sql"
         (freshState sampleScenario "")) = Ok tt.
Proof.
  apply (proj2 (proj1 (proj2 (@prepareDB_removes_temp_file (scripted sampleScenario)
                                (sampleJob 1) "c0ffee" "legacy-db.sql"
                                (freshState sampleScenario "")
                                "/dump/createdb_legacy-db.sql_*.sql" eq_refl)))).
  found.
Defined.

Lemma restoreDB_prepares_before_restoring_witness :
  exists tmp prep,
    since [] (trace (snd (@restoreDB (scripted sampleScenario) (sampleJob 1) "c0ffee"
                            "legacy-db.sql" (mkDBDefinition [] plainFormat "")
                            (freshState sampleScenario ""))))
    = Got (ExecCommandWithOutput "c0ffee" true
             ["psql"; "--username"; "postgres"; "--dbname"; "legacy_db";
              "--file"; "/dump/legacy-db.sql"]) "" None :: prep
    /\ In (Did (WriteFile tmp (creationSQL "'legacy_db'" "'postgres'")) None) prep
    /\ In (Did (ExecCommand "c0ffee"
                  ["psql"; "--username"; "postgres"; "--dbname"; "postgres";
                   "--file"; tmp]) None) prep.
Proof.
  refine (proj2 (@restoreDB_prepares_before_restoring (scripted sampleScenario)
                   (sampleJob 1) "c0ffee" "legacy-db.sql"
                   (mkDBDefinition [] plainFormat "") (freshState sampleScenario "")
                   "" None
                   ["psql"; "--username"; "postgres"; "--dbname"; "legacy_db";
                    "--file"; "/dump/legacy-db.sql"]
                   eq_refl eq_refl _)).
  found.
Defined.

Lemma discoverDumpLocation_classifies_witness :
  @classified (scripted sampleScenario) [] "/dump"
    [mkFileInfo "backup.sql" false; mkFileInfo "legacy-db.sql" false;
     mkFileInfo "orders" true; mkFileInfo "users" true]
    "backup.sql" (mkDBDefinition [] plainFormat "payments")
  /\ Format (mkDBDefinition [] plainFormat "payments") <> customFormat.
Proof.
  destruct (@discoverDumpLocation_classifies (scripted sampleScenario) "/dump"
              (freshState sampleScenario "")
              [("backup.sql", mkDBDefinition [] plainFormat "payments");
               ("legacy-db.sql", mkDBDefinition [] plainFormat "");
               ("orders", mkDBDefinition [] directoryFormat "");
               ("users", mkDBDefinition [] directoryFormat "")]
              eq_refl) as [fileInfos [Hdir [Hclass _]]].
  injection Hdir as <-.
  exact (Hclass "backup.sql" (mkDBDefinition [] plainFormat "payments") eq_refl).
Defined.

Lemma discoverDumpLocation_unreadable_file_witness :
  exists info e,
    In info (scEntries sampleScenario) /\ fiIsDir info = false
    /\ @os_Open (scripted sampleScenario) [] (path_Join ["/backups"; fiName info]) = Fail e
    /\ @discoverDumpLocation (scripted sampleScenario) "/backups" (freshState sampleScenario "")
       = (Fail (errors_Wrap e "failed to open dump file"), freshState sampleScenario "").
Proof.
  refine (@discoverDumpLocation_unreadable_file (scripted sampleScenario) "/backups"
            (freshState sampleScenario "") (scEntries sampleScenario)
            (mkFileInfo "backup.sql" false) errNotExist eq_refl _ eq_refl eq_refl eq_refl).
  left. reflexivity.
Defined.

Lemma getDBList_sources_witness :
  since [] (trace (snd (@getDBList (scripted sampleScenario) listedJob "/dump" dumpMetafile
                          "c0ffee" (freshState sampleScenario "")))) = [].
Proof.
  destruct (@getDBList_sources (scripted sampleScenario) listedJob "/dump" dumpMetafile
              "c0ffee" (freshState sampleScenario "")
              [("shop", mkDBDefinition ["public.items"] directoryFormat "")] eq_refl)
    as [[_ [_ H]] | [[H _] | [H _]]].
  - exact H.
  - discriminate H.
  - discriminate H.
Defined.

Lemma restoreAll_restores_in_order_witness :
  exists done rest,
    [("orders", mkDBDefinition [] directoryFormat "");
     ("users", mkDBDefinition [] directoryFormat "")] = (done ++ rest)%list
    /\ restoredCommands
         (since [] (trace (snd (@restoreAll (scripted sampleScenario) (sampleJob 1) "c0ffee"
                                  [("orders", mkDBDefinition [] directoryFormat "");
                                   ("users", mkDBDefinition [] directoryFormat "")]
                                  (freshState sampleScenario "")))))
       = map (fun p => @buildLogicalRestoreCommand (scripted sampleScenario) (sampleJob 1)
                         (fst p) (snd p)) done
    /\ (fst (@restoreAll (scripted sampleScenario) (sampleJob 1) "c0ffee"
               [("orders", mkDBDefinition [] directoryFormat "");
                ("users", mkDBDefinition [] directoryFormat "")]
               (freshState sampleScenario "")) = Ok tt -> rest = []).
Proof.
  exact (@restoreAll_restores_in_order (scripted sampleScenario) (sampleJob 1) "c0ffee"
           [("orders", mkDBDefinition [] directoryFormat "");
            ("users", mkDBDefinition [] directoryFormat "")]
           (freshState sampleScenario "")).
Defined.

Lemma Run_success_restores_every_database_witness :
  Permutation
    (restoredCommands
       (since [] (trace (snd (@Run (scripted sampleScenario) listedJob
                                (freshState sampleScenario ""))))))
    (map (fun p => @buildLogicalRestoreCommand (scripted sampleScenario) listedJob
                     (fst p) (snd p))
       (Databases (Options listedJob))).
Proof.
  destruct (@Run_success_restores_every_database (scripted sampleScenario) listedJob
              (freshState sampleScenario "")
              (fun t dbList => Permutation_refl dbList))
    as [id [s1 [dbList [before [after [_ [_ [_ [_ [_ [_ [_ [_ [Hdb [_ Hperm]]]]]]]]]]]]]]].
  - vm_compute. reflexivity.
  - rewrite <- (Hdb ltac:(discriminate)). exact Hperm.
Defined.

Lemma formatDBName_word_name_witness : formatDBName "legacy_db" = "legacy_db".
Proof.
  apply (proj2 (proj2 (proj2 (formatDBName_word_name "legacy_db")))).
  reflexivity.
Defined.

Lemma retrieveDataStateAt_closes_attach_witness :
  exists cls out err,
    since [] (trace (snd (@retrieveDataStateAt (scripted sampleScenario) "c0ffee"
                            "/dump/orders" (freshState sampleScenario ""))))
    = [Did (CloseAttach "exec") cls; Got (DiscoverDataStateAt "exec") out err;
       Did (ContainerExecAttach "exec") None;
       Got (ContainerExecCreate "c0ffee"
              ["sh"; "-c"; "pg_restore --list /dump/orders | head -n 10"]) "exec" None].
Proof.
  refine (proj1 (proj2 (@retrieveDataStateAt_closes_attach (scripted sampleScenario)
                          "c0ffee" "/dump/orders" (freshState sampleScenario "")))
            "exec" _).
  found.
Defined.

Lemma Reload_keeps_job_and_sets_jobs_witness :
  exists r',
    @Reload (scripted sampleScenario) (sampleJob 0) [] = Ok r'
    /\ name r' = "logicalRestore"
    /\ fsPool r' = fsPool (sampleJob 0)
    /\ globalCfg r' = globalCfg (sampleJob 0)
    /\ ParallelJobs (Options r') <> 0%Z
    /\ (ParallelJobs (sampleOptions 0) <> 0%Z -> Options r' = sampleOptions 0)
    /\ (ParallelJobs (sampleOptions 0) = 0%Z
        -> Options r' = withParallelJobs (sampleOptions 0) 1).
Proof.
  exact (proj1 (@Reload_keeps_job_and_sets_jobs (scripted sampleScenario) (sampleJob 0) []
                  "logicalRestore" (fsPool (sampleJob 0)) (globalCfg (sampleJob 0)))).
Defined.

Lemma Run_readiness_check_witness :
  fst (@Run (unready sampleScenario (External "no route to host")) (sampleJob 1)
         (@mkJobState (unready sampleScenario (External "no route to host"))
            (dbmarker.mkConfig "" dbmarker.LogicalDataType) 0%Z []))
  = Fail (errors_Wrap (External "no route to host") "failed to readiness check")
  /\ exists e,
       as_ErrHealthCheck e = true
       /\ In (Did (CheckContainerReadiness "c0ffee") (Some e))
            (since [] (trace (snd (@Run (unready sampleScenario
                                           (ErrHealthCheck "container is unhealthy"))
                                     (sampleJob 1)
                                     (@mkJobState (unready sampleScenario
                                                     (ErrHealthCheck "container is unhealthy"))
                                        (dbmarker.mkConfig "" dbmarker.LogicalDataType)
                                        0%Z []))))).
Proof.
  split.
  - refine (proj1 (proj2 (@Run_readiness_check
                            (unready sampleScenario (External "no route to host"))
                            (sampleJob 1)
                            (@mkJobState (unready sampleScenario (External "no route to host"))
                               (dbmarker.mkConfig "" dbmarker.LogicalDataType) 0%Z []))
                     "c0ffee" (External "no route to host") _ eq_refl)).
    found.
  - refine (proj2 (proj1 (@Run_readiness_check
                            (unready sampleScenario (ErrHealthCheck "container is unhealthy"))
                            (sampleJob 1)
                            (@mkJobState (unready sampleScenario
                                            (ErrHealthCheck "container is unhealthy"))
                               (dbmarker.mkConfig "" dbmarker.LogicalDataType) 0%Z []))
                     "/data" "c0ffee" None _)).
    found.
Defined.
